(* ===== verification/_CoqProject ===== *)
-Q . S2P
Prelude.v
ObjectStore.v
Types.v
IndexedDB.v
SampleData.v
InitDB.v
JsString.v
JsNumber.v
JsObject.v
VocabularyService.v
PopularTags.v
StudySlice.v
TestSlice.v
UserSlice.v
VocabularySlice.v
Pages.v
Validation.v
Store.v
App.v
