(* ===== verification/Prelude.v ===== *)
(** * A verification development of the English vocabulary app

    The program (TypeScript, under [src/src/]) is a single-page vocabulary
    trainer.  Its parts, leaves first, and how they interact:

    - the browser object store, wrapped by [IndexedDBManager]
      ([services/database/indexedDB.ts]): five named object stores (words,
      word sets, user progress, study sessions, settings), each a set of
      records ordered by primary key, with secondary indexes;
    - the seeding logic [DatabaseInitializer] ([services/database/initDB.ts]),
      which opens the store, imports a fetched JSON payload or the bundled
      sample data ([data/sampleWords.ts]) when the word-set store is empty,
      resets the store and reports counts;
    - the read path [VocabularyService] ([services/vocabularyService.ts]):
      lookups, search with filters, random sampling, custom words, popular
      tags; it initialises the store lazily through the initializer;
    - the Redux slices ([store/slices/*.ts]): the study-session and the
      test-session state machines, the user profile and the vocabulary view
      state, whose async thunks call the service;
    - the pages ([pages/Home/HomePage.tsx], [pages/Study/StudyPage.tsx]) that
      dispatch slice actions;
    - the validation helpers ([utils/validationUtils.ts]).

    Layout of the development (one file per component, in dependency
    order; each file has a Module [...Proofs] with its theorems and a
    Module [...Witnesses] applying them to concrete inputs):

    - [Prelude] (this file): the result type and the state-and-exception
      monad [ST] in which every asynchronous operation is modelled, its
      notation (scope [js_scope]), its laws as a rewrite database
      [st_laws], the hint databases [preserves] (invariants kept by a
      computation) and [st_ok] (computations that do not throw), and
      generic lemmas on lists and on the order of strings.
    - [ObjectStore]: one browser object store as a key-sorted association
      list, against the interface [KeyOrder] (instances for the string and
      the [userId]/[wordId] pair keys); its sortedness invariant and its
      refinement of a finite map ([gmap]).
    - [Types]: the interfaces and constant objects of [types/index.ts].
    - [IndexedDB]: [IndexedDBManager] in the monad [ST DBState exn]: the
      connection flag and the browser's database, [init] with its upgrade,
      every method (one transaction per request, [bulkAdd] atomic); the
      invariant [state_wf] kept by every method, the refinement of a map
      per store (each write changes its own store only), the put/get round
      trip and the error paths (closed connection, taken key).
    - [SampleData]: the six sample words and four word sets, with the
      module's load time as a parameter.
    - [InitDB]: [DatabaseInitializer] over the browser's choices [Env]
      (clock, [open], [fetch], dynamic import): initialize, the import with
      its fallback, reset and status; from any state with no word set,
      the import of exactly the bundled sets and words when the seed file
      fails, no import when word sets exist, the partial JSON import, the
      retry inside [checkAndImportInitialData].
    - [JsString], [JsNumber], [JsObject]: the JavaScript built-ins the
      code calls: UTF-8 strings with [trim], [toLowerCase], [includes],
      [slice]; [parseInt] (leading white space, sign, [0x] prefix, the
      longest run of digits, [NaN] when there is none, the value rounded
      to the nearest double or an infinity), exact on the integers up to
      [2^53] and stopping at the first non-digit of a decimal or exponent
      text; plain objects as dictionaries
      with their prototype lookups and the [__proto__] setter,
      [Object.entries] order, and the stable [Array.prototype.sort].
    - [VocabularyService], [PopularTags]: every method of
      [VocabularyService] on the shared state [VSState]; search filters,
      random draws, custom words, popular tags.
    - [StudySlice], [TestSlice], [UserSlice], [VocabularySlice]: the four
      Redux slices of [store/slices/], each a reducer on an action type
      with its reachable states as an inductive relation; the vocabulary
      thunks as an interleaving step relation ([sys_start], [sys_finish])
      over the service.
    - [Pages]: the handlers of [HomePage] as the actions they dispatch,
      and those of [StudyPage] as their dispatches, [setShowDefinition]
      and [navigate] calls; clicking through a study session ends it.
    - [Validation]: the helpers of [utils/validationUtils.ts]; the regular
      expressions written out on characters.
    - [Store]: [configureStore] of [store/index.ts], the running store
      with its thunks and the home page's reset button as a step relation,
      and the invariant of the whole application state.
    - [App]: [App.tsx], the navigation bar and the pages as a user
      interface: what each page renders as data, and the user's events
      (links, enabled buttons, settings controls, thunks settling) as steps
      on the store, the route and the pages' local state ([dbStatus],
      the word card's [showDefinition]).  Its theorems are about the
      program as a user can drive it: no test ever starts and no progress
      is ever recorded, an active session always shows its card, a new
      word is always shown with its definition hidden and a revealed
      definition is always the current word's, and the settings page
      stores goals the validator rejects.

    Modelling conventions.
    - An [async] method that may throw is a function [S -> result E A * S]:
      the state it leaves behind is kept on the error path too, which is how
      a rejected promise leaves the effects already performed (no rollback
      across separate store transactions).
    - What the browser decides (clock, success of [open], [fetch] and the
      dynamic import, the shuffle of [getRandomWords], an error's
      [message]) is an argument, so every theorem holds for every outcome.
    - Strings are [String.string] holding UTF-8 bytes; JavaScript numbers
      are [Z] for counts, indexes and times, [Q] for fractions (progress,
      accuracy); float rounding of arithmetic is not modelled.  Where a
      number may be [NaN] or infinite (the daily goal, which the settings
      page reads with [parseInt]), it is the type [number] of [Types], and
      [parseInt]'s conversion to a double is modelled exactly.
    - [utf8_chars] splits a string into characters with fuel, the byte
      length of the string, which bounds the number of characters since
      each takes at least one byte.
    - Concurrency: thunks in flight interleave at the granularity of one
      service call; the interleaving of two service calls inside the
      database is not modelled (the browser serializes transactions on
      the same stores).

    Not modelled: markup, styles and fixed texts of the pages; the
    interfaces of [types/index.ts] that no code constructs or reads
    ([Performance], [ReviewSchedule], [LearningAlgorithmConfig],
    [StreakInfo], [TimeRange], [StudyStats]) and [AppState], whose shape
    is [RootState] of [Store]; the constants of [config/constants.ts],
    which no code reads; the [Number(value)] conversion of an arbitrary
    value in [isValidNumber], which is modelled on a value already of type
    [number]; the text React and the browser leave in the number field
    after a change (React rewrites it only when it differs from the
    stored number, which needs the engine's [Number(text)] and
    [String(n)]), so the page's value prop is modelled, not the field's
    text; [-0], which [parseInt("-0")] returns, is [0]; console logging
    and alerts. *)

From stdpp Require Import base list.
From Stdlib Require Import String ZArith Lia.

(** ** Results of operations that may throw *)

Inductive result (E A : Type) : Type :=
| Ok (a : A)
| Err (e : E).
Arguments Ok {E A} a.
Arguments Err {E A} e.

(** ** The state-and-exception monad *)

Definition ST (S E A : Type) : Type := S -> result E A * S.

Section Monad.
Context {S E : Type}.

Definition st_ret {A} (a : A) : ST S E A := fun s => (Ok a, s).

Definition st_bind {A B} (c : ST S E A) (k : A -> ST S E B) : ST S E B :=
    fun s => match c s with
             | (Ok a, s') => k a s'
             | (Err e, s') => (Err e, s')
             end.

Definition st_throw {A} (e : E) : ST S E A := fun s => (Err e, s).

  (** [try { c } catch (e) { h(e) }]: the handler runs in the state the
      failed computation left. *)
Definition st_catch {A} (c : ST S E A) (h : E -> ST S E A) : ST S E A :=
    fun s => match c s with
             | (Ok a, s') => (Ok a, s')
             | (Err e, s') => h e s'
             end.

Definition st_get : ST S E S := fun s => (Ok s, s).
Definition st_set (s : S) : ST S E unit := fun _ => (Ok tt, s).
Definition st_modify (f : S -> S) : ST S E unit := fun s => (Ok tt, f s).

  (** [for (const x of xs) { await f(x); }] *)
Fixpoint st_iter {A} (f : A -> ST S E unit) (xs : list A) : ST S E unit :=
    match xs with
    | [] => st_ret tt
    | x :: xs' => st_bind (f x) (fun _ => st_iter f xs')
    end.

Definition run_value {A} (c : ST S E A) (s : S) : result E A := fst (c s).
Definition run_state {A} (c : ST S E A) (s : S) : S := snd (c s).
End Monad.

Declare Scope js_scope.
Delimit Scope js_scope with js.
Notation "x <- c ;; k" := (st_bind c (fun x => k))
  (at level 100, c at next level, right associativity) : js_scope.
Notation "c ;; k" := (st_bind c (fun _ => k))
  (at level 100, right associativity) : js_scope.
Open Scope js_scope.

(** ** Monad laws, as a rewrite database *)

Create Rewrite HintDb st_laws.

Section MonadLaws.
Context {S E : Type}.

Lemma st_bind_ret_l {A B} (a : A) (k : A -> ST S E B) s :
    st_bind (st_ret a) k s = k a s.
  Proof. reflexivity. Qed.

Lemma st_bind_throw {A B} (e : E) (k : A -> ST S E B) s :
    st_bind (st_throw e) k s = (Err e, s).
  Proof. reflexivity. Qed.

Lemma st_bind_assoc {A B C} (c : ST S E A) (k : A -> ST S E B) (k' : B -> ST S E C) s :
    st_bind (st_bind c k) k' s = st_bind c (fun a => st_bind (k a) k') s.
  Proof. unfold st_bind. destruct (c s) as [[a|e] s']; reflexivity. Qed.

Lemma st_catch_ret {A} (a : A) (h : E -> ST S E A) s :
    st_catch (st_ret a) h s = (Ok a, s).
  Proof. reflexivity. Qed.

Lemma st_catch_throw {A} (e : E) (h : E -> ST S E A) s :
    st_catch (st_throw e) h s = h e s.
  Proof. reflexivity. Qed.

Lemma st_iter_app {A} (f : A -> ST S E unit) xs ys s :
    st_iter f (xs ++ ys) s = st_bind (st_iter f xs) (fun _ => st_iter f ys) s.
  Proof.
    revert s. induction xs as [|x xs IH]; intros s; simpl; [reflexivity|].
    unfold st_bind at 1 2 3. destruct (f x s) as [[u|e] s']; [apply IH|reflexivity].
  Qed.

  (** A loop whose body never throws runs as a left fold over the state. *)
Lemma st_iter_total {A} (f : A -> ST S E unit) (g : A -> S -> S) xs s :
    (forall x s0, f x s0 = (Ok tt, g x s0)) ->
    st_iter f xs s = (Ok tt, fold_left (fun s0 x => g x s0) xs s).
  Proof.
    intros Hf. revert s. induction xs as [|x xs IH]; intros s; simpl; [reflexivity|].
    unfold st_bind. rewrite Hf. apply IH.
  Qed.
End MonadLaws.

Lemma st_iter_map {S E A B} (f : B -> ST S E unit) (g : A -> B) xs :
  st_iter f (map g xs) = st_iter (fun x => f (g x)) xs.
Proof. induction xs as [|x xs IH]; simpl; [reflexivity|]. by rewrite IH. Qed.

Section Steps.
Context {S E A : Type} (c : ST S E A) (s : S).

Lemma st_bind_Ok {B} (k : A -> ST S E B) a s' :
  c s = (Ok a, s') -> st_bind c k s = k a s'.
Proof. unfold st_bind. by intros ->. Qed.

Lemma st_bind_Err {B} (k : A -> ST S E B) e s' :
  c s = (Err e, s') -> st_bind c k s = (Err e, s').
Proof. unfold st_bind. by intros ->. Qed.

Lemma st_catch_Ok (h : E -> ST S E A) a s' :
  c s = (Ok a, s') -> st_catch c h s = (Ok a, s').
Proof. unfold st_catch. by intros ->. Qed.

Lemma st_catch_Err (h : E -> ST S E A) e s' :
  c s = (Err e, s') -> st_catch c h s = h e s'.
Proof. unfold st_catch. by intros ->. Qed.
End Steps.

#[export] Hint Rewrite @st_bind_ret_l @st_bind_throw @st_bind_assoc
  @st_catch_ret @st_catch_throw : st_laws.

(** [st_simp] unfolds the monad's plumbing and rewrites with its laws. *)
Ltac st_simp :=
  repeat (autorewrite with st_laws; simpl;
          unfold st_bind, st_ret, st_throw, st_catch, st_get, st_set, st_modify,
            run_value, run_state in *; simpl in * ).

(** ** The order on strings

    The object store keeps records in key order, and keys are strings (or
    pairs of strings).  The Standard Library gives [String.compare] with its
    antisymmetry; transitivity is proved here from the order of [N]. *)

Lemma ascii_compare_trans_lt a b c :
  Ascii.compare a b = Lt -> Ascii.compare b c = Lt -> Ascii.compare a c = Lt.
Proof.
  unfold Ascii.compare. rewrite !N.compare_lt_iff. lia.
Qed.

Lemma ascii_compare_eq a b : Ascii.compare a b = Eq -> a = b.
Proof. apply Ascii.compare_eq_iff. Qed.

Lemma string_compare_refl s : String.compare s s = Eq.
Proof.
  induction s as [|a s IH]; simpl; [reflexivity|].
  unfold Ascii.compare. rewrite N.compare_refl. exact IH.
Qed.

Lemma string_compare_trans_lt s1 s2 s3 :
  String.compare s1 s2 = Lt -> String.compare s2 s3 = Lt -> String.compare s1 s3 = Lt.
Proof.
  revert s2 s3. induction s1 as [|a s1 IH]; intros [|b s2] [|c s3]; simpl;
    try congruence.
  destruct (Ascii.compare a b) eqn:Hab; try congruence.
  - apply ascii_compare_eq in Hab; subst b.
    destruct (Ascii.compare a c); eauto; congruence.
  - intros _. destruct (Ascii.compare b c) eqn:Hbc; try congruence.
    + apply ascii_compare_eq in Hbc; subst c. rewrite Hab. reflexivity.
    + rewrite (ascii_compare_trans_lt a b c Hab Hbc). reflexivity.
Qed.

(** ** State predicates preserved by computations

    [st_preserves P c]: from a state satisfying [P], [c] ends (normally or
    by an exception) in a state satisfying [P].  The combinators below
    build it compositionally; the hint database [preserves] collects them. *)

Definition st_preserves {S E A} (P : S -> Prop) (c : ST S E A) : Prop :=
  forall s, P s -> P (c s).2.

Create HintDb preserves discriminated.

Section Preserves.
Context {S E : Type} (P : S -> Prop).

Lemma st_ret_preserves {A} (a : A) : st_preserves (E:=E) P (st_ret a).
  Proof. intros s Hs. exact Hs. Qed.

Lemma st_throw_preserves {A} (e : E) : st_preserves (A:=A) P (st_throw e).
  Proof. intros s Hs. exact Hs. Qed.

Lemma st_get_preserves : st_preserves (E:=E) P st_get.
  Proof. intros s Hs. exact Hs. Qed.

Lemma st_modify_preserves (f : S -> S) :
    (forall s, P s -> P (f s)) -> st_preserves (E:=E) P (st_modify f).
  Proof. intros Hf s Hs. exact (Hf s Hs). Qed.

Lemma st_bind_preserves {A B} (c : ST S E A) (k : A -> ST S E B) :
    st_preserves P c -> (forall a, st_preserves P (k a)) -> st_preserves P (st_bind c k).
  Proof.
    intros Hc Hk s Hs. unfold st_bind. specialize (Hc s Hs).
    destruct (c s) as [[a|e] s']; [apply Hk|]; exact Hc.
  Qed.

Lemma st_catch_preserves {A} (c : ST S E A) (h : E -> ST S E A) :
    st_preserves P c -> (forall e, st_preserves P (h e)) -> st_preserves P (st_catch c h).
  Proof.
    intros Hc Hh s Hs. unfold st_catch. specialize (Hc s Hs).
    destruct (c s) as [[a|e] s']; [exact Hc|apply Hh, Hc].
  Qed.

Lemma st_iter_preserves {A} (f : A -> ST S E unit) xs :
    (forall x, st_preserves P (f x)) -> st_preserves P (st_iter f xs).
  Proof.
    intros Hf. induction xs as [|x xs IH]; simpl;
      [apply st_ret_preserves|apply st_bind_preserves; auto].
  Qed.
End Preserves.

#[export] Hint Resolve st_ret_preserves st_throw_preserves st_get_preserves
  st_modify_preserves st_bind_preserves st_catch_preserves st_iter_preserves : preserves.

(** ** Computations that return normally

    [st_ok P c]: from a state satisfying [P], [c] returns a value (no
    exception) in a state satisfying [P]. *)

Definition st_ok {S E A} (P : S -> Prop) (c : ST S E A) : Prop :=
  forall s, P s -> exists a s', c s = (Ok a, s') /\ P s'.

Create HintDb st_ok discriminated.

Section Ok.
Context {S E : Type} (P : S -> Prop).

Lemma st_ret_ok {A} (a : A) : st_ok (E:=E) P (st_ret a).
  Proof. intros s Hs. by exists a, s. Qed.

Lemma st_modify_ok (f : S -> S) :
    (forall s, P s -> P (f s)) -> st_ok (E:=E) P (st_modify f).
  Proof. intros Hf s Hs. exists tt, (f s). auto. Qed.

Lemma st_bind_ok {A B} (c : ST S E A) (k : A -> ST S E B) :
    st_ok P c -> (forall a, st_ok P (k a)) -> st_ok P (st_bind c k).
  Proof.
    intros Hc Hk s Hs. destruct (Hc s Hs) as (a & s' & Hcs & Hs').
    unfold st_bind. rewrite Hcs. by apply Hk.
  Qed.

  (** A [try]/[catch] returns normally when its body keeps [P] (even when
      it throws) and its handler returns normally. *)
Lemma st_catch_ok {A} (c : ST S E A) (h : E -> ST S E A) :
    st_preserves P c -> (forall e, st_ok P (h e)) -> st_ok P (st_catch c h).
  Proof.
    intros Hc Hh s Hs. specialize (Hc s Hs). unfold st_catch.
    destruct (c s) as [[a|e] s'] eqn:E1; [by exists a, s'|by apply Hh].
  Qed.

Lemma st_iter_ok {A} (f : A -> ST S E unit) xs :
    (forall x, st_ok P (f x)) -> st_ok P (st_iter f xs).
  Proof.
    intros Hf. induction xs as [|x xs IH]; simpl; [apply st_ret_ok|].
    apply st_bind_ok; auto.
  Qed.

Lemma st_ok_preserves {A} (c : ST S E A) : st_ok P c -> st_preserves P c.
  Proof. intros Hc s Hs. destruct (Hc s Hs) as (a & s' & -> & Hs'). exact Hs'. Qed.
End Ok.

#[export] Hint Resolve st_ret_ok st_modify_ok st_bind_ok st_catch_ok st_iter_ok : st_ok.
