(* ===== verification/ObjectStore.v ===== *)
(** * The browser's object store

    An IndexedDB object store holds records under primary keys and returns
    them in increasing key order ([getAll], index scans).  This file models
    one object store as an association list kept sorted by key, its
    operations ([get], [put], [add], [delete], [clear], [getAll], an index
    scan), the sortedness invariant with its preservation, and the
    refinement of the abstract contract, a finite map [gmap K V]: the
    sorted list denotes [list_to_map], [get] is map lookup, [put] is map
    insertion, [delete] is map deletion, and [getAll] enumerates the map in
    key order.

    The order on keys is an interface, the class [KeyOrder]: the store is
    proved against it, and the instances for string keys (keyPath ["id"])
    and pairs of strings (keyPath [["userId", "wordId"]], compared as IndexedDB
    compares two-element arrays) discharge it. *)

From stdpp Require Import base list gmap sorting.
From Stdlib Require Import String.
From S2P Require Import Prelude.

(** ** The key order interface *)

Class KeyOrder (K : Type) := {
  key_compare : K -> K -> comparison;
  key_compare_eq : forall a b, key_compare a b = Eq -> a = b;
  key_compare_refl : forall a, key_compare a a = Eq;
  key_compare_antisym : forall a b, key_compare b a = CompOpp (key_compare a b);
  key_compare_trans : forall a b c,
    key_compare a b = Lt -> key_compare b c = Lt -> key_compare a c = Lt
}.

#[export] Instance string_key_order : KeyOrder string := {|
  key_compare := String.compare;
  key_compare_eq := String.compare_eq_iff;
  key_compare_refl := string_compare_refl;
  key_compare_antisym := fun a b => String.compare_antisym b a;
  key_compare_trans := string_compare_trans_lt
|}.

(** Two-element array keys compare component-wise, the first component
    first. *)
Definition pair_compare {A B} `{KeyOrder A} `{KeyOrder B} (x y : A * B) : comparison :=
  match key_compare x.1 y.1 with
  | Eq => key_compare x.2 y.2
  | c => c
  end.

#[export] Program Instance pair_key_order {A B} `{KeyOrder A} `{KeyOrder B} :
  KeyOrder (A * B) := {| key_compare := pair_compare |}.
Next Obligation.
  intros A B ? ? [a1 b1] [a2 b2]. unfold pair_compare. simpl.
  destruct (key_compare a1 a2) eqn:E; try discriminate.
  intros Hb. apply key_compare_eq in E, Hb. congruence.
Qed.
Next Obligation.
  intros A B ? ? [a b]. unfold pair_compare. simpl.
  rewrite !key_compare_refl. reflexivity.
Qed.
Next Obligation.
  intros A B ? ? [a1 b1] [a2 b2]. unfold pair_compare. simpl.
  rewrite (key_compare_antisym a1 a2).
  destruct (key_compare a1 a2); simpl; auto using key_compare_antisym.
Qed.
Next Obligation.
  intros A B ? ? [a1 b1] [a2 b2] [a3 b3]. unfold pair_compare. simpl.
  destruct (key_compare a1 a2) eqn:E12; try discriminate;
  destruct (key_compare a2 a3) eqn:E23; try discriminate;
  try (apply key_compare_eq in E12; subst a2);
  try (apply key_compare_eq in E23; subst a3);
  rewrite ?key_compare_refl, ?E12, ?E23; intros; eauto using key_compare_trans.
  rewrite (key_compare_trans _ _ _ E12 E23). reflexivity.
Qed.

Create HintDb objstore discriminated.

Section ObjectStore.
Context {K V : Type} `{KeyOrder K}.

Definition key_lt (a b : K) : Prop := key_compare a b = Lt.

  (** ** Operations *)

Fixpoint os_get (k : K) (s : list (K * V)) : option V :=
    match s with
    | [] => None
    | (k', v') :: s' => if key_compare k k' is Eq then Some v' else os_get k s'
    end.

  (** [store.put(value)]: insert or overwrite at the key's place in order. *)
Fixpoint os_put (k : K) (v : V) (s : list (K * V)) : list (K * V) :=
    match s with
    | [] => [(k, v)]
    | (k', v') :: s' =>
        match key_compare k k' with
        | Lt => (k, v) :: s
        | Eq => (k, v) :: s'
        | Gt => (k', v') :: os_put k v s'
        end
    end.

  (** [store.add(value)]: a [ConstraintError] (here [None]) when the key is
      taken. *)
Definition os_add (k : K) (v : V) (s : list (K * V)) : option (list (K * V)) :=
    match os_get k s with
    | Some _ => None
    | None => Some (os_put k v s)
    end.

Fixpoint os_delete (k : K) (s : list (K * V)) : list (K * V) :=
    match s with
    | [] => []
    | (k', v') :: s' =>
        if key_compare k k' is Eq then s' else (k', v') :: os_delete k s'
    end.

  (** [store.getAll()]: the values in increasing key order. *)
Definition os_values (s : list (K * V)) : list V := map snd s.

  (** [store.index(name).getAll(x)]: records whose index key path yields
      [x], in (index key, primary key) order; all have the index key [x],
      so this is primary-key order. *)
Definition os_index_scan {IK} (eqb : IK -> IK -> bool) (idx : V -> option IK)
      (x : IK) (s : list (K * V)) : list V :=
    List.filter (fun v => if idx v is Some y then eqb y x else false) (os_values s).

  (** ** The invariant: keys strictly increase *)

Definition os_sorted (s : list (K * V)) : Prop :=
    StronglySorted (fun a b => key_lt a.1 b.1) s.

Lemma key_lt_trans a b c : key_lt a b -> key_lt b c -> key_lt a c.
  Proof. apply key_compare_trans. Qed.

Lemma key_lt_irrefl a : ~ key_lt a a.
  Proof. unfold key_lt. rewrite key_compare_refl. discriminate. Qed.

Lemma key_compare_gt_lt a b : key_compare a b = Gt -> key_lt b a.
  Proof. unfold key_lt. rewrite (key_compare_antisym a b). intros ->. reflexivity. Qed.

Lemma os_put_forall (P : K * V -> Prop) k v s :
    Forall P s -> P (k, v) -> Forall P (os_put k v s).
  Proof.
    induction s as [|[k' v'] s IH]; simpl; intros Hs Hk; [constructor; auto|].
    inversion Hs; subst.
    destruct (key_compare k k'); repeat constructor; auto.
  Qed.

Lemma os_delete_forall (P : K * V -> Prop) k s :
    Forall P s -> Forall P (os_delete k s).
  Proof.
    induction s as [|[k' v'] s IH]; simpl; intros Hs; [constructor|].
    inversion Hs; subst. destruct (key_compare k k'); auto.
  Qed.

Lemma os_put_sorted k v s : os_sorted s -> os_sorted (os_put k v s).
  Proof.
    unfold os_sorted. induction s as [|[k' v'] s IH]; simpl; intros Hs.
    - repeat constructor.
    - apply StronglySorted_inv in Hs as [Hs Hf].
      destruct (key_compare k k') eqn:E.
      + apply key_compare_eq in E. subst k'. constructor; auto.
      + constructor; [constructor; auto|].
        constructor; [exact E|].
        eapply Forall_impl; [exact Hf|]. intros [k2 v2] Hk2. simpl in *.
        eapply key_lt_trans; eauto.
      + constructor; [auto|]. apply (os_put_forall (fun kv => key_lt k' kv.1)); auto.
        apply key_compare_gt_lt. exact E.
  Qed.

Lemma os_delete_sorted k s : os_sorted s -> os_sorted (os_delete k s).
  Proof.
    unfold os_sorted. induction s as [|[k' v'] s IH]; simpl; intros Hs; [constructor|].
    apply StronglySorted_inv in Hs as [Hs Hf].
    destruct (key_compare k k'); auto; constructor; auto; apply os_delete_forall; auto.
  Qed.

Lemma os_add_sorted k v s s' : os_sorted s -> os_add k v s = Some s' -> os_sorted s'.
  Proof.
    unfold os_add. destruct (os_get k s); intros Hs [= <-]. apply os_put_sorted, Hs.
  Qed.

  (** ** Get after put, delete *)

Lemma os_get_put_eq k v s : os_get k (os_put k v s) = Some v.
  Proof.
    induction s as [|[k' v'] s IH]; simpl; rewrite ?key_compare_refl; [reflexivity|].
    destruct (key_compare k k') eqn:E; simpl; rewrite ?key_compare_refl, ?E; auto.
  Qed.

(** A second put under the same key replaces the first entirely. *)
Lemma os_put_put k v1 v2 s : os_put k v2 (os_put k v1 s) = os_put k v2 s.
  Proof.
    induction s as [|[k' v'] s IH]; simpl; [by rewrite key_compare_refl|].
    destruct (key_compare k k') eqn:E; simpl; rewrite ?key_compare_refl, ?E, ?IH; done.
  Qed.

Lemma os_get_put_ne k k2 v s :
    k2 <> k -> os_get k2 (os_put k v s) = os_get k2 s.
  Proof.
    intros Hne. induction s as [|[k' v'] s IH]; simpl.
    - destruct (key_compare k2 k) eqn:E; auto. apply key_compare_eq in E. congruence.
    - destruct (key_compare k k') eqn:E; simpl.
      + apply key_compare_eq in E. subst k'.
        destruct (key_compare k2 k) eqn:E2; auto. apply key_compare_eq in E2. congruence.
      + destruct (key_compare k2 k) eqn:E2; auto. apply key_compare_eq in E2. congruence.
      + rewrite IH. reflexivity.
  Qed.

  (** Keys below the head of a sorted store are absent from it. *)
Lemma os_get_below k s :
    Forall (fun kv => key_lt k kv.1) s -> os_get k s = None.
  Proof.
    induction s as [|[k' v'] s IH]; simpl; intros Hs; [reflexivity|].
    inversion Hs as [|? ? Hk Hs']; subst. simpl in Hk.
    unfold key_lt in Hk. rewrite Hk. auto.
  Qed.

Lemma os_get_delete_eq k s : os_sorted s -> os_get k (os_delete k s) = None.
  Proof.
    unfold os_sorted. induction s as [|[k' v'] s IH]; simpl; intros Hs; [reflexivity|].
    apply StronglySorted_inv in Hs as [Hs Hf].
    destruct (key_compare k k') eqn:E; simpl; rewrite ?E; auto.
    apply key_compare_eq in E. subst k'. apply os_get_below. exact Hf.
  Qed.
End ObjectStore.

(** ** A sequence of puts *)

Section PutAll.
Context {K V : Type} `{KeyOrder K} (key : V -> K).

(** [for (const v of vs) await store.put(v)] with inline keys [key v]. *)
Definition os_put_all (vs : list V) (s : list (K * V)) : list (K * V) :=
  fold_left (fun st v => os_put (key v) v st) vs s.

Lemma os_put_all_get_other vs s k :
  (forall v, In v vs -> key v <> k) -> os_get k (os_put_all vs s) = os_get k s.
Proof.
  unfold os_put_all. revert s. induction vs as [|v vs IH]; intros s Hk; simpl; [done|].
  rewrite IH by (intros; apply Hk; by right). apply os_get_put_ne. intros E.
  by apply (Hk v); [left|].
Qed.

Lemma os_put_all_get_in vs s v :
  NoDup (map key vs) -> In v vs -> os_get (key v) (os_put_all vs s) = Some v.
Proof.
  unfold os_put_all. revert s. induction vs as [|w vs IH]; intros s Hnd Hin; simpl;
    [done|].
  simpl in Hnd. apply NoDup_cons in Hnd as [Hw Hnd].
  destruct Hin as [->|Hin]; [|by apply IH].
  fold (os_put_all vs (os_put (key v) v s)).
  rewrite os_put_all_get_other; [apply os_get_put_eq|].
  intros u Hu E. apply Hw. rewrite <- E. apply list_elem_of_In, in_map, Hu.
Qed.
End PutAll.

(** ** Refinement of the finite-map contract *)

Section Refinement.
Context {K V : Type} `{KeyOrder K} `{Countable K}.

  (** The map a store denotes. *)
Definition os_abs (s : list (K * V)) : gmap K V := list_to_map s.

Lemma os_get_abs k s : os_get k s = os_abs s !! k.
  Proof.
    unfold os_abs. induction s as [|[k' v'] s IH]; simpl; [by rewrite lookup_empty|].
    destruct (key_compare k k') eqn:E.
    - apply key_compare_eq in E. subst k'. by rewrite lookup_insert_eq.
    - rewrite lookup_insert_ne; [done|]. intros ->. by rewrite key_compare_refl in E.
    - rewrite lookup_insert_ne; [done|]. intros ->. by rewrite key_compare_refl in E.
  Qed.

Lemma os_put_abs k v s : os_abs (os_put k v s) = <[k:=v]> (os_abs s).
  Proof.
    unfold os_abs. induction s as [|[k' v'] s IH]; simpl; [done|].
    destruct (key_compare k k') eqn:E; simpl.
    - apply key_compare_eq in E. subst k'. by rewrite insert_insert_eq.
    - done.
    - rewrite IH, insert_insert_ne; [done|]. intros ->. by rewrite key_compare_refl in E.
  Qed.

Lemma os_sorted_head_absent k v s :
    os_sorted ((k, v) :: s) -> os_abs s !! k = None.
  Proof.
    intros Hs. apply StronglySorted_inv in Hs as [_ Hf].
    rewrite <- os_get_abs. by apply os_get_below.
  Qed.

Lemma os_delete_abs k s : os_sorted s -> os_abs (os_delete k s) = delete k (os_abs s).
  Proof.
    induction s as [|[k' v'] s IH]; intros Hs; simpl; [by rewrite delete_empty|].
    pose proof (os_sorted_head_absent _ _ _ Hs) as Habs.
    apply StronglySorted_inv in Hs as [Hs _].
    destruct (key_compare k k') eqn:E; unfold os_abs in *; simpl.
    - apply key_compare_eq in E. subst k'.
      by rewrite delete_insert_eq, fin_maps.delete_id.
    - rewrite IH by done. rewrite delete_insert_ne; [done|].
      intros ->. by rewrite key_compare_refl in E.
    - rewrite IH by done. rewrite delete_insert_ne; [done|].
      intros ->. by rewrite key_compare_refl in E.
  Qed.

Lemma os_get_key_in k (s : list (K * V)) : k ∈ s.*1 -> is_Some (os_get k s).
  Proof.
    induction s as [|[k' v'] s IH]; simpl; intros Hin; [by apply elem_of_nil in Hin|].
    destruct (key_compare k k') eqn:E; [by eexists| |];
      (apply elem_of_cons in Hin as [->|Hin]; [by rewrite key_compare_refl in E|auto]).
  Qed.

Lemma os_sorted_nodup (s : list (K * V)) : os_sorted s -> NoDup s.*1.
  Proof.
    induction s as [|[k v] s IH]; intros Hs; simpl; [constructor|].
    pose proof (os_sorted_head_absent _ _ _ Hs) as Habs.
    apply StronglySorted_inv in Hs as [Hs _]. constructor; auto.
    intros Hin. apply os_get_key_in in Hin. rewrite os_get_abs, Habs in Hin.
    by destruct Hin.
  Qed.

  (** Two sorted stores that denote the same map are the same list: the
      sorted representation is canonical. *)
Lemma os_sorted_canonical s1 s2 :
    os_sorted s1 -> os_sorted s2 -> os_abs s1 = os_abs s2 -> s1 = s2.
  Proof.
    intros H1 H2 Habs.
    assert (AntiSymm eq (fun a b : K * V => key_lt a.1 b.1)) as Hanti.
    { intros a b Hab Hba. exfalso. eapply key_lt_irrefl, key_lt_trans; eauto. }
    apply (StronglySorted_unique _ s1 s2 H1 H2).
    rewrite <- (map_to_list_to_map s1), <- (map_to_list_to_map s2)
        by auto using os_sorted_nodup.
      unfold os_abs in Habs. by rewrite Habs.
  Qed.
End Refinement.

#[export] Hint Resolve os_put_sorted os_delete_sorted os_add_sorted : objstore.
