(* ===== verification/Types.v ===== *)
(** * The data model ([src/src/types/index.ts])

    The interfaces of the program as records, with the field names of the
    source under a prefix per record ([w_] for [Word], [ws_] for [WordSet],
    ...), since Rocq projections share one name space.

    Values are kept as the running program has them: the constant objects
    [DifficultyLevel], [PartOfSpeech] and [TestType] are sets of numbers or
    strings, and a record field holds the number or the string, so that the
    code's membership tests ([Object.values(DifficultyLevel).includes(x)])
    are tests on that value.  JavaScript numbers are [Z] where the code
    only counts, indexes or stamps times in milliseconds with them, and [Q]
    where they are fractions (ease factor, accuracy).  An optional field
    ([x?: T]) is an [option]. *)

From stdpp Require Import base list strings.
From Stdlib Require Import String ZArith QArith.
From S2P Require Import Prelude.

Open Scope string_scope.

(** ** Constant objects *)

(** [DifficultyLevel]: BEGINNER .. EXPERT are 1 .. 5. *)
Definition BEGINNER : Z := 1.
Definition ELEMENTARY : Z := 2.
Definition INTERMEDIATE : Z := 3.
Definition ADVANCED : Z := 4.
Definition EXPERT : Z := 5.
Definition DifficultyLevel_values : list Z :=
  [BEGINNER; ELEMENTARY; INTERMEDIATE; ADVANCED; EXPERT].

(** [TestType]. *)
Definition MULTIPLE_CHOICE : string := "multiple_choice".
Definition FILL_IN_BLANK : string := "fill_in_blank".
Definition LISTENING : string := "listening".
Definition TestType_values : list string := [MULTIPLE_CHOICE; FILL_IN_BLANK; LISTENING].

(** [PartOfSpeech]: the abbreviations the code stores. *)
Definition NOUN : string := "n.".
Definition VERB : string := "v.".
Definition ADJECTIVE : string := "adj.".
Definition ADVERB : string := "adv.".
Definition PRONOUN : string := "pron.".
Definition PREPOSITION : string := "prep.".
Definition CONJUNCTION : string := "conj.".
Definition INTERJECTION : string := "int.".
Definition ARTICLE : string := "art.".
Definition AUXILIARY : string := "aux.".
Definition MODAL : string := "modal".
Definition PHRASAL_VERB : string := "phr.v.".
Definition PartOfSpeech_values : list string :=
  [NOUN; VERB; ADJECTIVE; ADVERB; PRONOUN; PREPOSITION; CONJUNCTION;
   INTERJECTION; ARTICLE; AUXILIARY; MODAL; PHRASAL_VERB].

(** ** Words and word sets *)

(** [interface Definition] (a Rocq keyword, hence the name). *)
Record WordDefinition := mkDefinition {
  d_id : option string;
  d_partOfSpeech : string;
  d_meaning : string;
  d_englishDefinition : option string;
  d_level : option Z
}.

(** [interface Example]. *)
Record WordExample := mkExample {
  ex_sentence : string;
  ex_translation : string;
  ex_audioUrl : option string
}.

Record Word := mkWord {
  w_id : string;
  w_word : string;
  w_pronunciation : string;
  w_definitions : list WordDefinition;
  w_examples : list WordExample;
  w_difficulty : Z;
  w_frequency : Z;
  w_tags : list string;
  w_audioUrl : option string;
  w_imageUrl : option string;
  w_wordSet : option string;
  w_etymology : option string;
  w_synonyms : option (list string);
  w_antonyms : option (list string);
  w_createdAt : Z;
  w_updatedAt : Z
}.

Record WordSet := mkWordSet {
  ws_id : string;
  ws_name : string;
  ws_description : string;
  ws_difficulty : Z;
  ws_wordCount : Z;
  ws_tags : list string;
  ws_isDefault : bool;
  ws_createdAt : Z;
  ws_updatedAt : Z
}.

(** ** Progress, sessions and tests *)

Record UserProgress := mkUserProgress {
  up_userId : string;
  up_wordId : string;
  up_masteryLevel : Z;
  up_reviewCount : Z;
  up_correctCount : Z;
  up_lastReviewed : Z;
  up_nextReview : Z;
  up_easeFactor : Q;
  up_interval : Z
}.

Record TestResult := mkTestResult {
  tr_wordId : string;
  tr_testType : string;
  tr_isCorrect : bool;
  tr_userAnswer : string;
  tr_correctAnswer : string;
  tr_timeSpent : Z
}.

Record StudySession := mkStudySession {
  ss_id : string;
  ss_userId : string;
  ss_startTime : Z;
  ss_endTime : option Z;
  ss_wordsStudied : list string;
  ss_testResults : list TestResult;
  ss_totalTime : Z;
  ss_sessionType : string
}.

Record TestItem := mkTestItem {
  ti_id : string;
  ti_wordId : string;
  ti_question : string;
  ti_options : option (list string);
  ti_correctAnswer : string;
  ti_type : string
}.

(** [interface Test] ([Test] starts a command in Rocq, hence the name). *)
Record TestPaper := mkTest {
  t_id : string;
  t_type : string;
  t_questions : list TestItem;
  t_timeLimit : option Z;
  t_createdAt : Z
}.

(** A row of the settings store (keyPath ["key"]). *)
Record Setting := mkSetting {
  set_key : string;
  set_value : string
}.

(** ** Preferences, statistics, filters, errors *)

(** A JavaScript number where the code can produce [NaN] or an infinity
    ([parseInt] of a text without digits, or of more than 308 digits): a
    finite value, [NaN], or [Infinity] ([neg] false) and [-Infinity]. *)
Inductive number := JsNum (q : Q) | JsNaN | JsInf (neg : bool).

(** [StudyPreferences].  The slice's initial state leaves [studyReminder],
    [reminderTime] and [theme] out, so at run time they may be absent.
    [dailyGoal] is whatever the settings field parsed, [NaN] included. *)
Record StudyPreferences := mkPreferences {
  p_dailyGoal : number;
  p_reviewMode : string;
  p_difficultyPreference : list Z;
  p_enableAudio : bool;
  p_autoPlay : bool;
  p_studyReminder : option bool;
  p_reminderTime : option string;
  p_theme : option string
}.

Record ProgressStats := mkProgressStats {
  ps_totalWordsStudied : Z;
  ps_masteredWords : Z;
  ps_studyStreak : Z;
  ps_totalStudyTime : Z;
  ps_averageAccuracy : Q;
  ps_weeklyProgress : list Z
}.

Record SearchFilters := mkFilters {
  f_difficulty : option (list Z);
  f_partOfSpeech : option (list string);
  f_tags : option (list string);
  f_wordSet : option string;
  f_masteryLevel : option (list Z)
}.

Definition no_filters : SearchFilters := mkFilters None None None None None.

Record AppError := mkAppError {
  err_code : string;
  err_message : string
}.
