(* ===== verification/IndexedDB.v ===== *)
(** * The database manager ([src/src/services/database/indexedDB.ts])

    [IndexedDBManager] wraps the browser database [VocabLearningDB]
    (version 1).  Its state is the field [db], the open connection or
    [null]; the data itself lives in the browser and survives the
    connection.  The model's state [DBState] has both: [idb], the
    browser's database ([None] before it was first created), and [conn],
    whether [this.db] is set.

    The five object stores are addressed by [StoreName] (the [STORES]
    constant); a store [n] holds values of type [val_ty n] under keys of
    type [key_ty n], computed by the store's keyPath [key_path n].  Each
    method is a computation of the monad [ST DBState exn]; each
    request runs in its own transaction, so a failing request leaves the
    database as it was, and a [bulkAdd] whose request fails aborts its
    whole transaction. *)

From stdpp Require Import base list sorting gmap strings.
From Stdlib Require Import String ZArith.
From S2P Require Import Prelude ObjectStore Types.

Open Scope string_scope.

(** ** Exceptions the program raises or propagates *)

Inductive exn :=
| ErrNotInitialized   (* new Error('Database not initialized') *)
| ErrOpenFailed       (* new Error('Failed to open database') *)
| ErrConstraint       (* the store's ConstraintError on add of a taken key *)
| ErrData             (* the store's DataError: no valid key at the keyPath *)
| ErrFetch            (* fetch('/data/words.json') rejects *)
| ErrJson             (* response.json() rejects *)
| ErrSampleImport.    (* failure of the dynamic import of the sample data *)

Module IndexedDBManager.

  (** ** Stores, keys, schema *)

Inductive StoreName := WORDS | WORD_SETS | USER_PROGRESS | STUDY_SESSIONS | SETTINGS.

Definition STORES (n : StoreName) : string :=
    match n with
    | WORDS => "words"
    | WORD_SETS => "wordSets"
    | USER_PROGRESS => "userProgress"
    | STUDY_SESSIONS => "studySessions"
    | SETTINGS => "settings"
    end.

Definition key_ty (n : StoreName) : Type :=
    match n with USER_PROGRESS => string * string | _ => string end.

Definition val_ty (n : StoreName) : Type :=
    match n with
    | WORDS => Word
    | WORD_SETS => WordSet
    | USER_PROGRESS => UserProgress
    | STUDY_SESSIONS => StudySession
    | SETTINGS => Setting
    end.

  (** The keyPath of each store: ['id'], ['id'], [['userId', 'wordId']],
      ['id'], ['key']. *)
Definition key_path (n : StoreName) : val_ty n -> key_ty n :=
    match n with
    | WORDS => w_id
    | WORD_SETS => ws_id
    | USER_PROGRESS => fun p => (up_userId p, up_wordId p)
    | STUDY_SESSIONS => ss_id
    | SETTINGS => set_key
    end.

#[export] Instance key_order (n : StoreName) : KeyOrder (key_ty n) :=
    match n with
    | USER_PROGRESS => pair_key_order
    | WORDS | WORD_SETS | STUDY_SESSIONS | SETTINGS => string_key_order
    end.

Definition Store (n : StoreName) : Type := list (key_ty n * val_ty n).

Record Database := mkDatabase {
    db_words : Store WORDS;
    db_wordSets : Store WORD_SETS;
    db_userProgress : Store USER_PROGRESS;
    db_studySessions : Store STUDY_SESSIONS;
    db_settings : Store SETTINGS
  }.

Definition get_store (n : StoreName) (d : Database) : Store n :=
    match n with
    | WORDS => db_words d
    | WORD_SETS => db_wordSets d
    | USER_PROGRESS => db_userProgress d
    | STUDY_SESSIONS => db_studySessions d
    | SETTINGS => db_settings d
    end.

Definition set_store (n : StoreName) : Store n -> Database -> Database :=
    match n with
    | WORDS => fun s d =>
        mkDatabase s (db_wordSets d) (db_userProgress d) (db_studySessions d) (db_settings d)
    | WORD_SETS => fun s d =>
        mkDatabase (db_words d) s (db_userProgress d) (db_studySessions d) (db_settings d)
    | USER_PROGRESS => fun s d =>
        mkDatabase (db_words d) (db_wordSets d) s (db_studySessions d) (db_settings d)
    | STUDY_SESSIONS => fun s d =>
        mkDatabase (db_words d) (db_wordSets d) (db_userProgress d) s (db_settings d)
    | SETTINGS => fun s d =>
        mkDatabase (db_words d) (db_wordSets d) (db_userProgress d) (db_studySessions d) s
    end.

  (** [createStores] on the upgrade from "no database" to version 1: every
      [objectStoreNames.contains] test is false there, so all five stores
      are created, empty. *)
Definition createStores : Database := mkDatabase [] [] [] [] [].

Record DBState := mkDBState {
    idb : option Database;
    conn : bool
  }.

Definition DBM (A : Type) : Type := ST DBState exn A.

  (** ** Methods *)

  (** [init()]: open the database; [open_ok] is the outcome of
      [indexedDB.open].  On success [onupgradeneeded] has created the
      stores when the database did not exist, and [onsuccess] sets
      [this.db]. *)
Definition init (open_ok : bool) : DBM unit := fun s =>
    if open_ok
    then (Ok tt, mkDBState (Some (if idb s is Some d then d else createStores)) true)
    else (Err ErrOpenFailed, s).

  (** [performTransaction]: throw when [this.db] is null, otherwise run the
      request against the database. *)
Definition performTransaction {A} (op : Database -> result exn A * Database) : DBM A :=
    fun s =>
      match conn s, idb s with
      | true, Some d => let '(r, d') := op d in (r, mkDBState (Some d') true)
      | _, _ => (Err ErrNotInitialized, s)
      end.

Definition add (n : StoreName) (data : val_ty n) : DBM unit :=
    performTransaction (fun d =>
      match os_add (key_path n data) data (get_store n d) with
      | Some s' => (Ok tt, set_store n s' d)
      | None => (Err ErrConstraint, d)
      end).

Definition put (n : StoreName) (data : val_ty n) : DBM unit :=
    performTransaction (fun d =>
      (Ok tt, set_store n (os_put (key_path n data) data (get_store n d)) d)).

(** [put] applied to an entry parsed from JSON: [None] is an entry with no
    valid key at the store's keyPath, which [store.put] refuses with a
    DataError inside the transaction's executor. *)
Definition putRaw (n : StoreName) (data : option (val_ty n)) : DBM unit :=
  match data with
  | Some v => put n v
  | None => performTransaction (fun d => (Err ErrData, d))
  end.

Definition get (n : StoreName) (key : key_ty n) : DBM (option (val_ty n)) :=
    performTransaction (fun d => (Ok (os_get key (get_store n d)), d)).

Definition getAll (n : StoreName) : DBM (list (val_ty n)) :=
    performTransaction (fun d => (Ok (os_values (get_store n d)), d)).

  (** [getByIndex(storeName, indexName, value)]: the index is given by its
      key path, a partial projection ([None] when the record has no value
      there, so it is not in the index) with an equality test on index
      keys. *)
Definition getByIndex (n : StoreName) {IK} (eqb : IK -> IK -> bool)
      (index : val_ty n -> option IK) (value : IK) : DBM (list (val_ty n)) :=
    performTransaction (fun d => (Ok (os_index_scan eqb index value (get_store n d)), d)).

  (** The ['wordSet'] index of the words store. *)
Definition wordSet_index : val_ty WORDS -> option string := w_wordSet.

Definition delete (n : StoreName) (key : key_ty n) : DBM unit :=
    performTransaction (fun d => (Ok tt, set_store n (os_delete key (get_store n d)) d)).

Definition clear (n : StoreName) : DBM unit :=
    performTransaction (fun d => (Ok tt, set_store n [] d)).

  (** The adds of [bulkAdd] in one transaction: [None] as soon as one
      fails. *)
Fixpoint add_all {n : StoreName} (items : list (val_ty n)) (s : Store n) : option (Store n) :=
    match items with
    | [] => Some s
    | x :: xs =>
        match os_add (key_path n x) x s with
        | Some s' => add_all xs s'
        | None => None
        end
    end.

  (** [bulkAdd]: an empty list resolves at once; otherwise the first failed
      add rejects, and since its error event is not cancelled the
      transaction aborts and none of the adds persists. *)
Definition bulkAdd (n : StoreName) (items : list (val_ty n)) : DBM unit :=
    performTransaction (fun d =>
      match items with
      | [] => (Ok tt, d)
      | _ =>
          match add_all items (get_store n d) with
          | Some s' => (Ok tt, set_store n s' d)
          | None => (Err ErrConstraint, d)
          end
      end).

Definition search (n : StoreName) (searchFn : val_ty n -> bool) : DBM (list (val_ty n)) :=
    allItems <- getAll n ;;
    st_ret (List.filter searchFn allItems).

Definition close : DBM unit := fun s =>
    if conn s then (Ok tt, mkDBState (idb s) false) else (Ok tt, s).

End IndexedDBManager.

(** ** Proofs about the manager *)

Module IndexedDBProofs.
Import IndexedDBManager.

#[export] Instance StoreName_eq_dec : EqDecision StoreName.
  Proof. solve_decision. Defined.

  (** A store is well formed when its keys strictly increase and every
      record sits under the value of its keyPath. *)
Definition store_wf (n : StoreName) (s : Store n) : Prop :=
    os_sorted s /\ Forall (fun kv => kv.1 = key_path n kv.2) s.

Definition db_wf (d : Database) : Prop := forall n, store_wf n (get_store n d).

  (** The manager's invariant: an open connection has a database, and the
      database is well formed. *)
Definition state_wf (s : DBState) : Prop :=
    (conn s = true -> is_Some (idb s)) /\ (forall d, idb s = Some d -> db_wf d).

  (** The state-changing methods, as data, for the invariant. *)
Inductive db_op :=
  | OpInit (open_ok : bool)
  | OpClose
  | OpAdd (n : StoreName) (v : val_ty n)
  | OpPut (n : StoreName) (v : val_ty n)
  | OpDelete (n : StoreName) (k : key_ty n)
  | OpClear (n : StoreName)
  | OpBulkAdd (n : StoreName) (vs : list (val_ty n)).

Definition run_db_op (o : db_op) (s : DBState) : DBState :=
    match o with
    | OpInit b => run_state (init b) s
    | OpClose => run_state close s
    | OpAdd n v => run_state (add n v) s
    | OpPut n v => run_state (put n v) s
    | OpDelete n k => run_state (delete n k) s
    | OpClear n => run_state (clear n) s
    | OpBulkAdd n vs => run_state (bulkAdd n vs) s
    end.

  (** *** Selecting a store *)

Lemma get_set_store n s d : get_store n (set_store n s d) = s.
  Proof. by destruct n. Qed.

Lemma get_set_store_other n m s d :
    n <> m -> get_store m (set_store n s d) = get_store m d.
  Proof. destruct n, m; simpl; congruence. Qed.

Lemma set_store_twice n x y d : set_store n x (set_store n y d) = set_store n x d.
Proof. by destruct n. Qed.

Lemma set_get_store n d : set_store n (get_store n d) d = d.
Proof. by destruct n, d. Qed.

Lemma db_wf_set_store n s d : db_wf d -> store_wf n s -> db_wf (set_store n s d).
  Proof.
    intros Hd Hs m. destruct (decide (n = m)) as [<-|Hne].
    - by rewrite get_set_store.
    - rewrite get_set_store_other by done. apply Hd.
  Qed.

Lemma createStores_wf : db_wf createStores.
  Proof. intros []; split; constructor. Qed.

Lemma store_wf_put n v s : store_wf n s -> store_wf n (os_put (key_path n v) v s).
  Proof.
    intros [Hs Hk]. split; [by apply os_put_sorted|].
    by apply (os_put_forall (fun kv => kv.1 = key_path n kv.2)).
  Qed.

Lemma store_wf_delete n k s : store_wf n s -> store_wf n (os_delete k s).
  Proof.
    intros [Hs Hk]. split; [by apply os_delete_sorted|]. by apply os_delete_forall.
  Qed.

Lemma store_wf_add_all n vs s s' :
    store_wf n s -> add_all vs s = Some s' -> store_wf n s'.
  Proof.
    revert s. induction vs as [|v vs IH]; simpl; intros s Hs Hadd; [congruence|].
    unfold os_add in Hadd. destruct (os_get _ s); [discriminate|].
    eapply IH; [|exact Hadd]. by apply store_wf_put.
  Qed.

#[local] Hint Resolve db_wf_set_store createStores_wf store_wf_put
    store_wf_delete store_wf_add_all : objstore.

  (** *** The transaction wrapper *)

Lemma performTransaction_closed {A} (op : Database -> result exn A * Database) s :
    conn s = false -> performTransaction op s = (Err ErrNotInitialized, s).
  Proof. unfold performTransaction. by intros ->. Qed.

Lemma performTransaction_open {A} (op : Database -> result exn A * Database) s d :
    conn s = true -> idb s = Some d ->
    performTransaction op s = ((op d).1, mkDBState (Some (op d).2) true).
  Proof. unfold performTransaction. intros -> ->. by destruct (op d). Qed.

Lemma performTransaction_wf {A} (op : Database -> result exn A * Database) s :
    (forall d, db_wf d -> db_wf (op d).2) ->
    state_wf s -> state_wf (performTransaction op s).2.
  Proof.
    intros Hop Hs. destruct (conn s) eqn:Ec.
    - destruct (idb s) as [d|] eqn:E.
      + rewrite (performTransaction_open op s d Ec E). simpl.
        split; [by eexists|]. intros d0 [= <-]. apply Hop, (proj2 Hs), E.
      + unfold performTransaction. rewrite Ec, E. exact Hs.
    - rewrite performTransaction_closed by done. exact Hs.
  Qed.

Lemma state_eta s d : conn s = true -> idb s = Some d -> mkDBState (Some d) true = s.
  Proof. destruct s; simpl. by intros -> ->. Qed.

Lemma store_wf_add n v s s' :
    store_wf n s -> os_add (key_path n v) v s = Some s' -> store_wf n s'.
  Proof. unfold os_add. destruct (os_get _ s); intros Hs [= <-]. by apply store_wf_put. Qed.

  (** An entry already stored survives [add_all]: [add] never overwrites. *)
Lemma add_all_keeps n (vs : list (val_ty n)) s s' k w :
    os_get k s = Some w -> add_all vs s = Some s' -> os_get k s' = Some w.
  Proof.
    revert s. induction vs as [|v vs IH]; simpl; intros s Hk Hadd; [congruence|].
    unfold os_add in Hadd. destruct (os_get (key_path n v) s) eqn:E; [discriminate|].
    eapply IH; [|exact Hadd]. rewrite os_get_put_ne; [done|]. intros ->. congruence.
  Qed.

Lemma add_all_stores n (vs : list (val_ty n)) s s' :
    add_all vs s = Some s' -> Forall (fun v => os_get (key_path n v) s' = Some v) vs.
  Proof.
    revert s. induction vs as [|v vs IH]; simpl; intros s Hadd; [constructor|].
    unfold os_add in Hadd. destruct (os_get (key_path n v) s) eqn:E; [discriminate|].
    constructor; [|eapply IH, Hadd].
    eapply add_all_keeps; [apply os_get_put_eq|exact Hadd].
  Qed.

Lemma store_wf_values_sorted n (st : Store n) :
    store_wf n st ->
    StronglySorted (fun a b => key_lt (key_path n a) (key_path n b)) (os_values st).
  Proof.
    intros [Hs Hk]. unfold os_values. induction st as [|[k v] st IH]; simpl; [constructor|].
    apply StronglySorted_inv in Hs as [Hs Hf]. inversion Hk as [|? ? Hkv Hk']; subst.
    simpl in Hkv. subst k. constructor; [by apply IH|].
    apply Forall_map. eapply Forall_impl; [apply Forall_and; exact (conj Hf Hk')|].
    intros [k2 v2] [H1 H2]. simpl in *. by rewrite <- H2.
  Qed.

  (** *** The invariant *)

(** *** The invariant, method by method *)

Lemma performTransaction_read {A} (op : Database -> result exn A * Database) s :
  (forall d, (op d).2 = d) -> (performTransaction op s).2 = s.
Proof.
  intros Hop. unfold performTransaction.
  destruct (conn s) eqn:Hc, (idb s) as [d|] eqn:Hd; try reflexivity.
  specialize (Hop d). destruct (op d) as [r d']. simpl in *. subst d'.
  by apply state_eta.
Qed.

Lemma init_wf b s : state_wf s -> state_wf (init b s).2.
Proof.
  intros Hs. unfold init. destruct b; simpl; [|exact Hs]. split; [by eexists|].
  intros d Hd. destruct (idb s) eqn:E; injection Hd as <-;
    [exact (proj2 Hs _ E)|apply createStores_wf].
Qed.

Lemma close_wf s : state_wf s -> state_wf (close s).2.
Proof.
  intros Hs. unfold close. destruct (conn s); simpl; [|exact Hs].
  split; [discriminate|apply Hs].
Qed.

Lemma add_wf n v s : state_wf s -> state_wf (add n v s).2.
Proof.
  apply performTransaction_wf. intros d Hd.
  destruct (os_add _ _ _) eqn:E; simpl; [|exact Hd].
  apply db_wf_set_store; [exact Hd|]. eapply store_wf_add; [apply Hd|exact E].
Qed.

Lemma put_wf n v s : state_wf s -> state_wf (put n v s).2.
Proof.
  apply performTransaction_wf. intros d Hd. simpl.
  apply db_wf_set_store, store_wf_put; [exact Hd|apply Hd].
Qed.

Lemma putRaw_wf n o s : state_wf s -> state_wf (putRaw n o s).2.
Proof.
  destruct o as [v|]; [apply put_wf|]. intros Hs. unfold putRaw.
  rewrite performTransaction_read by done. exact Hs.
Qed.

Lemma delete_wf n k s : state_wf s -> state_wf (delete n k s).2.
Proof.
  apply performTransaction_wf. intros d Hd. simpl.
  auto using db_wf_set_store, store_wf_delete.
Qed.

Lemma clear_wf n s : state_wf s -> state_wf (clear n s).2.
Proof.
  apply performTransaction_wf. intros d Hd. simpl.
  apply db_wf_set_store; [exact Hd|split; constructor].
Qed.

Lemma bulkAdd_wf n vs s : state_wf s -> state_wf (bulkAdd n vs s).2.
Proof.
  apply performTransaction_wf. intros d Hd.
  destruct vs as [|v0 vs]; [exact Hd|].
  destruct (@add_all n (v0 :: vs) (get_store n d)) eqn:E; simpl; [|exact Hd].
  apply db_wf_set_store; [exact Hd|]. eapply store_wf_add_all; [apply Hd|exact E].
Qed.

(** Every state-changing method of [IndexedDBManager] ([init], [close],
    [add], [put], [delete], [clear], [bulkAdd]) preserves the manager's
    invariant: an open connection has a database, every store's keys
    strictly increase, and every record sits under the value of its
    keyPath. *)
Theorem db_op_preserves_wf o s : state_wf s -> state_wf (run_db_op o s).
  Proof.
    destruct o; simpl; unfold run_state;
    auto using init_wf, close_wf, add_wf, put_wf, delete_wf, clear_wf, bulkAdd_wf.
Qed.

  (** *** Round trip, errors, atomicity, order *)


(** [add] of a record whose key is already stored rejects with the
    store's ConstraintError and leaves the manager's state unchanged. *)
Theorem add_taken_key_rejected n v s d :
    conn s = true -> idb s = Some d -> is_Some (os_get (key_path n v) (get_store n d)) ->
    add n v s = (Err ErrConstraint, s).
  Proof.
    intros Hc Hd [w Hw]. unfold add. rewrite (performTransaction_open _ s d Hc Hd).
    unfold os_add. rewrite Hw. simpl. by rewrite (state_eta s d).
  Qed.

(** C36: When [this.db] is null, every data method of the manager rejects with
    'Database not initialized' and changes nothing. *)
Theorem methods_reject_when_closed s :
    conn s = false ->
    (forall n v, add n v s = (Err ErrNotInitialized, s)) /\
    (forall n v, put n v s = (Err ErrNotInitialized, s)) /\
    (forall n k, get n k s = (Err ErrNotInitialized, s)) /\
    (forall n, getAll n s = (Err ErrNotInitialized, s)) /\
    (forall n IK (eqb : IK -> IK -> bool) idx x,
        getByIndex n eqb idx x s = (Err ErrNotInitialized, s)) /\
    (forall n k, delete n k s = (Err ErrNotInitialized, s)) /\
    (forall n, clear n s = (Err ErrNotInitialized, s)) /\
    (forall n vs, bulkAdd n vs s = (Err ErrNotInitialized, s)) /\
    (forall n f, search n f s = (Err ErrNotInitialized, s)).
  Proof.
    intros Hc. repeat split; intros;
      unfold search, st_bind, add, put, get, getAll, getByIndex, delete, clear, bulkAdd;
      by rewrite ?performTransaction_closed.
  Qed.

(** C20: A [bulkAdd] that rejects leaves the database exactly as it was: its
    adds share one transaction, which aborts on the first failed request. *)
Theorem bulkAdd_atomic n vs s s' e :
    bulkAdd n vs s = (Err e, s') -> s' = s.
  Proof.
    unfold bulkAdd, performTransaction.
    destruct (conn s) eqn:Hc, (idb s) as [d|] eqn:Hd; try congruence.
    destruct vs as [|v vs]; [discriminate|].
    destruct (@add_all n (v :: vs) (get_store n d)); [discriminate|].
    intros [= _ <-]. by apply state_eta.
  Qed.

(** A [bulkAdd] that resolves has stored every item under its key. *)
Theorem bulkAdd_complete n vs s s' d' :
    bulkAdd n vs s = (Ok tt, s') -> idb s' = Some d' ->
    Forall (fun v => os_get (key_path n v) (get_store n d') = Some v) vs.
  Proof.
    unfold bulkAdd, performTransaction.
    destruct (conn s) eqn:Hc, (idb s) as [d|] eqn:Hd; try congruence.
    destruct vs as [|v vs]; [constructor|].
    destruct (@add_all n (v :: vs) (get_store n d)) as [st|] eqn:E; [|discriminate].
    intros [= <-] [= <-]. rewrite get_set_store. exact (add_all_stores _ _ _ _ E).
  Qed.

(** On a well-formed open database, [getAll(store)] returns the store's
    records in strictly increasing order of their keys. *)
Theorem getAll_in_key_order n s d :
    state_wf s -> conn s = true -> idb s = Some d ->
    run_value (getAll n) s = Ok (os_values (get_store n d)) /\
    StronglySorted (fun a b => key_lt (key_path n a) (key_path n b))
      (os_values (get_store n d)).
  Proof.
    intros Hs Hc Hd. unfold getAll, run_value.
    rewrite (performTransaction_open _ s d Hc Hd). split; [done|].
    apply store_wf_values_sorted, (proj2 Hs _ Hd).
  Qed.

  (** *** Refinement of the abstract store *)

#[export] Instance key_eq_dec (n : StoreName) : EqDecision (key_ty n).
  Proof. destruct n; simpl; apply _. Defined.

#[export] Instance key_countable (n : StoreName) : Countable (key_ty n).
  Proof. destruct n; simpl; apply _. Defined.

  (** The abstract content of store [n]: a finite map from keys to records. *)
Definition abs_store (n : StoreName) (d : Database) : gmap (key_ty n) (val_ty n) :=
    os_abs (get_store n d).

Lemma abs_store_set n st d : abs_store n (set_store n st d) = os_abs st.
  Proof. unfold abs_store. by rewrite get_set_store. Qed.

Lemma abs_store_other n m st d :
    n <> m -> abs_store m (set_store n st d) = abs_store m d.
  Proof. intros Hne. unfold abs_store. by rewrite get_set_store_other. Qed.

(** Only store [n] may differ between [d] and [d']. *)
Definition only_differ (n : StoreName) (d d' : Database) : Prop :=
  forall m, m <> n -> abs_store m d' = abs_store m d.

Lemma only_differ_set n st d : only_differ n d (set_store n st d).
Proof. intros m Hm. by apply abs_store_other. Qed.

(** C1: On a well-formed open database the manager implements the
    finite-map contract of each store: [get] is lookup and changes
    nothing; [put] inserts under the keyPath value, [delete] deletes,
    [clear] empties, [add] of a fresh key inserts and [add] of a taken key
    rejects with a ConstraintError leaving the state as it was; and every
    write leaves the other stores alone. *)
Theorem manager_refines_map n s d :
    state_wf s -> conn s = true -> idb s = Some d ->
    (forall k, get n k s = (Ok (abs_store n d !! k), s)) /\
    (forall v d', idb (run_state (put n v) s) = Some d' ->
       abs_store n d' = <[key_path n v := v]> (abs_store n d) /\ only_differ n d d') /\
    (forall k d', idb (run_state (delete n k) s) = Some d' ->
       abs_store n d' = base.delete k (abs_store n d) /\ only_differ n d d') /\
    (forall d', idb (run_state (clear n) s) = Some d' -> abs_store n d' = ∅ /\ only_differ n d d') /\
    (forall v, abs_store n d !! key_path n v = None ->
       exists d', add n v s = (Ok tt, mkDBState (Some d') true) /\
                  abs_store n d' = <[key_path n v := v]> (abs_store n d) /\ only_differ n d d') /\
    (forall v, is_Some (abs_store n d !! key_path n v) -> add n v s = (Err ErrConstraint, s)).
  Proof.
    intros Hs Hc Hd. pose proof (proj2 Hs d Hd n) as [Hsorted _].
    unfold run_value, run_state, get, put, delete, clear, add.
    refine (conj _ (conj _ (conj _ (conj _ (conj _ _)))));
      intros *; rewrite (performTransaction_open _ s d Hc Hd); simpl.
    - by rewrite os_get_abs, (state_eta s d Hc Hd).
    - intros [= <-]. split; [by rewrite abs_store_set, os_put_abs|apply only_differ_set].
    - intros [= <-]. split; [by rewrite abs_store_set, os_delete_abs|apply only_differ_set].
    - intros [= <-]. split; [unfold abs_store; by rewrite get_set_store|apply only_differ_set].
    - intros Hnone. unfold os_add. rewrite os_get_abs. fold (abs_store n d). rewrite Hnone. simpl.
      eexists; split; [reflexivity|]. split; [by rewrite abs_store_set, os_put_abs|apply only_differ_set].
    - intros [w Hw]. unfold os_add. rewrite os_get_abs. fold (abs_store n d). rewrite Hw. simpl.
      by rewrite (state_eta s d Hc Hd).
  Qed.
End IndexedDBProofs.

(** ** Witnesses on a concrete database *)

Module IndexedDBWitnesses.
Import IndexedDBManager IndexedDBProofs.

Definition demo_word : Word :=
    mkWord "word-1" "hello" "/h@'loU/"
      [mkDefinition (Some "def-1") INTERJECTION "greeting" None None] [] BEGINNER 9500
      ["greeting"] None None (Some "basic-english") None None None 0 0.

Definition demo_set : WordSet :=
    mkWordSet "junior-high" "junior" "junior words" BEGINNER 1200 ["junior"] true 0 0.

  (** The browser right after the first [init()]: an open, empty database. *)
Definition fresh_open : DBState := mkDBState (Some createStores) true.

  (** The same with one word stored. *)
Definition one_word : DBState :=
    mkDBState (Some (mkDatabase [("word-1", demo_word)] [] [] [] [])) true.

Lemma one_word_wf : state_wf one_word.
  Proof.
    split; [by eexists|]. intros d [= <-] []; split; repeat constructor.
  Qed.

Lemma db_op_preserves_wf_witness :
    state_wf one_word /\ state_wf (run_db_op (OpPut WORDS demo_word) one_word).
  Proof.
    split; [|apply db_op_preserves_wf];
      (split; [by eexists|]; intros d [= <-] []; split; repeat constructor).
  Defined.


Lemma add_taken_key_rejected_witness :
    add WORDS demo_word one_word = (Err ErrConstraint, one_word).
  Proof.
    apply (add_taken_key_rejected WORDS demo_word one_word
             (mkDatabase [("word-1", demo_word)] [] [] [] []));
      [reflexivity|reflexivity|by eexists].
  Defined.

Lemma methods_reject_when_closed_witness :
    put WORDS demo_word (mkDBState (Some createStores) false)
    = (Err ErrNotInitialized, mkDBState (Some createStores) false).
  Proof.
    apply (methods_reject_when_closed (mkDBState (Some createStores) false)). reflexivity.
  Defined.

Lemma bulkAdd_atomic_witness :
    bulkAdd WORDS [demo_word; demo_word] fresh_open = (Err ErrConstraint, fresh_open) /\
    fresh_open = fresh_open.
  Proof.
    split; [reflexivity|].
    apply (bulkAdd_atomic WORDS [demo_word; demo_word] fresh_open fresh_open ErrConstraint).
    reflexivity.
  Defined.

Lemma bulkAdd_complete_witness :
    Forall (fun v => os_get (key_path WORDS v) (get_store WORDS
      (mkDatabase [("word-1", demo_word)] [] [] [] [])) = Some v) [demo_word].
  Proof.
    apply (bulkAdd_complete WORDS [demo_word] fresh_open one_word); reflexivity.
  Defined.

Lemma getAll_in_key_order_witness :
    run_value (getAll WORDS) one_word = Ok [demo_word] /\
    StronglySorted (fun a b => key_lt (key_path WORDS a) (key_path WORDS b)) [demo_word].
  Proof.
    apply (getAll_in_key_order WORDS one_word (mkDatabase [("word-1", demo_word)] [] [] [] []));
      [apply one_word_wf|reflexivity|reflexivity].
  Defined.

Lemma manager_refines_map_witness :
    get WORDS "word-1" one_word
      = (Ok (abs_store WORDS (mkDatabase [("word-1", demo_word)] [] [] [] []) !! "word-1"), one_word) /\
    add WORDS demo_word one_word = (Err ErrConstraint, one_word).
  Proof.
    destruct (manager_refines_map WORDS one_word (mkDatabase [("word-1", demo_word)] [] [] [] []))
      as (Hget & _ & _ & _ & _ & Htaken); [apply one_word_wf|reflexivity|reflexivity|].
    split; [apply Hget|apply Htaken; vm_compute; eexists; reflexivity].
  Defined.
End IndexedDBWitnesses.
