(* ===== verification/SampleData.v ===== *)
(** * The bundled sample data ([src/src/data/sampleWords.ts])

    The fallback dataset the initializer imports when the remote seed file
    is unavailable: six words and four word sets, with the three helper
    queries of the module.  Every [createdAt]/[updatedAt] is [new Date()]
    evaluated when the module is first loaded; the model takes that load
    time [t] as a parameter.  Strings are the source's literals (UTF-8). *)

From stdpp Require Import base list.
From Stdlib Require Import String ZArith.
From S2P Require Import Prelude Types.

Open Scope string_scope.
Open Scope Z_scope.

Definition sampleWords (t : Z) : list Word := [
  mkWord "word-1" "hello" "/həˈloʊ/"
    [mkDefinition (Some "def-1") INTERJECTION "你好，问候语"
       (Some "used as a greeting or to begin a phone conversation") None]
    [mkExample "Hello, how are you today?" "你好，你今天怎么样？" None]
    BEGINNER 9500 ["greeting"; "basic"] None None (Some "basic-english")
    None None None t t;
  mkWord "word-2" "beautiful" "/ˈbjuːtɪfəl/"
    [mkDefinition (Some "def-2") ADJECTIVE "美丽的，漂亮的"
       (Some "pleasing the senses or mind aesthetically") None]
    [mkExample "She has a beautiful smile." "她有一个美丽的笑容。" None;
     mkExample "The sunset is beautiful tonight." "今晚的日落很美。" None]
    ELEMENTARY 7800 ["adjective"; "description"] None None (Some "basic-english")
    None None None t t;
  mkWord "word-3" "understand" "/ˌʌndərˈstænd/"
    [mkDefinition (Some "def-3") VERB "理解，明白"
       (Some "perceive the intended meaning of words, a language, or speaker") None]
    [mkExample "I understand what you mean." "我明白你的意思。" None;
     mkExample "Do you understand the lesson?" "你理解这节课吗？" None]
    INTERMEDIATE 8200 ["verb"; "cognition"] None None (Some "basic-english")
    None (Some ["comprehend"; "grasp"]) None t t;
  mkWord "word-4" "knowledge" "/ˈnɑːlɪdʒ/"
    [mkDefinition (Some "def-4") NOUN "知识，学问"
       (Some "facts, information, and skills acquired through experience or education") None]
    [mkExample "Knowledge is power." "知识就是力量。" None;
     mkExample "She has extensive knowledge of history." "她对历史有广泛的知识。" None]
    INTERMEDIATE 6500 ["noun"; "education"] None None (Some "academic-english")
    None (Some ["wisdom"; "learning"]) None t t;
  mkWord "word-5" "extraordinary" "/ɪkˈstrɔːrdəneri/"
    [mkDefinition (Some "def-5") ADJECTIVE "非凡的，特别的"
       (Some "very unusual or remarkable") None]
    [mkExample "She has extraordinary talent." "她有非凡的天赋。" None;
     mkExample "It was an extraordinary experience." "这是一次非凡的经历。" None]
    ADVANCED 3200 ["adjective"; "advanced"] None None (Some "advanced-english")
    None (Some ["remarkable"; "exceptional"]) (Some ["ordinary"; "common"]) t t;
  mkWord "word-6" "serendipity" "/ˌserənˈdɪpəti/"
    [mkDefinition (Some "def-6") NOUN "意外发现，机缘巧合"
       (Some "the occurrence and development of events by chance in a happy or beneficial way") None]
    [mkExample "Meeting you was pure serendipity." "遇见你纯属机缘巧合。" None]
    EXPERT 800 ["noun"; "advanced"; "rare"] None None (Some "advanced-english")
    (Some "coined by Horace Walpole in 1754") None None t t
].

Definition sampleWordSets (t : Z) : list WordSet := [
  mkWordSet "junior-high" "初中英语" "初中阶段必备英语词汇" BEGINNER 1200
    ["junior"; "basic"] true t t;
  mkWordSet "senior-high" "高中英语" "高中阶段核心英语词汇" ELEMENTARY 2000
    ["senior"; "high-school"] false t t;
  mkWordSet "cet4" "英语四级" "大学英语四级考试词汇" INTERMEDIATE 4500
    ["cet4"; "college"] false t t;
  mkWordSet "cet6" "英语六级" "大学英语六级考试词汇" ADVANCED 6000
    ["cet6"; "advanced"] false t t
].

(** [word.wordSet === setId]: an absent [wordSet] is [undefined], never equal
    to a string. *)
Definition in_set (setId : string) (w : Word) : bool :=
  if w_wordSet w is Some s then String.eqb s setId else false.

Definition getWordsBySet (t : Z) (setId : string) : list Word :=
  List.filter (in_set setId) (sampleWords t).

Definition getAllWords (t : Z) : list Word := sampleWords t.

Definition getWordsByDifficulty (t : Z) (difficulty : Z) : list Word :=
  List.filter (fun w => Z.eqb (w_difficulty w) difficulty) (sampleWords t).

(** ** Facts about the dataset *)

(** No sample word set has a sample word: the sample words belong to
    the sets ['basic-english'], ['academic-english'] and
    ['advanced-english'], while the sample word sets are ['junior-high'],
    ['senior-high'], ['cet4'] and ['cet6'], so selecting any bundled set
    yields no words. *)
Theorem sample_word_sets_have_no_words t :
  Forall (fun ws => getWordsBySet t (ws_id ws) = []) (sampleWordSets t).
Proof. repeat constructor. Qed.
