(* ===== verification/InitDB.v ===== *)
(** * The database initializer ([src/src/services/database/initDB.ts])

    [DatabaseInitializer] opens the store through the shared [dbManager],
    seeds it when the word-set store is empty, resets it, and reports
    counts.  Its state is its flag [isInitialized]; it shares the manager's
    state [DBState]; and the dynamic [import('../../data/sampleWords')]
    evaluates the sample module once, fixing its [new Date()] stamps, which
    the model records as [sample_module].

    What the browser decides is an input [Env]: the clock, whether
    [indexedDB.open] succeeds, what [fetch('/data/words.json')] yields, and
    whether the dynamic import of the sample module succeeds.  A JSON entry
    is [Some] record, or [None] for an entry without a valid key, which the
    store refuses with a DataError.

    Every [try { ... } catch (e) { console.error(...); throw e; }] of the
    source is the computation itself (logging is not modelled); a [catch]
    that does something else is [st_catch]. *)

From stdpp Require Import base list.
From Stdlib Require Import String ZArith.
From S2P Require Import Prelude ObjectStore Types IndexedDB SampleData.

Import IndexedDBManager.

(** ** The environment *)

Record SeedPayload := mkSeedPayload {
  sp_wordSets : option (list (option WordSet));  (* [None]: absent or not an array *)
  sp_words : option (list (option Word))
}.

Inductive FetchOutcome :=
| FetchRejects                    (* the fetch promise rejects *)
| FetchNotOk                      (* a response with [ok] false *)
| FetchBadJson                    (* [ok], but [response.json()] rejects *)
| FetchJson (data : SeedPayload). (* [ok], and the parsed payload *)

Record Env := mkEnv {
  env_now : Z;
  env_open_ok : bool;
  env_fetch : FetchOutcome;
  env_import_ok : bool
}.

(** ** State *)

Record InitState := mkInitState {
  is_db : DBState;
  isInitialized : bool;
  sample_module : option Z
}.

Definition IM (A : Type) : Type := ST InitState exn A.

Definition set_db (d : DBState) (s : InitState) : InitState :=
  mkInitState d (isInitialized s) (sample_module s).

(** A call on the shared [dbManager]. *)
Definition lift_db {A} (c : DBM A) : IM A := fun s =>
  let '(r, d') := c (is_db s) in (r, set_db d' s).

(** ** Import *)

(** [{ ...ws, createdAt: new Date(), updatedAt: new Date() }] *)
Definition stamp_wordSet (now : Z) (ws : WordSet) : WordSet :=
  mkWordSet (ws_id ws) (ws_name ws) (ws_description ws) (ws_difficulty ws)
    (ws_wordCount ws) (ws_tags ws) (ws_isDefault ws) now now.

Definition stamp_word (now : Z) (w : Word) : Word :=
  mkWord (w_id w) (w_word w) (w_pronunciation w) (w_definitions w) (w_examples w)
    (w_difficulty w) (w_frequency w) (w_tags w) (w_audioUrl w) (w_imageUrl w)
    (w_wordSet w) (w_etymology w) (w_synonyms w) (w_antonyms w) now now.

Definition importFromJSON (env : Env) (data : SeedPayload) : IM unit :=
  (if sp_wordSets data is Some wordSets
   then st_iter (fun o => lift_db (putRaw WORD_SETS (option_map (stamp_wordSet (env_now env)) o)))
          wordSets
   else st_ret tt) ;;
  (if sp_words data is Some words
   then st_iter (fun o => lift_db (putRaw WORDS (option_map (stamp_word (env_now env)) o))) words
   else st_ret tt).

(** [await import('../../data/sampleWords')]: the first successful import
    evaluates the module at the current time; later imports return it. *)
Definition load_sample_module (env : Env) : IM Z := fun s =>
  match sample_module s with
  | Some t => (Ok t, s)
  | None =>
      if env_import_ok env
      then (Ok (env_now env), mkInitState (is_db s) (isInitialized s) (Some (env_now env)))
      else (Err ErrSampleImport, s)
  end.

Definition importSampleData (env : Env) : IM unit :=
  t <- load_sample_module env ;;
  st_iter (fun ws => lift_db (put WORD_SETS ws)) (sampleWordSets t) ;;
  st_iter (fun w => lift_db (put WORDS w)) (sampleWords t).

(** [importInitialData]: the fetch, the JSON import and the sample import
    of the [!response.ok] branch are all inside the [try]; whatever fails
    there, the [catch] imports the sample data. *)
Definition importInitialData (env : Env) : IM unit :=
  st_catch
    (match env_fetch env with
     | FetchRejects => st_throw ErrFetch
     | FetchNotOk => importSampleData env
     | FetchBadJson => st_throw ErrJson
     | FetchJson data => importFromJSON env data
     end)
    (fun _ => importSampleData env).

(** [checkAndImportInitialData]: the import of the empty-store branch is
    inside the [try] too, so a failed import is attempted once more by the
    [catch]. *)
Definition checkAndImportInitialData (env : Env) : IM unit :=
  st_catch
    (existingWordSets <- lift_db (getAll WORD_SETS) ;;
     if Nat.eqb (List.length existingWordSets) 0 then importInitialData env else st_ret tt)
    (fun _ => importInitialData env).

Definition initialize (env : Env) : IM unit :=
  s <- st_get ;;
  if isInitialized s then st_ret tt
  else
    lift_db (init (env_open_ok env)) ;;
    checkAndImportInitialData env ;;
    st_modify (fun s' => mkInitState (is_db s') true (sample_module s')).

Definition resetDatabase (env : Env) : IM unit :=
  lift_db (clear WORDS) ;;
  lift_db (clear WORD_SETS) ;;
  lift_db (clear USER_PROGRESS) ;;
  lift_db (clear STUDY_SESSIONS) ;;
  importInitialData env.

Record DatabaseStatus := mkStatus {
  wordsCount : nat;
  wordSetsCount : nat;
  progressCount : nat;
  sessionsCount : nat
}.

(** [getDatabaseStatus]: the four reads of [Promise.all] (read-only, so
    their interleaving does not matter); any rejection gives zeros. *)
Definition getDatabaseStatus : IM DatabaseStatus :=
  st_catch
    (words <- lift_db (getAll WORDS) ;;
     wordSets <- lift_db (getAll WORD_SETS) ;;
     progress <- lift_db (getAll USER_PROGRESS) ;;
     sessions <- lift_db (getAll STUDY_SESSIONS) ;;
     st_ret (mkStatus (List.length words) (List.length wordSets) (List.length progress)
       (List.length sessions)))
    (fun _ => st_ret (mkStatus 0 0 0 0)).


(** The browser on the first visit: no database, nothing loaded. *)
Definition fresh_browser : InitState := mkInitState (mkDBState None false) false None.

(** A fetch outcome that sends [importInitialData] to the sample data. *)
Definition fetch_fails (f : FetchOutcome) : bool :=
  if f is FetchJson _ then false else true.

(** ** Proofs about the initializer *)

Module InitDBProofs.
Import IndexedDBProofs.

Definition initializer_wf (s : InitState) : Prop := state_wf (is_db s).

Lemma lift_db_preserves (P : DBState -> Prop) {A} (c : DBM A) :
  st_preserves P c -> st_preserves (fun s => P (is_db s)) (lift_db c).
Proof.
  intros Hc s Hs. unfold lift_db. specialize (Hc _ Hs).
  destruct (c (is_db s)); exact Hc.
Qed.

Lemma load_sample_module_preserves (P : DBState -> Prop) env :
  st_preserves (fun s => P (is_db s)) (load_sample_module env).
Proof.
  intros s Hs. unfold load_sample_module.
  destruct (sample_module s); [exact Hs|]. by destruct (env_import_ok env).
Qed.

Lemma getAll_preserves (P : DBState -> Prop) n : st_preserves P (getAll n).
Proof. intros s Hs. unfold getAll. by rewrite performTransaction_read. Qed.

Lemma put_preserves_wf n v : st_preserves state_wf (put n v).
Proof. exact (put_wf n v). Qed.

Lemma putRaw_preserves_wf n o : st_preserves state_wf (putRaw n o).
Proof. exact (putRaw_wf n o). Qed.

Lemma clear_preserves_wf n : st_preserves state_wf (clear n).
Proof. exact (clear_wf n). Qed.

Lemma init_preserves_wf b : st_preserves state_wf (init b).
Proof. exact (init_wf b). Qed.

#[local] Hint Resolve lift_db_preserves load_sample_module_preserves getAll_preserves
  put_preserves_wf putRaw_preserves_wf clear_preserves_wf init_preserves_wf : preserves.

Lemma importSampleData_wf env : st_preserves initializer_wf (importSampleData env).
Proof. unfold importSampleData, initializer_wf. eauto 10 with preserves. Qed.

#[local] Hint Extern 1 (st_preserves _ (match ?b with _ => _ end)) => destruct b : preserves.

Lemma importFromJSON_wf env data : st_preserves initializer_wf (importFromJSON env data).
Proof. unfold importFromJSON, initializer_wf. eauto 10 with preserves. Qed.

Lemma importInitialData_wf env : st_preserves initializer_wf (importInitialData env).
Proof.
  unfold importInitialData. apply st_catch_preserves; [destruct (env_fetch env)|intros];
    auto using importSampleData_wf, importFromJSON_wf with preserves.
Qed.

Lemma checkAndImportInitialData_wf env :
  st_preserves initializer_wf (checkAndImportInitialData env).
Proof.
  unfold checkAndImportInitialData. apply st_catch_preserves; [|intros; apply importInitialData_wf].
  apply st_bind_preserves; [unfold initializer_wf; auto with preserves|intros l].
  destruct (Nat.eqb _ _); [apply importInitialData_wf|apply st_ret_preserves].
Qed.

Lemma initialize_wf env : st_preserves initializer_wf (initialize env).
Proof.
  unfold initialize. apply st_bind_preserves; [apply st_get_preserves|intros s].
  destruct (isInitialized s); [apply st_ret_preserves|].
  apply st_bind_preserves; [unfold initializer_wf; auto with preserves|intros _].
  apply st_bind_preserves; [apply checkAndImportInitialData_wf|intros _].
  apply st_modify_preserves. intros s' H. exact H.
Qed.

Lemma resetDatabase_wf env : st_preserves initializer_wf (resetDatabase env).
Proof.
  unfold resetDatabase.
  repeat (apply st_bind_preserves; [unfold initializer_wf; auto with preserves|intros _]).
  apply importInitialData_wf.
Qed.

Lemma getDatabaseStatus_wf : st_preserves initializer_wf getDatabaseStatus.
Proof. unfold getDatabaseStatus, initializer_wf. eauto 12 with preserves. Qed.

(** The initializer's operations [initialize], [resetDatabase] and
    [getDatabaseStatus], whatever the browser does, keep the shared
    manager's invariant. *)
Theorem initializer_preserves_wf env s :
  initializer_wf s ->
  initializer_wf (initialize env s).2 /\ initializer_wf (resetDatabase env s).2 /\
  initializer_wf (getDatabaseStatus s).2.
Proof.
  intros Hs. split; [|split]; [apply initialize_wf|apply resetDatabase_wf|apply getDatabaseStatus_wf];
    exact Hs.
Qed.

(** [initialize] runs once: after it succeeded, a further call changes
    nothing and resolves. *)
Theorem initialize_idempotent env s :
  isInitialized s = true -> initialize env s = (Ok tt, s).
Proof. intros H. unfold initialize, st_bind, st_get. simpl. by rewrite H. Qed.

Lemma os_values_nil {K V} (st : list (K * V)) : os_values st = [] -> st = [].
Proof. by destruct st. Qed.

(** C21: When the browser already holds word sets, [initialize] opens the
    database and imports nothing: every store keeps its content. *)
Theorem initialize_keeps_existing_data env s d :
  isInitialized s = false -> env_open_ok env = true -> idb (is_db s) = Some d ->
  get_store WORD_SETS d <> [] ->
  initialize env s = (Ok tt, mkInitState (mkDBState (Some d) true) true (sample_module s)).
Proof.
  intros Hi Ho Hd Hne. unfold initialize, st_bind, st_get, st_modify, lift_db. simpl.
  rewrite Hi. unfold init. rewrite Ho, Hd. simpl.
  unfold checkAndImportInitialData, st_catch, st_bind, lift_db, getAll, performTransaction.
  simpl. change (get_store WORD_SETS d) with (db_wordSets d) in Hne.
  match goal with |- context [Nat.eqb ?x 0] => destruct (Nat.eqb x 0) eqn:E end;
    [|reflexivity].
  apply Nat.eqb_eq, length_zero_iff_nil, os_values_nil in E. contradiction.
Qed.

Lemma set_db_same s : set_db (is_db s) s = s.
Proof. by destruct s. Qed.

(** C40: [getDatabaseStatus] never rejects and changes nothing; when the
    connection is closed it reports zeros instead of the error. *)
Theorem getDatabaseStatus_total s :
  (exists st, getDatabaseStatus s = (Ok st, s)) /\
  (conn (is_db s) = false -> getDatabaseStatus s = (Ok (mkStatus 0 0 0 0), s)).
Proof.
  unfold getDatabaseStatus, st_catch, st_bind, st_ret, lift_db, getAll, performTransaction.
  destruct (conn (is_db s)) eqn:Hc, (idb (is_db s)) as [d|] eqn:Hd; simpl; rewrite ?Hc, ?Hd;
    split; try (intros; discriminate); try (intros; rewrite set_db_same; reflexivity);
    eexists; try reflexivity; rewrite ?set_db_same; try reflexivity.
  destruct s as [[? ?] ? ?]; simpl in *; subst. reflexivity.
Qed.
(** *** Returning normally *)

Definition db_open (d : DBState) : Prop := conn d = true /\ is_Some (idb d).

(** Ready to import: the connection is open and the sample module is
    loaded or loadable. *)
Definition import_ready (env : Env) (s : InitState) : Prop :=
  db_open (is_db s) /\ (env_import_ok env = true \/ is_Some (sample_module s)).

Lemma performTransaction_db_open {A} (op : Database -> result exn A * Database) :
  st_preserves db_open (performTransaction op).
Proof.
  intros s [Hc [d Hd]]. rewrite (performTransaction_open _ s d Hc Hd).
  split; [reflexivity|by eexists].
Qed.

Lemma put_db_open_ok n v : st_ok db_open (put n v).
Proof.
  intros s [Hc [d Hd]]. unfold put. rewrite (performTransaction_open _ s d Hc Hd).
  eexists _, _. split; [reflexivity|]. split; [reflexivity|by eexists].
Qed.

Lemma putRaw_db_open n o : st_preserves db_open (putRaw n o).
Proof. destruct o; [apply st_ok_preserves, put_db_open_ok|apply performTransaction_db_open]. Qed.

Lemma lift_db_ready_preserves env {A} (c : DBM A) :
  st_preserves db_open c -> st_preserves (import_ready env) (lift_db c).
Proof.
  intros Hc s [Ho Hm]. unfold lift_db. specialize (Hc _ Ho).
  destruct (c (is_db s)). split; [exact Hc|exact Hm].
Qed.

Lemma lift_db_ready_ok env {A} (c : DBM A) :
  st_ok db_open c -> st_ok (import_ready env) (lift_db c).
Proof.
  intros Hc s [Ho Hm]. destruct (Hc _ Ho) as (a & d' & Hcd & Hd').
  unfold lift_db. rewrite Hcd. by exists a, (set_db d' s).
Qed.

Lemma load_sample_module_ok env : st_ok (import_ready env) (load_sample_module env).
Proof.
  intros s [Ho Hm]. unfold load_sample_module.
  destruct (sample_module s) as [t|] eqn:E; 
    [exists t, s; split; [reflexivity|split; [exact Ho|right; by exists t]]|].
  destruct Hm as [Hi|[t Ht]]; [|congruence]. rewrite Hi.
  eexists _, _. split; [reflexivity|]. split; [exact Ho|by right; eexists].
Qed.

Lemma importSampleData_ok env : st_ok (import_ready env) (importSampleData env).
Proof.
  unfold importSampleData. apply st_bind_ok; [apply load_sample_module_ok|intros t].
  apply st_bind_ok; [|intros _]; apply st_iter_ok; intros; apply lift_db_ready_ok, put_db_open_ok.
Qed.

Lemma importFromJSON_ready env data : st_preserves (import_ready env) (importFromJSON env data).
Proof.
  unfold importFromJSON.
  apply st_bind_preserves; [destruct (sp_wordSets data)|intros _; destruct (sp_words data)];
    auto using lift_db_ready_preserves, putRaw_db_open with preserves.
Qed.

Lemma importInitialData_ok env : st_ok (import_ready env) (importInitialData env).
Proof.
  unfold importInitialData. apply st_catch_ok; [|intros; apply importSampleData_ok].
  destruct (env_fetch env);
    auto using importFromJSON_ready, st_ok_preserves, importSampleData_ok with preserves.
Qed.

Lemma checkAndImportInitialData_ok env :
  st_ok (import_ready env) (checkAndImportInitialData env).
Proof.
  unfold checkAndImportInitialData. apply st_catch_ok; [|intros; apply importInitialData_ok].
  apply st_bind_preserves;
    [apply lift_db_ready_preserves, performTransaction_db_open|intros l].
  destruct (Nat.eqb _ _);
    [apply st_ok_preserves, importInitialData_ok|apply st_ret_preserves].
Qed.

(** C3: Start-up never fails because of the seed file: when the database
    opens and the sample module is loaded or loads, [initialize] resolves
    and sets [isInitialized], whatever [fetch] and [response.json()] do and
    whatever entries the JSON holds. *)
Theorem initialize_succeeds env s :
  env_open_ok env = true -> (env_import_ok env = true \/ is_Some (sample_module s)) ->
  exists s', initialize env s = (Ok tt, s') /\ isInitialized s' = true.
Proof.
  intros Ho Hm. unfold initialize, st_bind at 1, st_get.
  destruct (isInitialized s) eqn:Hi; [by exists s|].
  assert (Hr : import_ready env (lift_db (init (env_open_ok env)) s).2).
  { unfold lift_db, init. rewrite Ho. split; [split; [reflexivity|by eexists]|exact Hm]. }
  unfold st_bind. destruct (lift_db (init (env_open_ok env)) s) as [r s1] eqn:E1.
  assert (r = Ok tt) as -> by (unfold lift_db, init in E1; rewrite Ho in E1; congruence).
  simpl in Hr. destruct (checkAndImportInitialData_ok env s1 Hr) as ([] & s2 & -> & _).
  by eexists.
Qed.
(** *** What the import leaves alone *)

(** There is a database, and its progress, session and settings stores hold
    [up], [ss] and [st]. *)
Definition frame_db (up : Store USER_PROGRESS) (ss : Store STUDY_SESSIONS)
    (st : Store SETTINGS) (s : DBState) : Prop :=
  exists d, idb s = Some d /\
    db_userProgress d = up /\ db_studySessions d = ss /\ db_settings d = st.

Lemma performTransaction_frame up ss st {A} (op : Database -> result exn A * Database) :
  (forall d, db_userProgress (op d).2 = db_userProgress d /\
             db_studySessions (op d).2 = db_studySessions d /\
             db_settings (op d).2 = db_settings d) ->
  st_preserves (frame_db up ss st) (performTransaction op).
Proof.
  intros Hop s (d & Hd & H1 & H2 & H3). unfold performTransaction.
  destruct (conn s); [rewrite Hd|by exists d].
  specialize (Hop d). destruct (op d) as [r d'] eqn:E. simpl in *.
  exists d'. destruct Hop as (-> & -> & ->). auto.
Qed.

(** The import writes only the words and word-set stores. *)
Definition import_store (n : StoreName) : Prop := n = WORDS \/ n = WORD_SETS.

Lemma put_frame up ss st n v : import_store n -> st_preserves (frame_db up ss st) (put n v).
Proof. intros [-> | ->]; apply performTransaction_frame; intros d; simpl; auto. Qed.

Lemma putRaw_frame up ss st n o :
  import_store n -> st_preserves (frame_db up ss st) (putRaw n o).
Proof.
  intros Hn. destruct o; [by apply put_frame|].
  apply performTransaction_frame. intros d. simpl. auto.
Qed.

Lemma getAll_frame up ss st n : st_preserves (frame_db up ss st) (getAll n).
Proof. apply getAll_preserves. Qed.

Lemma import_store_words : import_store WORDS.
Proof. by left. Qed.

Lemma import_store_wordSets : import_store WORD_SETS.
Proof. by right. Qed.

#[local] Hint Resolve put_frame putRaw_frame getAll_frame import_store_words
  import_store_wordSets : preserves.

Lemma importInitialData_frame up ss st env :
  st_preserves (fun s => frame_db up ss st (is_db s)) (importInitialData env).
Proof.
  unfold importInitialData, importSampleData, importFromJSON.
  apply st_catch_preserves; [destruct (env_fetch env) as [| | |data];
    [| | |destruct (sp_wordSets data), (sp_words data)]|intros _];
  eauto 12 with preserves.
Qed.

(** C22: [resetDatabase] on an open database empties the progress and the
    session stores and leaves the settings store as it was, whatever the
    re-import then does (it writes only words and word sets). *)
Theorem resetDatabase_clears_progress env s d :
  conn (is_db s) = true -> idb (is_db s) = Some d ->
  exists d', idb (is_db (resetDatabase env s).2) = Some d' /\
  get_store USER_PROGRESS d' = [] /\ get_store STUDY_SESSIONS d' = [] /\
  get_store SETTINGS d' = get_store SETTINGS d.
Proof.
  intros Hc Hd. unfold resetDatabase, st_bind at 1 2 3 4, lift_db, clear.
  rewrite (performTransaction_open _ _ d Hc Hd). simpl.
  unfold performTransaction. simpl.
  set (s1 := set_db _ (set_db _ (set_db _ (set_db _ s)))).
  assert (Hf : frame_db [] [] (db_settings d) (is_db s1)) by (eexists; split; [reflexivity|auto]).
  exact (importInitialData_frame [] [] (db_settings d) env s1 Hf).
Qed.
(** *** A failed JSON import is not rolled back *)

Lemma set_db_twice a b s : set_db a (set_db b s) = set_db a s.
Proof. by destruct s. Qed.

(** A loop of [put]s on an open database: the store receives the puts in
    order. *)
Lemma iter_put_open n (l : list (val_ty n)) s d :
  conn (is_db s) = true -> idb (is_db s) = Some d ->
  st_iter (fun v => lift_db (put n v)) l s =
  (Ok tt, set_db (mkDBState (Some (set_store n (os_put_all (key_path n) l (get_store n d)) d))
                   true) s).
Proof.
  revert s d. induction l as [|v l IH]; intros s d Hc Hd; simpl.
  - unfold st_ret. rewrite set_get_store, (state_eta _ d Hc Hd). by rewrite set_db_same.
  - unfold st_bind at 1, lift_db at 1, put at 1.
    rewrite (performTransaction_open _ _ d Hc Hd). simpl.
    rewrite (IH _ (set_store n (os_put (key_path n v) v (get_store n d)) d)) by reflexivity.
    simpl. by rewrite get_set_store, set_store_twice, set_db_twice.
Qed.

Lemma iter_putRaw_some n {A} (g : A -> val_ty n) l :
  st_iter (fun o => lift_db (putRaw n (option_map g o))) (map Some l) =
  st_iter (fun v => lift_db (put n v)) (map g l).
Proof. induction l as [|x l IH]; simpl; [reflexivity|]. by rewrite IH. Qed.

Lemma importFromJSON_partial env data pre rest s d :
  conn (is_db s) = true -> idb (is_db s) = Some d ->
  sp_wordSets data = Some (map Some pre ++ None :: rest)%list ->
  importFromJSON env data s =
  (Err ErrData,
   set_db (mkDBState (Some (set_store WORD_SETS
     (os_put_all ws_id (map (stamp_wordSet (env_now env)) pre) (get_store WORD_SETS d)) d))
     true) s).
Proof.
  intros Hc Hd Hws. unfold importFromJSON. rewrite Hws.
  unfold st_bind at 1. rewrite st_iter_app. unfold st_bind at 1.
  rewrite iter_putRaw_some, (iter_put_open WORD_SETS _ s d Hc Hd). simpl.
  unfold st_bind, lift_db, putRaw, performTransaction. simpl.
  by rewrite set_db_twice.
Qed.

(** The ids of the bundled word sets. *)
Definition sample_wordSet_ids : list string := ["junior-high"; "senior-high"; "cet4"; "cet6"].

Lemma sample_wordSet_ids_nodup : NoDup sample_wordSet_ids.
Proof. apply (bool_decide_unpack _). vm_compute. reflexivity. Qed.

Lemma sampleWordSets_ids t : map ws_id (sampleWordSets t) = sample_wordSet_ids.
Proof. reflexivity. Qed.

Lemma sampleWords_nodup t : NoDup (map w_id (sampleWords t)).
Proof.
  replace (map w_id (sampleWords t)) with (map w_id (sampleWords 0)) by reflexivity.
  apply (bool_decide_unpack _). vm_compute. reflexivity.
Qed.

(** The database [init()] opens: the stored one, or five empty stores. *)
Definition opened_db (s : InitState) : Database :=
  if idb (is_db s) is Some d then d else createStores.

(** The sample import on an open database, once the module is loaded. *)
Lemma importSampleData_open env s s1 d t :
  conn (is_db s) = true -> idb (is_db s) = Some d ->
  load_sample_module env s = (Ok t, s1) -> is_db s1 = is_db s ->
  importSampleData env s =
  (Ok tt, set_db (mkDBState (Some (set_store WORDS (os_put_all (key_path WORDS) (sampleWords t) (get_store WORDS d))
                                     (set_store WORD_SETS (os_put_all (key_path WORD_SETS) (sampleWordSets t)
                                                             (get_store WORD_SETS d)) d))) true) s1).
Proof.
  intros Hc Hd Hload Hdb. unfold importSampleData. rewrite (st_bind_Ok _ _ _ _ _ Hload).
  rewrite <- Hdb in Hc, Hd.
  rewrite (st_bind_Ok _ _ _ _ _ (iter_put_open WORD_SETS _ s1 d Hc Hd)).
  erewrite iter_put_open; [|reflexivity|reflexivity].
  rewrite set_db_twice, get_set_store_other by discriminate. reflexivity.
Qed.

(** With a fetch that fails, [importInitialData] is the sample import. *)
Lemma importInitialData_fetch_fails env s s' :
  fetch_fails (env_fetch env) = true -> importSampleData env s = (Ok tt, s') ->
  importInitialData env s = (Ok tt, s').
Proof.
  unfold importInitialData. intros Hf Hi.
  destruct (env_fetch env); try discriminate; [| |]; unfold st_catch; simpl; by rewrite ?Hi.
Qed.

(** C2: The first-visit import of the specification, from any state: when
    [initialize] runs, the database opens, the seed file cannot be fetched
    or parsed and the sample module is loaded or loads, and the opened
    database has no word set, then [initialize] resolves and leaves the
    word-set store holding exactly the four bundled sets, the words store
    holding every bundled word under its id and every other word it held,
    and the progress, session and settings stores as they were. *)
Theorem first_run_imports_sample_data env s :
  isInitialized s = false -> env_open_ok env = true -> fetch_fails (env_fetch env) = true ->
  (env_import_ok env = true \/ is_Some (sample_module s)) ->
  get_store WORD_SETS (opened_db s) = [] ->
  exists s' d' t, initialize env s = (Ok tt, s') /\ idb (is_db s') = Some d' /\
    isInitialized s' = true /\ sample_module s' = Some t /\
    Forall (fun ws => os_get (ws_id ws) (get_store WORD_SETS d') = Some ws) (sampleWordSets t) /\
    (forall id, ~ In id sample_wordSet_ids -> os_get id (get_store WORD_SETS d') = None) /\
    Forall (fun w => os_get (w_id w) (get_store WORDS d') = Some w) (sampleWords t) /\
    (forall id, ~ In id (map w_id (sampleWords t)) ->
       os_get id (get_store WORDS d') = os_get id (get_store WORDS (opened_db s))) /\
    (forall n, n <> WORDS -> n <> WORD_SETS -> get_store n d' = get_store n (opened_db s)).
Proof.
  intros Hi Ho Hf Hm Hempty. set (d0 := opened_db s) in *.
  set (s1 := set_db (mkDBState (Some d0) true) s).
  assert (Hinit : lift_db (init (env_open_ok env)) s = (Ok tt, s1)).
  { unfold lift_db, init. rewrite Ho. reflexivity. }
  assert (Hr : import_ready env s1) by (split; [split; [reflexivity|by eexists]|exact Hm]).
  destruct (load_sample_module_ok env s1 Hr) as (t & s2 & Hload & _).
  assert (Hs2 : is_db s2 = is_db s1 /\ sample_module s2 = Some t).
  { unfold load_sample_module in Hload. subst s1. cbn in Hload.
    destruct (sample_module s) eqn:Em; [|destruct (env_import_ok env)]; inversion Hload; subst; cbn; rewrite ?Em; done. }
  destruct Hs2 as [Hdb2 Hmod2].
  pose proof (importSampleData_open env s1 s2 d0 t eq_refl eq_refl Hload Hdb2) as Himp.
  assert (Hget : lift_db (getAll WORD_SETS) s1 = (Ok [], s1)).
  { unfold lift_db, getAll, performTransaction. simpl. change (db_wordSets d0) with (get_store WORD_SETS d0).
    rewrite Hempty. by destruct s. }
  unfold initialize, st_bind at 1, st_get. rewrite Hi.
  rewrite (st_bind_Ok _ _ _ _ _ Hinit).
  pose proof (importInitialData_fetch_fails _ _ _ Hf Himp) as Hii.
  assert (Hcheck : checkAndImportInitialData env s1 = importInitialData env s1).
  { unfold checkAndImportInitialData. rewrite Hii. apply st_catch_Ok.
    rewrite (st_bind_Ok _ _ _ _ _ Hget). exact Hii. }
  rewrite (st_bind_Ok _ _ _ _ _ (eq_trans Hcheck Hii)).
  eexists _, _, t. split; [reflexivity|]. cbn [is_db idb isInitialized sample_module set_db]. rewrite Hmod2.
  do 3 (split; [reflexivity|]).
  rewrite get_set_store_other, get_set_store by discriminate. rewrite Hempty.
  split; [|split; [|split; [|split]]].
  - apply Forall_forall. intros ws Hin%list_elem_of_In. apply os_put_all_get_in; [|exact Hin].
    change (NoDup (map ws_id (sampleWordSets t))). rewrite sampleWordSets_ids. apply sample_wordSet_ids_nodup.
  - intros id Hid. rewrite os_put_all_get_other; [reflexivity|].
    intros v Hv <-. apply Hid. rewrite <- (sampleWordSets_ids t). by apply in_map.
  - apply Forall_forall. intros w Hin%list_elem_of_In. rewrite get_set_store. apply os_put_all_get_in; [apply sampleWords_nodup|exact Hin].
  - intros id Hid. rewrite get_set_store. apply os_put_all_get_other. intros v Hv <-. apply Hid. by apply in_map.
  - intros n Hn1 Hn2. by rewrite !get_set_store_other by congruence.
Qed.

(** C18: A JSON import that fails partway is not rolled back: when the
    payload's word sets are valid entries [pre] followed by an entry without
    a key, the store keeps every entry of [pre] (stamped with the import
    time) and the fallback adds the four bundled word sets next to them. *)
Theorem json_failure_keeps_partial_import env s data pre rest :
  import_ready env s -> env_fetch env = FetchJson data ->
  sp_wordSets data = Some (map Some pre ++ None :: rest)%list ->
  NoDup (map ws_id pre) -> Forall (fun ws => ~ In (ws_id ws) sample_wordSet_ids) pre ->
  exists s' d', importInitialData env s = (Ok tt, s') /\ idb (is_db s') = Some d' /\
    Forall (fun ws => os_get (ws_id ws) (get_store WORD_SETS d') =
                      Some (stamp_wordSet (env_now env) ws)) pre /\
    Forall (fun id => is_Some (os_get id (get_store WORD_SETS d'))) sample_wordSet_ids.
Proof.
  intros [[Hc [d Hd]] Hm] Hf Hws Hnd Hfresh.
  unfold importInitialData. rewrite Hf.
  rewrite (st_catch_Err _ _ _ _ _ (importFromJSON_partial env data pre rest s d Hc Hd Hws)).
  set (d1 := set_store WORD_SETS _ d).
  set (s1 := set_db (mkDBState (Some d1) true) s).
  assert (Hr : import_ready env s1) by (split; [split; [reflexivity|by eexists]|exact Hm]).
  destruct (load_sample_module_ok env s1 Hr) as (t & s2 & Hload & [[Hc2 [d2 Hd2]] _]).
  assert (Hd2' : d2 = d1 /\ is_db s2 = is_db s1).
  { unfold load_sample_module in Hload. subst s1. simpl in *.
    destruct (sample_module s); [|destruct (env_import_ok env)]; injection Hload as _ <-;
      simpl in *; split; congruence. }
  destruct Hd2' as [-> Hdb2].
  unfold importSampleData. rewrite (st_bind_Ok _ _ _ _ _ Hload).
  rewrite (st_bind_Ok _ _ _ _ _ (iter_put_open WORD_SETS _ s2 d1 Hc2 Hd2)).
  erewrite iter_put_open; [|reflexivity|reflexivity].
  eexists _, _. split; [reflexivity|]. split; [reflexivity|].
  rewrite get_set_store_other by discriminate. rewrite get_set_store.
  subst d1. rewrite get_set_store. split.
  - apply Forall_forall. intros ws Hin.
    rewrite os_put_all_get_other.
    + change (ws_id ws) with (ws_id (stamp_wordSet (env_now env) ws)).
      apply os_put_all_get_in; [rewrite map_map; exact Hnd|apply in_map, list_elem_of_In, Hin].
    + intros v Hv E. rewrite Forall_forall in Hfresh. apply (Hfresh ws Hin).
      rewrite <- E, <- (sampleWordSets_ids t). by apply in_map.
  - apply Forall_forall. intros id Hid. rewrite <- (sampleWordSets_ids t) in Hid.
    apply list_elem_of_In, in_map_iff in Hid as (v & <- & Hv).
    eexists. apply (os_put_all_get_in (key_path WORD_SETS)); [|exact Hv].
    change (NoDup (map ws_id (sampleWordSets t))). rewrite sampleWordSets_ids.
    apply sample_wordSet_ids_nodup.
Qed.
End InitDBProofs.

(** ** Witnesses *)

Module InitDBWitnesses.
Import IndexedDBProofs InitDBProofs.

Definition env_offline : Env := mkEnv 1000 true FetchRejects true.

Definition my_set : WordSet :=
  mkWordSet "my-set" "mine" "my words" BEGINNER 1 [] false 0 0.

(** A payload whose second word set has no key. *)
Definition env_bad_json : Env :=
  mkEnv 2000 true (FetchJson (mkSeedPayload (Some [Some my_set; None]) None)) true.

(** An initialized browser whose database holds one word set. *)
Definition with_one_set : InitState :=
  mkInitState (mkDBState (Some (mkDatabase [] [("my-set", my_set)] [] [] [])) false) false None.

Definition opened_empty : InitState :=
  mkInitState (mkDBState (Some createStores) true) false None.

Lemma initializer_preserves_wf_witness :
  initializer_wf fresh_browser /\
  initializer_wf (initialize env_offline fresh_browser).2.
Proof.
  assert (H : initializer_wf fresh_browser) by (split; discriminate).
  split; [exact H|apply (initializer_preserves_wf env_offline fresh_browser H)].
Defined.

Lemma first_run_imports_sample_data_witness :
  exists s' d' t, initialize env_offline fresh_browser = (Ok tt, s') /\ idb (is_db s') = Some d' /\
    sample_module s' = Some t /\ is_Some (os_get "cet4" (get_store WORD_SETS d')).
Proof.
  destruct (first_run_imports_sample_data env_offline fresh_browser)
    as (s' & d' & t & E & Hd & _ & Hm & Hws & _); [reflexivity|reflexivity|reflexivity|by left|reflexivity|].
  exists s', d', t. do 3 (split; [assumption|]).
  unfold sampleWordSets in Hws. apply Forall_cons in Hws as [_ Hws].
  apply Forall_cons in Hws as [_ Hws]. apply Forall_cons in Hws as [H3 _]. eexists. exact H3.
Defined.

Lemma initialize_idempotent_witness :
  initialize env_offline (mkInitState (mkDBState None false) true None)
  = (Ok tt, mkInitState (mkDBState None false) true None).
Proof. apply initialize_idempotent. reflexivity. Defined.

Lemma initialize_keeps_existing_data_witness :
  initialize env_offline with_one_set
  = (Ok tt, mkInitState (mkDBState (Some (mkDatabase [] [("my-set", my_set)] [] [] [])) true)
                        true None).
Proof.
  apply initialize_keeps_existing_data; [reflexivity|reflexivity|reflexivity|simpl; discriminate].
Defined.

Lemma getDatabaseStatus_total_witness :
  getDatabaseStatus fresh_browser = (Ok (mkStatus 0 0 0 0), fresh_browser).
Proof. apply (getDatabaseStatus_total fresh_browser). reflexivity. Defined.

Lemma initialize_succeeds_witness :
  exists s', initialize env_bad_json fresh_browser = (Ok tt, s') /\ isInitialized s' = true.
Proof. apply initialize_succeeds; [reflexivity|by left]. Defined.

Lemma resetDatabase_clears_progress_witness :
  exists d', idb (is_db (resetDatabase env_offline opened_empty).2) = Some d' /\
  get_store USER_PROGRESS d' = [] /\ get_store STUDY_SESSIONS d' = [] /\
  get_store SETTINGS d' = get_store SETTINGS createStores.
Proof. apply resetDatabase_clears_progress; reflexivity. Defined.

Lemma json_failure_keeps_partial_import_witness :
  exists s' d', importInitialData env_bad_json opened_empty = (Ok tt, s') /\
    idb (is_db s') = Some d' /\
    Forall (fun ws => os_get (ws_id ws) (get_store WORD_SETS d') =
                      Some (stamp_wordSet (env_now env_bad_json) ws)) [my_set] /\
    Forall (fun id => is_Some (os_get id (get_store WORD_SETS d'))) sample_wordSet_ids.
Proof.
  apply (json_failure_keeps_partial_import env_bad_json opened_empty
           (mkSeedPayload (Some [Some my_set; None]) None) [my_set] []).
  - split; [split; [reflexivity|by eexists]|by left].
  - reflexivity.
  - reflexivity.
  - apply NoDup_singleton.
  - constructor; [|constructor]. simpl. intros H. intuition discriminate.
Defined.
Definition env_no_module : Env := mkEnv 1000 true FetchRejects false.

End InitDBWitnesses.
