(* ===== verification/JsString.v ===== *)
(** * The JavaScript string and array built-ins the program calls

    Strings are UTF-8 byte strings ([String.string]).  On valid UTF-8 a
    byte substring test agrees with JavaScript's UTF-16 code-unit test,
    since both encodings are self-synchronizing, so [includes] is a byte
    substring test.  [toLowerCase] maps the ASCII letters A-Z; the engine
    also lowercases non-ASCII letters (an accented capital, Greek, Cyrillic),
    which this model leaves unchanged.  [trim] removes leading and trailing
    characters of ECMAScript's WhiteSpace and LineTerminator sets, decoded
    from their UTF-8 bytes.  [js_slice0] is [Array.prototype.slice(0, end)]
    with its treatment of a negative end. *)

From stdpp Require Import base list.
From Stdlib Require Import String Ascii ZArith Lia.
From S2P Require Import Prelude.

Open Scope string_scope.

(** ** toLowerCase *)

Definition ascii_lower (c : ascii) : ascii :=
  let n := nat_of_ascii c in
  if (65 <=? n)%nat && (n <=? 90)%nat then ascii_of_nat (n + 32) else c.

Fixpoint js_toLowerCase (s : string) : string :=
  match s with
  | EmptyString => EmptyString
  | String c s' => String (ascii_lower c) (js_toLowerCase s')
  end.

(** ** includes *)

Fixpoint js_includes (s needle : string) : bool :=
  String.prefix needle s ||
  match s with
  | EmptyString => false
  | String _ s' => js_includes s' needle
  end.

(** ** trim *)

(** The UTF-8 encodings of ECMAScript's white space and line terminators:
    TAB, LF, VT, FF, CR, SPACE, U+00A0, U+1680, U+2000..U+200A, U+2028,
    U+2029, U+202F, U+205F, U+3000, U+FEFF. *)
Definition bytes1 (a : nat) : string := String (ascii_of_nat a) "".
Definition bytes2 (a b : nat) : string := String (ascii_of_nat a) (bytes1 b).
Definition bytes3 (a b c : nat) : string := String (ascii_of_nat a) (bytes2 b c).

Definition js_whitespace_chars : list string :=
  map bytes1 [9; 10; 11; 12; 13; 32] ++
  [bytes2 194 160; bytes3 225 154 128] ++
  map (bytes3 226 128) (seq 128 11) ++
  [bytes3 226 128 168; bytes3 226 128 169; bytes3 226 128 175; bytes3 226 129 159;
   bytes3 227 128 128; bytes3 239 187 191].

(** The byte length of the UTF-8 character that starts with byte [c]. *)
Definition utf8_len (c : ascii) : nat :=
  let n := nat_of_ascii c in
  if (n <? 128)%nat then 1 else if (n <? 224)%nat then 2 else if (n <? 240)%nat then 3 else 4.

(** The characters of a string, as byte strings; [fuel] is the length. *)
Fixpoint utf8_chars_fuel (fuel : nat) (s : string) : list string :=
  match fuel, s with
  | O, _ | _, EmptyString => []
  | S fuel', String c _ =>
      let k := utf8_len c in
      String.substring 0 k s :: utf8_chars_fuel fuel' (String.substring k (String.length s - k) s)
  end.

Definition utf8_chars (s : string) : list string := utf8_chars_fuel (String.length s) s.

Definition is_js_whitespace (ch : string) : bool :=
  existsb (String.eqb ch) js_whitespace_chars.

Fixpoint drop_ws (cs : list string) : list string :=
  match cs with
  | ch :: cs' => if is_js_whitespace ch then drop_ws cs' else cs
  | [] => []
  end.

(** [trim] on the characters: drop white space at both ends. *)
Definition js_trim_chars (cs : list string) : list string := rev (drop_ws (rev (drop_ws cs))).

Definition js_trim (s : string) : string := String.concat "" (js_trim_chars (utf8_chars s)).

(** ** Array.prototype.slice(0, end) *)

Definition js_slice0 {A} (l : list A) (end_ : Z) : list A :=
  let len := Z.of_nat (List.length l) in
  let e := if (end_ <? 0)%Z then Z.max (len + end_) 0 else Z.min end_ len in
  firstn (Z.to_nat e) l.

(** [Array.prototype.includes] on values with a decidable equality (the
    code compares numbers and strings, where SameValueZero is equality). *)
Definition js_array_includes {A} (eqb : A -> A -> bool) (l : list A) (x : A) : bool :=
  existsb (eqb x) l.

(** ** Facts *)

Lemma js_includes_empty s : js_includes s "" = true.
Proof. by destruct s. Qed.

Lemma prefix_refl s : String.prefix s s = true.
Proof.
  induction s as [|c s IH]; simpl; [done|].
  destruct (ascii_dec c c); [exact IH|congruence].
Qed.

Lemma js_includes_refl s : js_includes s s = true.
Proof. destruct s; simpl; [done|]. destruct (ascii_dec a a); [|congruence]. by rewrite prefix_refl. Qed.

Lemma ascii_lower_idem c : ascii_lower (ascii_lower c) = ascii_lower c.
Proof. by destruct c as [[] [] [] [] [] [] [] []]. Qed.

Lemma js_toLowerCase_idem s : js_toLowerCase (js_toLowerCase s) = js_toLowerCase s.
Proof. induction s; simpl; [done|]. by rewrite ascii_lower_idem, IHs. Qed.

(** The length [slice(0, end)] returns: [end] clamped to [0, length], a
    negative [end] counting from the end. *)
Lemma js_slice0_length {A} (l : list A) e :
  List.length (js_slice0 l e) =
  Z.to_nat (if (e <? 0)%Z then Z.max (Z.of_nat (List.length l) + e) 0
            else Z.min e (Z.of_nat (List.length l))).
Proof.
  unfold js_slice0. rewrite List.length_firstn.
  destruct (Z.ltb_spec e 0); lia.
Qed.

Lemma js_slice0_prefix {A} (l : list A) e : js_slice0 l e `prefix_of` l.
Proof. apply prefix_take. Qed.

Lemma js_slice0_nonneg {A} (l : list A) e :
  (0 <= e)%Z -> js_slice0 l e = firstn (Z.to_nat e) l.
Proof.
  intros He. unfold js_slice0. destruct (Z.ltb_spec e 0); [lia|].
  rewrite <- (firstn_all l) at 3. rewrite !firstn_firstn. f_equal. lia.
Qed.

(** A needle's first character occurs wherever the needle does. *)
Lemma js_includes_head s c n :
  js_includes s (String c n) = true -> js_includes s (String c "") = true.
Proof.
  induction s as [|a s IH]; simpl; [done|].
  destruct (ascii_dec c a); [by destruct s|]. simpl. exact IH.
Qed.

Lemma ascii_lower_space x : ascii_lower x = " "%char -> x = " "%char.
Proof.
  intros H. destruct x as [[] [] [] [] [] [] [] []]; vm_compute in H; try discriminate H;
    reflexivity.
Qed.

Lemma prefix_space_ne x y : x <> " "%char -> String.prefix " " (String x y) = false.
Proof. intros Hx. cbn [String.prefix]. destruct (ascii_dec " " x); congruence. Qed.

(** Lower-casing neither creates nor removes a space. *)
Lemma js_includes_lower_space s :
  js_includes (js_toLowerCase s) " " = true -> js_includes s " " = true.
Proof.
  induction s as [|a s IH]; [done|].
  destruct (ascii_dec a " ") as [->|Ha]; [intros _; by destruct s|].
  assert (Hl : ascii_lower a <> " "%char) by (intros E; by apply Ha, ascii_lower_space).
  cbn [js_toLowerCase js_includes]. rewrite !prefix_space_ne by done. exact IH.
Qed.


(** ** Decoding and encoding characters *)

(** A well-formed character: a lead byte and as many bytes as it
    announces. *)
Definition wf_char (c : string) : Prop :=
  match c with
  | String a _ => String.length c = utf8_len a
  | EmptyString => False
  end.

Lemma append_empty_r s : (s ++ "")%string = s.
Proof. induction s; simpl; congruence. Qed.

Lemma length_append c r : String.length (c ++ r) = String.length c + String.length r.
Proof. induction c; simpl; congruence. Qed.

Lemma concat_cons c l : String.concat "" (c :: l) = (c ++ String.concat "" l)%string.
Proof. destruct l; simpl; [by rewrite append_empty_r|done]. Qed.

Lemma substring_prefix c r : String.substring 0 (String.length c) (c ++ r) = c.
Proof. induction c; simpl; [by destruct r|congruence]. Qed.

Lemma substring_full r : String.substring 0 (String.length r) r = r.
Proof. induction r; simpl; congruence. Qed.

Lemma substring_suffix c r : String.substring (String.length c) (String.length r) (c ++ r) = r.
Proof. induction c; simpl; [apply substring_full|exact IHc]. Qed.

Lemma utf8_chars_fuel_app f c r :
  wf_char c -> utf8_chars_fuel (S f) (c ++ r) = c :: utf8_chars_fuel f r.
Proof.
  destruct c as [|a c']; [done|]. intros Hc.
  change ((String a c' ++ r)%string) with (String a (c' ++ r)). cbn [utf8_chars_fuel].
  change (String a (c' ++ r)) with ((String a c' ++ r)%string). rewrite <- Hc.
  rewrite substring_prefix, length_append.
  replace (String.length (String a c') + String.length r - String.length (String a c')) with (String.length r) by lia.
  by rewrite substring_suffix.
Qed.

Lemma concat_length_ge l : Forall wf_char l -> List.length l <= String.length (String.concat "" l).
Proof.
  induction 1 as [|c l Hc _ IH]; [simpl; lia|].
  rewrite concat_cons, length_append. destruct c; [done|]. simpl. lia.
Qed.

(** Decoding the encoding of well-formed characters gives them back. *)
Lemma utf8_roundtrip l : Forall wf_char l -> utf8_chars (String.concat "" l) = l.
Proof.
  intros Hl. unfold utf8_chars. pose proof (concat_length_ge l Hl) as Hn. revert Hn.
  generalize (String.length (String.concat "" l)) as f.
  induction Hl as [|c l Hc _ IH]; intros f Hf; [by destruct f|].
  destruct f as [|f]; [simpl in Hf; lia|]. rewrite concat_cons, utf8_chars_fuel_app by done.
  f_equal. apply IH. simpl in Hf. lia.
Qed.

(** ** White space at the ends *)

Local Open Scope list_scope.

Lemma drop_ws_suffix cs : exists p, cs = p ++ drop_ws cs.
Proof.
  induction cs as [|c cs [p Hp]]; simpl; [by exists []|].
  destruct (is_js_whitespace c); [exists (c :: p); simpl; by f_equal|by exists []].
Qed.

Lemma drop_ws_head cs x : head (drop_ws cs) = Some x -> is_js_whitespace x = false.
Proof.
  induction cs as [|c cs IH]; simpl; [done|].
  destruct (is_js_whitespace c) eqn:E; [exact IH|simpl; congruence].
Qed.

Lemma drop_ws_id cs : (forall x, head cs = Some x -> is_js_whitespace x = false) -> drop_ws cs = cs.
Proof. destruct cs as [|c cs]; simpl; [done|]. intros H. by rewrite (H c). Qed.

Lemma head_last_rev {A} (l : list A) : head (rev l) = last l.
Proof. induction l as [|x l IH] using rev_ind; [done|]. by rewrite rev_unit, last_snoc. Qed.

(** The ends of a trimmed text are not white space. *)
Lemma js_trim_chars_ends cs :
  (forall x, head (js_trim_chars cs) = Some x -> is_js_whitespace x = false) /\
  (forall x, last (js_trim_chars cs) = Some x -> is_js_whitespace x = false).
Proof.
  unfold js_trim_chars. set (d := drop_ws cs). split.
  - destruct (drop_ws_suffix (rev d)) as [p Hp]. intros x Hx.
    assert (Hd : d = rev (drop_ws (rev d)) ++ rev p)
      by (rewrite <- rev_app_distr, <- Hp; by rewrite rev_involutive).
    apply (drop_ws_head cs). fold d. rewrite Hd.
    destruct (rev (drop_ws (rev d))); [done|exact Hx].
  - intros x Hx. rewrite <- head_last_rev, rev_involutive in Hx. exact (drop_ws_head _ _ Hx).
Qed.

(** A text whose ends are not white space is its own trim. *)
Lemma js_trim_chars_id cs :
  (forall x, head cs = Some x -> is_js_whitespace x = false) ->
  (forall x, last cs = Some x -> is_js_whitespace x = false) ->
  js_trim_chars cs = cs.
Proof.
  intros Hh Hl. unfold js_trim_chars. rewrite (drop_ws_id cs Hh).
  rewrite drop_ws_id; [apply rev_involutive|]. intros x. rewrite head_last_rev. apply Hl.
Qed.

(** ** Lower-casing character by character *)

Lemma utf8_len_lower c : utf8_len (ascii_lower c) = utf8_len c.
Proof. destruct c as [[] [] [] [] [] [] [] []]; reflexivity. Qed.

Lemma ascii_lower_not_upper c :
  ~ (65 <= nat_of_ascii (ascii_lower c) <= 90)%nat.
Proof. destruct c as [[] [] [] [] [] [] [] []]; vm_compute; lia. Qed.

Lemma length_lower s : String.length (js_toLowerCase s) = String.length s.
Proof. induction s; simpl; congruence. Qed.

Lemma substring_lower n m s :
  String.substring n m (js_toLowerCase s) = js_toLowerCase (String.substring n m s).
Proof.
  revert n m. induction s as [|c s IH]; intros [|n] [|m]; simpl; rewrite ?IH; done.
Qed.

(** Lower-casing keeps the characters apart: it changes no lead byte's
    class. *)
Lemma utf8_chars_lower s : utf8_chars (js_toLowerCase s) = List.map js_toLowerCase (utf8_chars s).
Proof.
  unfold utf8_chars. rewrite length_lower. generalize (String.length s) as f.
  intros f. revert s. induction f as [|f IH]; intros [|c r]; try done.
  cbn [js_toLowerCase utf8_chars_fuel]. rewrite utf8_len_lower.
  change (String (ascii_lower c) (js_toLowerCase r)) with (js_toLowerCase (String c r)).
  rewrite !substring_lower, length_lower, IH. reflexivity.
Qed.

Lemma wf_char_lower c : wf_char c -> wf_char (js_toLowerCase c).
Proof. destruct c as [|a r]; [done|]. simpl. rewrite utf8_len_lower, length_lower. done. Qed.
