(* ===== verification/JsNumber.v ===== *)
(** * [parseInt] ([src/src/pages/Settings/SettingsPage.tsx])

    The settings page reads its daily-goal field with
    [parseInt(e.target.value)].
    [js_parseInt] follows ECMAScript's [parseInt(string)] without a radix:
    leading white space (the set of [trim]) is skipped, an optional sign
    is read, a ["0x"] or ["0X"] prefix selects radix 16, and the longest
    run of digits of the radix is the value; no digit gives [NaN].  The
    digits are converted by the Standard Library's decimal and hexadecimal
    strings ([DecimalString], [HexadecimalString]), and the result is
    the number [𝔽] of their value: the nearest double, ties to even
    ([round_double]), or an infinity past the largest double
    ([number_of_int]).  [-0] is [0].

    [decimal_text] is the decimal text of an integer, the input of the
    theorems: what a user types into the field. *)

From stdpp Require Import base list.
From Stdlib Require Import String Ascii ZArith QArith Lia.
From Stdlib Require Import DecimalString HexadecimalString DecimalZ DecimalPos.
From S2P Require Import Prelude Types JsString.

Open Scope string_scope.

(** A single-byte character in a code range. *)
Definition char_between (lo hi : nat) (c : string) : bool :=
  match c with
  | String a "" => (lo <=? nat_of_ascii a)%nat && (nat_of_ascii a <=? hi)%nat
  | _ => false
  end.

Definition is_decimal_digit (c : string) : bool := char_between 48 57 c.

Definition is_hex_digit (c : string) : bool :=
  char_between 48 57 c || char_between 97 102 c || char_between 65 70 c.

(** The longest prefix of digits. *)
Fixpoint take_digits (ok : string -> bool) (cs : list string) : list string :=
  match cs with
  | c :: cs' => if ok c then c :: take_digits ok cs' else []
  | [] => []
  end.

(** The sign ([true] for a minus) and the rest of the characters. *)
Definition read_sign (cs : list string) : bool * list string :=
  match cs with
  | c :: cs' => if String.eqb c "-" then (true, cs') else if String.eqb c "+" then (false, cs') else (false, cs)
  | [] => (false, cs)
  end.

(** The radix prefix: ["0x"] or ["0X"] selects 16. *)
Definition read_radix (cs : list string) : bool * list string :=
  match cs with
  | c :: x :: cs' =>
      if String.eqb c "0" && (String.eqb x "x" || String.eqb x "X") then (true, cs') else (false, cs)
  | _ => (false, cs)
  end.

(** The value of a run of digits (lower-cased for radix 16). *)
Definition parseInt_digits_value (hex : bool) (ds : string) : option Z :=
  if hex then option_map Z.of_hex_uint (HexadecimalString.NilEmpty.uint_of_string (js_toLowerCase ds))
  else option_map Z.of_uint (DecimalString.NilEmpty.uint_of_string ds).

(** [𝔽(z)] of an integer: the double nearest to [z], a tie going to the
    even significand.  Above [2^53] a double is [q * 2^sh] with a 53-bit
    [q]: [q] is [z]'s leading 53 bits, rounded up when the dropped bits
    [r] exceed half of [2^sh], or equal it and [q] is odd.  The result is
    [2^1024] or more exactly when [z] lies beyond the largest double. *)
Definition round_double (z : Z) : Z :=
  (let a := Z.abs z in
   if Z.log2 a <? 53 then z
   else
     let sh := Z.log2 a - 52 in
     let q := Z.shiftr a sh in
     let r := a - Z.shiftl q sh in
     let half := Z.shiftl 1 (sh - 1) in
     let q' := if half <? r then q + 1 else if r <? half then q else if Z.even q then q else q + 1 in
     Z.sgn z * Z.shiftl q' sh)%Z.

(** The number [𝔽(z)]: an infinity of [z]'s sign when the nearest double
    overflows. *)
Definition number_of_int (z : Z) : number :=
  let d := round_double z in
  if (2 ^ 1024 <=? Z.abs d)%Z then JsInf (z <? 0)%Z else JsNum (inject_Z d).

(** [parseInt(string)]: the number [𝔽(sign * mathInt)] of the digits read,
    where [mathInt] is their exact value (the engines convert a run of
    digits with correct rounding, one of the choices ECMAScript allows). *)
Definition js_parseInt (s : string) : number :=
  let '(neg, cs1) := read_sign (drop_ws (utf8_chars s)) in
  let '(hex, cs2) := read_radix cs1 in
  let ds := String.concat "" (take_digits (if hex then is_hex_digit else is_decimal_digit) cs2) in
  if String.eqb ds "" then JsNaN
  else match parseInt_digits_value hex ds with
       | Some z => number_of_int (if neg then - z else z)
       | None => JsNaN
       end.

(** The decimal text of an integer: its digits, after ["-"] for a
    negative one (the text a user types into the daily-goal field). *)
Definition decimal_text (z : Z) : string := DecimalString.NilEmpty.string_of_int (Z.to_int z).

(** ** Proofs *)

Module JsNumberProofs.
Local Open Scope list_scope.

(** The characters of a decimal text, one per digit. *)
Fixpoint digit_chars (u : Decimal.uint) : list string :=
  match u with
  | Decimal.Nil => []
  | Decimal.D0 u => "0" :: digit_chars u
  | Decimal.D1 u => "1" :: digit_chars u
  | Decimal.D2 u => "2" :: digit_chars u
  | Decimal.D3 u => "3" :: digit_chars u
  | Decimal.D4 u => "4" :: digit_chars u
  | Decimal.D5 u => "5" :: digit_chars u
  | Decimal.D6 u => "6" :: digit_chars u
  | Decimal.D7 u => "7" :: digit_chars u
  | Decimal.D8 u => "8" :: digit_chars u
  | Decimal.D9 u => "9" :: digit_chars u
  end.

Lemma utf8_chars_cons_ascii a r :
  (nat_of_ascii a < 128)%nat -> utf8_chars (String a r) = String a "" :: utf8_chars r.
Proof.
  intros Ha. unfold utf8_chars. cbn [String.length].
  change (String a r) with (String a "" ++ r)%string.
  apply utf8_chars_fuel_app. cbn. unfold utf8_len. by rewrite (proj2 (Nat.ltb_lt _ _) Ha).
Qed.

Lemma append_cons a s r : String.append (String a s) r = String a (String.append s r).
Proof. reflexivity. Qed.

Lemma utf8_chars_uint_app u r :
  utf8_chars (String.append (DecimalString.NilEmpty.string_of_uint u) r) = digit_chars u ++ utf8_chars r.
Proof.
  induction u; cbn [DecimalString.NilEmpty.string_of_uint digit_chars app]; [reflexivity|..];
    rewrite append_cons, utf8_chars_cons_ascii by (cbv; lia); f_equal; exact IHu.
Qed.

(** No ["x"] or ["X"] first, which would make a lone ["0"] a radix prefix. *)
Definition no_x (cs : list string) : Prop :=
  match cs with x :: _ => x <> "x" /\ x <> "X" | [] => True end.

Lemma take_digit_chars u cs :
  take_digits is_decimal_digit cs = [] -> take_digits is_decimal_digit (digit_chars u ++ cs) = digit_chars u.
Proof. intros Hc. induction u; cbn; [exact Hc|..]; f_equal; exact IHu. Qed.

Lemma concat_digit_chars u : String.concat "" (digit_chars u) = DecimalString.NilEmpty.string_of_uint u.
Proof.
  induction u; [reflexivity|..]; cbn [digit_chars DecimalString.NilEmpty.string_of_uint];
    rewrite concat_cons, IHu; reflexivity.
Qed.

Lemma digit_chars_scan u cs :
  u <> Decimal.Nil -> (u = Decimal.D0 Decimal.Nil -> no_x cs) ->
  read_sign (drop_ws (digit_chars u ++ cs)) = (false, digit_chars u ++ cs) /\
  read_radix (digit_chars u ++ cs) = (false, digit_chars u ++ cs) /\
  read_sign (drop_ws ("-" :: digit_chars u ++ cs)) = (true, digit_chars u ++ cs).
Proof.
  intros Hu Hx. destruct u; [done|..]; (split; [reflexivity|split; [|reflexivity]]);
    destruct u; try reflexivity; (destruct cs as [|x cs]; [reflexivity|]); try reflexivity;
    destruct (Hx eq_refl) as [Hx1%String.eqb_neq Hx2%String.eqb_neq]; cbn [app digit_chars read_radix];
    rewrite Hx1, Hx2; reflexivity.
Qed.

Lemma string_of_uint_nonempty u :
  u <> Decimal.Nil -> String.eqb (DecimalString.NilEmpty.string_of_uint u) "" = false.
Proof. intros Hu. by destruct u. Qed.

(** The decimal digits of [Z.to_int z]. *)
Lemma to_int_nonnil z : (exists u, Z.to_int z = Decimal.Pos u /\ u <> Decimal.Nil) \/
                        (exists u, Z.to_int z = Decimal.Neg u /\ u <> Decimal.Nil).
Proof.
  destruct z as [|p|p]; [left; by eexists|left|right]; eexists; (split; [reflexivity|]);
    apply DecimalPos.Unsigned.to_uint_nonnil.
Qed.

(** A text of decimal digits, after an optional minus and before an end
    of the digits, is read as their value. *)
Lemma js_parseInt_digits (neg : bool) u r :
  u <> Decimal.Nil -> take_digits is_decimal_digit (utf8_chars r) = [] ->
  (u = Decimal.D0 Decimal.Nil -> no_x (utf8_chars r)) ->
  js_parseInt ((if neg then String "-" else id) (String.append (DecimalString.NilEmpty.string_of_uint u) r)) =
  number_of_int (if neg then - Z.of_uint u else Z.of_uint u).
Proof.
  intros Hu Hr Hx. destruct (digit_chars_scan u _ Hu Hx) as (H1 & H2 & H3). unfold js_parseInt.
  destruct neg; cbn [id];
    [rewrite utf8_chars_cons_ascii by (cbv; lia); rewrite utf8_chars_uint_app, H3
    |rewrite utf8_chars_uint_app, H1];
    rewrite H2, (take_digit_chars u _ Hr), concat_digit_chars, string_of_uint_nonempty by exact Hu;
    unfold parseInt_digits_value; rewrite DecimalString.NilEmpty.usu; reflexivity.
Qed.

Lemma js_parseInt_String_app z r :
  take_digits is_decimal_digit (utf8_chars r) = [] -> (z = 0%Z -> no_x (utf8_chars r)) ->
  js_parseInt (String.append (decimal_text z) r) = number_of_int z.
Proof.
  intros Hr Hx. unfold decimal_text. pose proof (DecimalZ.of_to z) as E.
  destruct (to_int_nonnil z) as [(u & Hz & Hu)|(u & Hz & Hu)]; rewrite Hz in E |- *;
    cbn [DecimalString.NilEmpty.string_of_int].
  - assert (Hx' : u = Decimal.D0 Decimal.Nil -> no_x (utf8_chars r)) by (intros ->; apply Hx; by rewrite <- E).
    pose proof (js_parseInt_digits false u r Hu Hr Hx') as P. cbn [id] in P. rewrite P. by rewrite <- E.
  - assert (Hx' : u = Decimal.D0 Decimal.Nil -> no_x (utf8_chars r)) by (intros ->; by subst z).
    rewrite append_cons, (js_parseInt_digits true u r Hu Hr Hx'). by rewrite <- E.
Qed.

(** Every integer of at most 53 bits is a double. *)
Lemma round_double_safe z : (Z.abs z <= 2 ^ 53)%Z -> round_double z = z.
Proof.
  intros H. destruct (Z.eq_dec (Z.abs z) (2 ^ 53)) as [E|Hne].
  - assert (Hz : z = (2 ^ 53)%Z \/ z = (- 2 ^ 53)%Z) by lia. by destruct Hz as [->| ->].
  - destruct (Z.eq_dec z 0) as [->|Hz]; [reflexivity|]. unfold round_double.
    rewrite (proj2 (Z.ltb_lt _ _)); [reflexivity|]. apply Z.log2_lt_pow2; lia.
Qed.

Lemma number_of_int_safe z : (Z.abs z <= 2 ^ 53)%Z -> number_of_int z = JsNum (inject_Z z).
Proof.
  intros H. unfold number_of_int. rewrite (round_double_safe z H).
  assert (Hlt : (2 ^ 53 < 2 ^ 1024)%Z) by (apply Z.pow_lt_mono_r; lia).
  by rewrite (proj2 (Z.leb_gt _ _)) by lia.
Qed.



End JsNumberProofs.

Module JsNumberWitnesses.
Import JsNumberProofs.



End JsNumberWitnesses.
