(* ===== verification/JsObject.v ===== *)
(** * Plain JavaScript objects used as dictionaries, and [Array.prototype.sort]

    [getPopularTags] counts tags in an object literal [{}] indexed by the
    tag.  Such an object is not a map: a missing key is looked up on
    [Object.prototype], whose members ([constructor], [toString], ...)
    are functions, and [__proto__] is an accessor whose setter ignores a
    non-object value.  The model keeps the object's own properties in
    creation order ([JsObj]), the values a counting loop can meet
    ([jsval]), and the order of [Object.entries]: array-index keys first,
    ascending, then the other keys in creation order.

    [sort_by] is [Array.prototype.sort] with a comparator returning a
    number ([NaN] read as [+0], as the specification's SortCompare does):
    a stable insertion sort.  The specification requires a stable sort;
    for a consistent comparator every stable sort gives this result, and
    for an inconsistent one the engine's order is implementation-defined
    and the model gives insertion sort's. *)

From stdpp Require Import base list sorting pretty.
From Stdlib Require Import String Ascii ZArith NArith Lia.
From S2P Require Import Prelude.

Open Scope string_scope.

(** ** Values *)

Inductive jsval :=
| JNum (n : Z)         (* an integral number *)
| JStr (s : string)    (* a string *)
| JFun (name : string) (* a built-in function, by its [name] *)
| JProto.              (* [Object.prototype] itself *)

(** [Object.prototype]'s own properties. *)
Definition object_prototype : list (string * jsval) :=
  [("constructor", JFun "Object"); ("__defineGetter__", JFun "__defineGetter__");
   ("__defineSetter__", JFun "__defineSetter__"); ("hasOwnProperty", JFun "hasOwnProperty");
   ("__lookupGetter__", JFun "__lookupGetter__"); ("__lookupSetter__", JFun "__lookupSetter__");
   ("isPrototypeOf", JFun "isPrototypeOf"); ("propertyIsEnumerable", JFun "propertyIsEnumerable");
   ("toString", JFun "toString"); ("valueOf", JFun "valueOf"); ("__proto__", JProto);
   ("toLocaleString", JFun "toLocaleString")].

Fixpoint assoc_lookup {V} (k : string) (l : list (string * V)) : option V :=
  match l with
  | [] => None
  | (k', v) :: l' => if String.eqb k k' then Some v else assoc_lookup k l'
  end.

Definition is_proto_member (k : string) : bool :=
  if assoc_lookup k object_prototype is Some _ then true else false.

(** [ToBoolean]. *)
Definition js_truthy_val (v : jsval) : bool :=
  match v with
  | JNum n => negb (Z.eqb n 0)
  | JStr s => negb (String.eqb s "")
  | JFun _ | JProto => true
  end.

(** [String(v)] for the values that are not numbers. *)
Definition js_to_string (v : jsval) : string :=
  match v with
  | JNum n => pretty n
  | JStr s => s
  | JFun name => "function " ++ name ++ "() { [native code] }"
  | JProto => "[object Object]"
  end.

(** [v + 1]: a number adds, anything else concatenates. *)
Definition js_plus_one (v : jsval) : jsval :=
  match v with
  | JNum n => JNum (n + 1)
  | _ => JStr (js_to_string v ++ "1")
  end.

(** ** Objects *)

Definition JsObj := list (string * jsval).

(** [o[k]]: the own property, else [Object.prototype]'s, else
    [undefined] ([None]). *)
Definition obj_get (o : JsObj) (k : string) : option jsval :=
  match assoc_lookup k o with
  | Some v => Some v
  | None => assoc_lookup k object_prototype
  end.

Fixpoint assoc_update {V} (k : string) (v : V) (l : list (string * V)) : list (string * V) :=
  match l with
  | [] => []
  | (k', v') :: l' => if String.eqb k k' then (k', v) :: l' else (k', v') :: assoc_update k v l'
  end.

(** [o[k] = v]: an own property is updated in place; [__proto__] goes to
    the inherited setter, which ignores a value that is not an object;
    any other key becomes a new own property, last in creation order. *)
Definition obj_set (o : JsObj) (k : string) (v : jsval) : JsObj :=
  match assoc_lookup k o with
  | Some _ => assoc_update k v o
  | None => if String.eqb k "__proto__" then o else (o ++ [(k, v)])%list
  end.

(** ** Object.entries *)

Fixpoint digits_value (s : string) (acc : N) : option N :=
  match s with
  | EmptyString => Some acc
  | String c s' =>
      let n := nat_of_ascii c in
      if (48 <=? n)%nat && (n <=? 57)%nat
      then digits_value s' (acc * 10 + N.of_nat (n - 48))%N else None
  end.

(** An array index: [ToString(ToUint32(k)) === k] and [ToUint32(k)] is not
    [2^32 - 1]. *)
Definition array_index (k : string) : option N :=
  match k with
  | EmptyString => None
  | _ =>
      match digits_value k 0 with
      | Some v => if String.eqb (pretty v) k && (v <? 4294967295)%N then Some v else None
      | None => None
      end
  end.

(** [Array.prototype.sort(comparefn)]: stable, [x] stays before [y] when
    [comparefn(x, y) <= 0]. *)
Fixpoint sort_insert {A} (cmp : A -> A -> Z) (x : A) (l : list A) : list A :=
  match l with
  | [] => [x]
  | y :: l' => if (cmp x y <=? 0)%Z then x :: l else y :: sort_insert cmp x l'
  end.

Fixpoint sort_by {A} (cmp : A -> A -> Z) (l : list A) : list A :=
  match l with
  | [] => []
  | x :: l' => sort_insert cmp x (sort_by cmp l')
  end.

Definition index_of (kv : string * jsval) : N := if array_index kv.1 is Some i then i else 0%N.

Definition is_index_key (kv : string * jsval) : bool := if array_index kv.1 is Some _ then true else false.

Definition obj_entries (o : JsObj) : list (string * jsval) :=
  sort_by (fun a b => Z.of_N (index_of a) - Z.of_N (index_of b))%Z (List.filter is_index_key o) ++
  List.filter (fun kv => negb (is_index_key kv)) o.

(** ** Sorting *)

(** The comparator [(x, y) => h(x) - h(y)] of a numeric key [h]. *)
Definition key_cmp {A} (h : A -> Z) (x y : A) : Z := (h x - h y)%Z.

Lemma sort_insert_perm {A} (cmp : A -> A -> Z) x l : sort_insert cmp x l ≡ₚ x :: l.
Proof.
  induction l as [|y l IH]; simpl; [done|].
  destruct (cmp x y <=? 0)%Z; [done|]. rewrite IH. apply perm_swap.
Qed.

Lemma sort_by_perm {A} (cmp : A -> A -> Z) l : sort_by cmp l ≡ₚ l.
Proof. induction l as [|x l IH]; simpl; [done|]. by rewrite sort_insert_perm, IH. Qed.

Lemma sort_insert_ext {A} (cmp cmp' : A -> A -> Z) x k :
  (forall y, y ∈ k -> cmp x y = cmp' x y) -> sort_insert cmp x k = sort_insert cmp' x k.
Proof.
  induction k as [|y k IHk]; intros Hx; simpl; [done|].
  rewrite Hx by constructor. destruct (cmp' x y <=? 0)%Z; [done|].
  f_equal. apply IHk. intros; apply Hx; by constructor.
Qed.

(** The sort only consults the comparator on the elements it sorts. *)
Lemma sort_by_ext {A} (cmp cmp' : A -> A -> Z) l :
  (forall x y, x ∈ l -> y ∈ l -> cmp x y = cmp' x y) -> sort_by cmp l = sort_by cmp' l.
Proof.
  induction l as [|x l IH]; intros Hc; simpl; [done|].
  rewrite IH by (intros; apply Hc; by constructor).
  apply sort_insert_ext. intros y Hy. rewrite sort_by_perm in Hy. apply Hc; by constructor.
Qed.

Section KeySort.
Context {A : Type} (h : A -> Z).

Lemma sort_insert_sorted x l :
  StronglySorted (fun a b => h a <= h b)%Z l ->
  StronglySorted (fun a b => h a <= h b)%Z (sort_insert (key_cmp h) x l).
Proof.
  induction l as [|y l IH]; intros Hs; simpl; [by repeat constructor|].
  apply StronglySorted_inv in Hs as [Hs Hy]. unfold key_cmp.
  destruct (Z.leb_spec (h x - h y) 0).
  - constructor; [by constructor|]. constructor; [lia|].
    eapply Forall_impl; [exact Hy|]. simpl; lia.
  - constructor; [by apply IH|]. rewrite sort_insert_perm. constructor; [lia|exact Hy].
Qed.

Lemma sort_by_sorted l : StronglySorted (fun a b => h a <= h b)%Z (sort_by (key_cmp h) l).
Proof. induction l; simpl; [constructor|by apply sort_insert_sorted]. Qed.

Lemma sort_insert_filter c x k :
  List.filter (fun a => Z.eqb (h a) c) (sort_insert (key_cmp h) x k) =
  List.filter (fun a => Z.eqb (h a) c) (x :: k).
Proof.
  induction k as [|y k IHk]; simpl; unfold key_cmp in *; [done|].
  destruct (Z.leb_spec (h x - h y) 0); simpl; [done|]. rewrite IHk. simpl.
  destruct (Z.eqb_spec (h y) c), (Z.eqb_spec (h x) c); simpl; done || lia.
Qed.

(** Stability: the elements of one key keep their relative order. *)
Lemma sort_by_stable c l :
  List.filter (fun a => Z.eqb (h a) c) (sort_by (key_cmp h) l) =
  List.filter (fun a => Z.eqb (h a) c) l.
Proof.
  induction l as [|x l IH]; simpl; [done|]. rewrite sort_insert_filter. simpl.
  by rewrite IH.
Qed.

End KeySort.

(** ** Own properties *)

Lemma assoc_lookup_app {V} k (l1 l2 : list (string * V)) :
  assoc_lookup k (l1 ++ l2) = if assoc_lookup k l1 is Some v then Some v else assoc_lookup k l2.
Proof.
  induction l1 as [|[k' v'] l1 IH]; simpl; [done|]. by destruct (String.eqb k k').
Qed.

Lemma assoc_lookup_update_eq {V} k (v : V) l :
  is_Some (assoc_lookup k l) -> assoc_lookup k (assoc_update k v l) = Some v.
Proof.
  induction l as [|[k' v'] l IH]; simpl; [by intros []|].
  destruct (String.eqb_spec k k'); simpl; [subst; by rewrite String.eqb_refl|].
  apply String.eqb_neq in n. rewrite n. exact IH.
Qed.

Lemma assoc_lookup_update_ne {V} k k' (v : V) l :
  k' <> k -> assoc_lookup k' (assoc_update k v l) = assoc_lookup k' l.
Proof.
  intros Hne. induction l as [|[k0 v0] l IH]; simpl; [done|].
  destruct (String.eqb_spec k k0); simpl; [|by rewrite IH].
  subst. destruct (String.eqb_spec k' k0); [congruence|done].
Qed.

Lemma assoc_update_keys {V} k (v : V) l : (assoc_update k v l).*1 = l.*1.
Proof.
  induction l as [|[k' v'] l IH]; simpl; [done|].
  destruct (String.eqb k k'); simpl; [done|]. f_equal. exact IH.
Qed.

Lemma assoc_lookup_None {V} k (l : list (string * V)) : assoc_lookup k l = None <-> k ∉ l.*1.
Proof.
  induction l as [|[k' v'] l IH]; simpl; [split; [intros _; apply not_elem_of_nil|done]|].
  rewrite elem_of_cons. destruct (String.eqb_spec k k'); [subst; split; [done|tauto]|].
  rewrite IH. tauto.
Qed.

(** [o[k] = v] with [k] other than ["__proto__"] makes [v] the own value
    of [k] and changes no other key. *)
Lemma obj_set_lookup_eq o k v :
  k <> "__proto__" -> assoc_lookup k (obj_set o k v) = Some v.
Proof.
  intros Hk. unfold obj_set. destruct (assoc_lookup k o) eqn:E.
  - apply assoc_lookup_update_eq. by eexists.
  - apply String.eqb_neq in Hk. rewrite Hk, assoc_lookup_app, E. simpl.
    by rewrite String.eqb_refl.
Qed.

Lemma obj_set_lookup_ne o k k' v :
  k' <> k -> assoc_lookup k' (obj_set o k v) = assoc_lookup k' o.
Proof.
  intros Hne. unfold obj_set. destruct (assoc_lookup k o).
  - by apply assoc_lookup_update_ne.
  - destruct (String.eqb k "__proto__"); [done|].
    rewrite assoc_lookup_app. simpl. apply String.eqb_neq in Hne. rewrite Hne.
    by destruct (assoc_lookup k' o).
Qed.

(** Assigning to ["__proto__"] never creates an own property. *)
Lemma obj_set_proto o k v :
  assoc_lookup "__proto__" o = None -> assoc_lookup "__proto__" (obj_set o k v) = None.
Proof.
  intros H. destruct (String.eqb_spec "__proto__" k) as [<-|Hne].
  - unfold obj_set. by rewrite H.
  - by rewrite obj_set_lookup_ne.
Qed.

Lemma obj_set_nodup o k v : NoDup o.*1 -> NoDup (obj_set o k v).*1.
Proof.
  intros Hn. unfold obj_set. destruct (assoc_lookup k o) eqn:E.
  - by rewrite assoc_update_keys.
  - destruct (String.eqb k "__proto__"); [done|].
    rewrite fmap_app. simpl. apply NoDup_app. split; [done|]. split; [|apply NoDup_singleton].
    intros x Hx ->%list_elem_of_singleton. by apply assoc_lookup_None in E.
Qed.

Lemma obj_set_keys o k v k' : k' ∈ (obj_set o k v).*1 -> k' ∈ o.*1 \/ k' = k.
Proof.
  unfold obj_set. destruct (assoc_lookup k o); [rewrite assoc_update_keys; by left|].
  destruct (String.eqb k "__proto__"); [by left|].
  rewrite fmap_app, elem_of_app. simpl. rewrite list_elem_of_singleton. tauto.
Qed.

Lemma obj_entries_perm o : obj_entries o ≡ₚ o.
Proof.
  unfold obj_entries. rewrite sort_by_perm.
  induction o as [|kv o IH]; simpl; [done|].
  destruct (is_index_key kv); simpl; [by rewrite IH|]. rewrite <- Permutation_middle. by rewrite IH.
Qed.

Lemma assoc_lookup_elem_of {V} k (v : V) l :
  NoDup l.*1 -> (k, v) ∈ l -> assoc_lookup k l = Some v.
Proof.
  induction l as [|[k' v'] l IH]; simpl; [by intros _ ?%not_elem_of_nil|].
  intros [Hk Hn]%NoDup_cons [[= -> ->]|Hin]%elem_of_cons; [by rewrite String.eqb_refl|].
  destruct (String.eqb_spec k k') as [->|]; [|by apply IH].
  exfalso. apply Hk. apply list_elem_of_fmap. by exists (k', v).
Qed.

Lemma is_proto_member_lookup k : is_proto_member k = false -> assoc_lookup k object_prototype = None.
Proof. unfold is_proto_member. by destruct (assoc_lookup k object_prototype). Qed.
