(* ===== verification/VocabularyService.v ===== *)
(** * The vocabulary service ([src/src/services/vocabularyService.ts])

    [VocabularyService] is the read path over the database, with one write
    ([addCustomWord]).  Its own state is the flag [isInitialized]; before
    its first call completes it runs [dbInitializer.initialize()].  The
    model's state [VSState] pairs that flag with the initializer's state
    (which holds the manager's).  Each method takes the browser's [Env] of
    the moment it runs.  [getRandomWords] sorts with the comparator
    [() => 0.5 - Math.random()], whose outcome is a permutation chosen by
    the engine; the model takes it as the argument [shuffle]. *)

From stdpp Require Import base list sorting pretty.
From Stdlib Require Import String Ascii ZArith Lia.
From S2P Require Import Prelude ObjectStore Types IndexedDB InitDB JsString.

Import IndexedDBManager.

Open Scope string_scope.

Record VSState := mkVSState {
  vs_init : InitState;
  vs_isInitialized : bool
}.

Definition VM (A : Type) : Type := ST VSState exn A.

(** A call on the shared [dbInitializer]. *)
Definition lift_init {A} (c : IM A) : VM A := fun s =>
  let '(r, i') := c (vs_init s) in (r, mkVSState i' (vs_isInitialized s)).

(** A call on the shared [dbManager]. *)
Definition call_db {A} (c : DBM A) : VM A := lift_init (lift_db c).

Definition ensureInitialized (env : Env) : VM unit :=
  s <- st_get ;;
  if vs_isInitialized s then st_ret tt
  else
    lift_init (initialize env) ;;
    st_modify (fun s' => mkVSState (vs_init s') true).

Definition getWordSets (env : Env) : VM (list WordSet) :=
  ensureInitialized env ;; call_db (getAll WORD_SETS).

Definition getWordSet (env : Env) (setId : string) : VM (option WordSet) :=
  ensureInitialized env ;; call_db (get WORD_SETS setId).

Definition getWordsFromSet (env : Env) (setId : string) : VM (list Word) :=
  ensureInitialized env ;; call_db (getByIndex WORDS String.eqb wordSet_index setId).

(** ** searchWords *)

(** A JavaScript string is truthy when it is not empty. *)
Definition js_truthy (s : string) : bool := negb (String.eqb s "").

(** The text test: [query.trim()] decides whether there is one; the
    matching itself uses [query.toLowerCase()], untrimmed. *)
Definition matches_query (query : string) (word : Word) : bool :=
  if js_truthy (js_trim query) then
    let lowerQuery := js_toLowerCase query in
    js_includes (js_toLowerCase (w_word word)) lowerQuery ||
    existsb (fun def => js_includes (js_toLowerCase (d_meaning def)) lowerQuery)
      (w_definitions word)
  else true.

Definition difficulty_ok (filters : SearchFilters) (word : Word) : bool :=
  match f_difficulty filters with
  | Some ds => if (0 <? List.length ds)%nat then js_array_includes Z.eqb ds (w_difficulty word)
               else true
  | None => true
  end.

Definition partOfSpeech_ok (filters : SearchFilters) (word : Word) : bool :=
  match f_partOfSpeech filters with
  | Some ps =>
      if (0 <? List.length ps)%nat
      then existsb (fun def => js_array_includes String.eqb ps (d_partOfSpeech def))
             (w_definitions word)
      else true
  | None => true
  end.

Definition tags_ok (filters : SearchFilters) (word : Word) : bool :=
  match f_tags filters with
  | Some tags =>
      if (0 <? List.length tags)%nat
      then existsb (fun tag => js_array_includes String.eqb (w_tags word) tag) tags
      else true
  | None => true
  end.

(** [if (filters.wordSet && word.wordSet !== filters.wordSet) return false]:
    an empty [wordSet] filter is falsy, and an absent [word.wordSet] is
    [undefined], different from every string. *)
Definition wordSet_ok (filters : SearchFilters) (word : Word) : bool :=
  match f_wordSet filters with
  | Some ws =>
      if js_truthy ws then (if w_wordSet word is Some x then String.eqb x ws else false)
      else true
  | None => true
  end.

(** The four filter tests run one after the other, each returning [false]
    on failure; they are pure, so their sequence is their conjunction.
    [masteryLevel] is not tested. *)
Definition matches_filters (filters : SearchFilters) (word : Word) : bool :=
  difficulty_ok filters word && partOfSpeech_ok filters word &&
  tags_ok filters word && wordSet_ok filters word.

Definition searchFn (query : string) (filters : option SearchFilters) (word : Word) : bool :=
  matches_query query word &&
  (if filters is Some f then matches_filters f word else true).

Definition searchWords (env : Env) (query : string) (filters : option SearchFilters)
    : VM (list Word) :=
  ensureInitialized env ;; call_db (search WORDS (searchFn query filters)).

Definition getWordDetails (env : Env) (wordId : string) : VM (option Word) :=
  ensureInitialized env ;; call_db (get WORDS wordId).

(** ** getRandomWords *)

(** [filters?.wordSet] is truthy: read the index, else the whole store. *)
Definition scoped_wordSet (filters : option SearchFilters) : option string :=
  match filters with
  | Some f => match f_wordSet f with Some ws => if js_truthy ws then Some ws else None | None => None end
  | None => None
  end.

Definition narrow_difficulty (filters : option SearchFilters) (words : list Word) : list Word :=
  if filters is Some f then List.filter (difficulty_ok f) words else words.

Definition getRandomWords (env : Env) (shuffle : list Word -> list Word) (count : Z)
    (filters : option SearchFilters) : VM (list Word) :=
  ensureInitialized env ;;
  availableWords <-
    (if scoped_wordSet filters is Some ws
     then call_db (getByIndex WORDS String.eqb wordSet_index ws)
     else call_db (getAll WORDS)) ;;
  let shuffled := shuffle (narrow_difficulty filters availableWords) in
  st_ret (js_slice0 shuffled (Z.min count (Z.of_nat (List.length shuffled)))).

(** ** addCustomWord *)

(** [{ ...word, id: `word-${Date.now()}`, createdAt: new Date(),
    updatedAt: new Date() }], the three clock reads taken at [now]. *)
Definition newWord (now : Z) (word : Word) : Word :=
  mkWord (String.append "word-" (pretty now)) (w_word word) (w_pronunciation word)
    (w_definitions word) (w_examples word) (w_difficulty word) (w_frequency word)
    (w_tags word) (w_audioUrl word) (w_imageUrl word) (w_wordSet word)
    (w_etymology word) (w_synonyms word) (w_antonyms word) now now.

Definition addCustomWord (env : Env) (word : Word) : VM Word :=
  ensureInitialized env ;;
  let w := newWord (env_now env) word in
  call_db (put WORDS w) ;;
  st_ret w.

(** The singleton [vocabularyService] as the page first loads, in a
    browser that never ran the app. *)
Definition fresh_vs : VSState := mkVSState fresh_browser false.

(** ** Proofs about the service *)

Module VocabularyServiceProofs.
Import IndexedDBProofs InitDBProofs.

Definition vs_db (s : VSState) : DBState := is_db (vs_init s).

(** The service's invariant: the manager's, on the shared state. *)
Definition vs_wf (s : VSState) : Prop := state_wf (vs_db s).

(** *** Steps of the shared state *)

Lemma lift_init_preserves (P : InitState -> Prop) {A} (c : IM A) :
  st_preserves P c -> st_preserves (fun s => P (vs_init s)) (lift_init c).
Proof.
  intros Hc s Hs. unfold lift_init. specialize (Hc _ Hs). by destruct (c (vs_init s)).
Qed.

Lemma call_db_preserves (P : DBState -> Prop) {A} (c : DBM A) :
  st_preserves P c -> st_preserves (fun s => P (vs_db s)) (call_db c).
Proof.
  intros Hc. apply (lift_init_preserves (fun i => P (is_db i))), lift_db_preserves, Hc.
Qed.

Lemma vs_state_eta s d :
  conn (vs_db s) = true -> idb (vs_db s) = Some d ->
  mkVSState (set_db (mkDBState (Some d) true) (vs_init s)) (vs_isInitialized s) = s.
Proof.
  intros Hc Hd. rewrite (state_eta _ _ Hc Hd).
  destruct s as [[? ? ?] ?]. reflexivity.
Qed.

(** A read on an open connection returns its answer and changes nothing. *)
Lemma call_db_read {A} (op : Database -> result exn A * Database) s d :
  conn (vs_db s) = true -> idb (vs_db s) = Some d -> (op d).2 = d ->
  call_db (performTransaction op) s = ((op d).1, s).
Proof.
  intros Hc Hd Hop. unfold vs_db in *. unfold call_db, lift_init, lift_db.
  rewrite (performTransaction_open op _ d Hc Hd), Hop. simpl.
  by rewrite vs_state_eta.
Qed.

(** A write on an open connection stores the new database. *)
Lemma call_db_write {A} (op : Database -> result exn A * Database) s d :
  conn (vs_db s) = true -> idb (vs_db s) = Some d ->
  call_db (performTransaction op) s =
  ((op d).1, mkVSState (set_db (mkDBState (Some (op d).2) true) (vs_init s))
               (vs_isInitialized s)).
Proof.
  intros Hc Hd. unfold vs_db in *. unfold call_db, lift_init, lift_db.
  by rewrite (performTransaction_open op _ d Hc Hd).
Qed.

Lemma call_db_closed {A} (op : Database -> result exn A * Database) s :
  conn (vs_db s) = false -> call_db (performTransaction op) s = (Err ErrNotInitialized, s).
Proof.
  intros Hc. unfold vs_db in *. unfold call_db, lift_init, lift_db.
  rewrite (performTransaction_closed op _ Hc). simpl.
  rewrite set_db_same. by destruct s.
Qed.

Lemma filter_true {A} (l : list A) : List.filter (fun _ => true) l = l.
Proof. induction l; simpl; congruence. Qed.

Lemma search_true n s : search n (fun _ => true) s = getAll n s.
Proof.
  unfold search, st_bind, st_ret.
  destruct (getAll n s) as [[l|e] s']; by rewrite ?filter_true.
Qed.

Lemma call_db_fail {A} (op : Database -> result exn A * Database) s :
  conn (vs_db s) = false \/ idb (vs_db s) = None ->
  call_db (performTransaction op) s = (Err ErrNotInitialized, s).
Proof.
  intros H. unfold vs_db, call_db, lift_init, lift_db, performTransaction in *.
  destruct H as [H|H]; rewrite H; [|destruct (conn _)]; simpl;
    rewrite set_db_same; by destruct s.
Qed.

Lemma call_db_bind {A B} (c : DBM A) (k : A -> DBM B) s :
  call_db (st_bind c k) s = st_bind (call_db c) (fun a => call_db (k a)) s.
Proof.
  unfold call_db, lift_init, lift_db, st_bind.
  destruct (c (is_db (vs_init s))) as [[a|e] d']; simpl; [|reflexivity].
  by destruct (k a d').
Qed.

Lemma call_db_ret {A} (a : A) s : call_db (st_ret a) s = (Ok a, s).
Proof. unfold call_db, lift_init, lift_db, st_ret. simpl. rewrite set_db_same. by destruct s. Qed.

(** *** ensureInitialized *)

Lemma ensureInitialized_done env s :
  vs_isInitialized s = true -> ensureInitialized env s = (Ok tt, s).
Proof. intros H. unfold ensureInitialized, st_bind, st_get. by rewrite H. Qed.

Lemma ensureInitialized_run env s :
  vs_isInitialized s = false ->
  ensureInitialized env s =
  match initialize env (vs_init s) with
  | (Ok _, i') => (Ok tt, mkVSState i' true)
  | (Err e, i') => (Err e, mkVSState i' false)
  end.
Proof.
  intros H. unfold ensureInitialized, st_bind, st_get, st_modify, lift_init. simpl.
  rewrite H. destruct (initialize env (vs_init s)) as [[]]; simpl; by rewrite ?H.
Qed.

Lemma ensureInitialized_Ok_flag env s s' :
  ensureInitialized env s = (Ok tt, s') -> vs_isInitialized s' = true.
Proof.
  destruct (vs_isInitialized s) eqn:H.
  - rewrite ensureInitialized_done by done. congruence.
  - rewrite ensureInitialized_run by done.
    destruct (initialize env (vs_init s)) as [[]]; by intros [= <-].
Qed.

Lemma ensureInitialized_wf env : st_preserves vs_wf (ensureInitialized env).
Proof.
  intros s Hs. destruct (vs_isInitialized s) eqn:H.
  - by rewrite ensureInitialized_done.
  - rewrite ensureInitialized_run by done. pose proof (initialize_wf env (vs_init s) Hs) as Hi.
    by destruct (initialize env (vs_init s)) as [[]].
Qed.

Lemma getAll_wf n : st_preserves state_wf (getAll n).
Proof. apply getAll_preserves. Qed.

Lemma read_wf {A} (op : Database -> result exn A * Database) :
  (forall d, (op d).2 = d) -> st_preserves state_wf (performTransaction op).
Proof. intros Hop s Hs. by rewrite performTransaction_read. Qed.

Lemma search_wf n p : st_preserves state_wf (search n p).
Proof. unfold search. apply st_bind_preserves; [apply getAll_wf|auto with preserves]. Qed.

Lemma call_db_wf {A} (c : DBM A) : st_preserves state_wf c -> st_preserves vs_wf (call_db c).
Proof. apply call_db_preserves. Qed.

#[local] Hint Resolve ensureInitialized_wf call_db_wf getAll_wf search_wf put_preserves_wf : preserves.

(** *** Methods on an initialized service *)

(** The words [getRandomWords] draws from: the index or the whole store,
    then the difficulty filter. *)
Definition available_words (filters : option SearchFilters) (d : Database) : list Word :=
  narrow_difficulty filters
    (if scoped_wordSet filters is Some ws
     then os_index_scan String.eqb wordSet_index ws (db_words d)
     else os_values (db_words d)).

Section Ready.
(** [s] is the state before the call; [ensureInitialized] brings it to
    [s1], whose connection is open on the database [d]. *)
Context (env : Env) (s s1 : VSState) (d : Database).
Hypothesis Hens : ensureInitialized env s = (Ok tt, s1).
Hypothesis Hconn : conn (vs_db s1) = true.
Hypothesis Hidb : idb (vs_db s1) = Some d.

Lemma ready_then {A} (c : VM A) : (ensureInitialized env ;; c) s = c s1.
Proof. unfold st_bind at 1. by rewrite Hens. Qed.

Lemma searchWords_spec q f :
  searchWords env q f s = (Ok (List.filter (searchFn q f) (os_values (db_words d))), s1).
Proof.
  unfold searchWords. rewrite ready_then. unfold search. rewrite call_db_bind.
  unfold st_bind, getAll. rewrite (call_db_read _ _ d) by done. apply call_db_ret.
Qed.

Lemma getRandomWords_spec sh count f :
  getRandomWords env sh count f s =
  (Ok (js_slice0 (sh (available_words f d))
         (Z.min count (Z.of_nat (List.length (sh (available_words f d)))))), s1).
Proof.
  unfold getRandomWords. rewrite ready_then. unfold st_bind, available_words.
  destruct (scoped_wordSet f); unfold getByIndex, getAll;
    rewrite (call_db_read _ _ d) by done; reflexivity.
Qed.

(** C15: [getRandomWords(count, filters)] with [count >= 0] resolves with
    [min(count, n)] words, where [n] is the number of words it draws from,
    each drawn at most once: the result is a sub-multiset of the words of
    the word set (or of the store) that pass the difficulty filter,
    whatever permutation the engine's sort produces. *)
Theorem getRandomWords_min_count sh count f :
  (forall l, sh l ≡ₚ l) -> (0 <= count)%Z ->
  exists ws, getRandomWords env sh count f s = (Ok ws, s1) /\
    List.length ws = Nat.min (Z.to_nat count) (List.length (available_words f d)) /\
    ws ⊆+ available_words f d.
Proof.
  intros Hsh Hc. eexists. split; [apply getRandomWords_spec|]. split.
  - rewrite js_slice0_length, (Permutation_length (Hsh _)).
    destruct (Z.ltb_spec (Z.min count (Z.of_nat (List.length (available_words f d)))) 0); lia.
  - etrans; [apply submseteq_take|]. by rewrite (Hsh _).
Qed.

(** C37: A negative [count] is not rejected: [Math.min(count, n)] is then
    [count], and [slice(0, count)] drops [-count] words from the end, so
    [getRandomWords(-k)] returns [n - k] words. *)
Theorem getRandomWords_negative_count sh count f :
  (forall l, sh l ≡ₚ l) -> (count < 0)%Z ->
  exists ws, getRandomWords env sh count f s = (Ok ws, s1) /\
    List.length ws = List.length (available_words f d) - Z.to_nat (- count).
Proof.
  intros Hsh Hc. eexists. split; [apply getRandomWords_spec|].
  rewrite js_slice0_length, (Permutation_length (Hsh _)).
  destruct (Z.ltb_spec (Z.min count (Z.of_nat (List.length (available_words f d)))) 0); lia.
Qed.

(** C16: [addCustomWord(word)] resolves with [word] under a new id
    ["word-" + Date.now()] and fresh timestamps, and a later
    [getWordDetails] of that id returns exactly that word. *)
Theorem addCustomWord_roundtrip w :
  exists s2, addCustomWord env w s = (Ok (newWord (env_now env) w), s2) /\
    forall env', getWordDetails env' (w_id (newWord (env_now env) w)) s2
                 = (Ok (Some (newWord (env_now env) w)), s2).
Proof.
  unfold addCustomWord. rewrite ready_then. unfold st_bind at 1, put.
  rewrite (call_db_write _ _ d) by done. simpl. eexists. split; [reflexivity|].
  intros env'. unfold getWordDetails, st_bind at 1.
  rewrite ensureInitialized_done by exact (ensureInitialized_Ok_flag env s s1 Hens).
  unfold get. rewrite (call_db_read _ _ (set_store WORDS _ d)) by done.
  by rewrite get_set_store, os_get_put_eq.
Qed.
End Ready.

(** *** Searching *)

Lemma search_ext n (p p' : val_ty n -> bool) s :
  (forall x, p x = p' x) -> search n p s = search n p' s.
Proof.
  intros Hp. unfold search, st_bind. destruct (getAll n s) as [[l|e] s']; [|done].
  assert (List.filter p l = List.filter p' l) as -> by
    (induction l as [|x l IH]; simpl; [done|]; by rewrite Hp, IH).
  done.
Qed.

Lemma searchWords_Ok env q f s ws s' :
  searchWords env q f s = (Ok ws, s') -> Forall (fun w => searchFn q f w = true) ws.
Proof.
  unfold searchWords, st_bind at 1. destruct (ensureInitialized env s) as [[[]|e] s1]; [|done].
  unfold search. rewrite call_db_bind. unfold st_bind.
  destruct (call_db (getAll WORDS) s1) as [[l|e] s2]; [|done].
  rewrite call_db_ret. intros [= <- _]. apply List.Forall_forall.
  intros w Hw. by apply List.filter_In in Hw as [_ ->].
Qed.

(** C4: A query that is empty or only white space selects every word:
    [searchWords(q)] without filters behaves as the [getAll] of the words
    store, on every state, errors included. *)
Theorem searchWords_blank_query env q s :
  js_trim q = "" ->
  searchWords env q None s = (ensureInitialized env ;; call_db (getAll WORDS)) s.
Proof.
  intros Hq. unfold searchWords. unfold st_bind at 1. unfold st_bind at 1.
  destruct (ensureInitialized env s) as [[[]|e] s1]; [|done].
  unfold call_db, lift_init, lift_db.
  rewrite (search_ext WORDS _ (fun _ => true)), search_true; [done|].
  intros w. unfold searchFn, matches_query, js_truthy. by rewrite Hq.
Qed.

(** C5: Filters are conjunctive: with a non-empty [difficulty] filter,
    every word [searchWords] returns has one of the requested
    difficulties, whatever the query and the other filters. *)
Theorem searchWords_difficulty_filter env q f s ws s' ds :
  searchWords env q (Some f) s = (Ok ws, s') -> f_difficulty f = Some ds -> ds <> [] ->
  Forall (fun w => w_difficulty w ∈ ds) ws.
Proof.
  intros Hs Hf Hds. apply searchWords_Ok in Hs. eapply Forall_impl; [exact Hs|].
  intros w Hw. unfold searchFn, matches_filters in Hw.
  apply andb_prop in Hw as [_ Hw]. do 3 apply andb_prop in Hw as [Hw _].
  unfold difficulty_ok in Hw. rewrite Hf in Hw.
  destruct ds as [|d0 ds]; [done|]. cbn -[js_array_includes] in Hw.
  apply existsb_exists in Hw as (x & Hx & ->%Z.eqb_eq). by apply list_elem_of_In.
Qed.

Lemma query_space_match x q :
  js_includes (js_toLowerCase x) (js_toLowerCase (String " "%char q)) = true ->
  js_includes x " " = true.
Proof. intros H. by apply js_includes_lower_space, (js_includes_head _ _ _ H). Qed.

(** C28: The query is matched untrimmed: when [query] starts with a space
    and is not blank, [searchWords] returns only words whose headword or
    some meaning contains a space, so [' hello'] does not find the word
    ['hello'] although [query.trim()] is ['hello']. *)
Theorem searchWords_leading_space env q f s ws s' :
  searchWords env (String " "%char q) f s = (Ok ws, s') ->
  js_trim (String " "%char q) = "" \/
  Forall (fun w => js_includes (w_word w) " " = true \/
                   Exists (fun d => js_includes (d_meaning d) " " = true) (w_definitions w)) ws.
Proof.
  intros Hs. apply searchWords_Ok in Hs.
  destruct (js_truthy (js_trim (String " "%char q))) eqn:Ht;
    [right|left; unfold js_truthy in Ht; by apply negb_false_iff, String.eqb_eq in Ht].
  eapply Forall_impl; [exact Hs|]. intros w Hw.
  unfold searchFn, matches_query in Hw. rewrite Ht in Hw.
  apply andb_prop in Hw as [Hw _]. apply orb_prop in Hw as [Hw|Hw].
  - left. by eapply query_space_match.
  - right. apply existsb_exists in Hw as (d & Hd & Hm). apply List.Exists_exists.
    exists d. split; [done|]. by eapply query_space_match.
Qed.

(** *** Adding words *)

Lemma addCustomWord_unfold env w s :
  addCustomWord env w s =
  match ensureInitialized env s with
  | (Ok _, s1) =>
      match call_db (put WORDS (newWord (env_now env) w)) s1 with
      | (Ok _, s2) => (Ok (newWord (env_now env) w), s2)
      | (Err e, s2) => (Err e, s2)
      end
  | (Err e, s1) => (Err e, s1)
  end.
Proof.
  unfold addCustomWord, st_bind, st_ret.
  destruct (ensureInitialized env s) as [[]]; [|done].
  by destruct (call_db _ _) as [[]].
Qed.

Lemma vs_open_cases s :
  (conn (vs_db s) = true /\ exists d, idb (vs_db s) = Some d) \/
  (conn (vs_db s) = false \/ idb (vs_db s) = None).
Proof.
  destruct (conn (vs_db s)), (idb (vs_db s)) as [d|]; [left; split; eauto|right..]; auto.
Qed.

(** C27: Two [addCustomWord] calls in the same millisecond get the same
    id ["word-" + Date.now()], and since the store is written with [put]
    the second overwrites the first: the state after both calls is the
    state after the second alone, so the first word, although returned to
    its caller, is lost. *)
Theorem addCustomWord_same_ms_overwrites env w1 w2 s :
  w_id (newWord (env_now env) w1) = w_id (newWord (env_now env) w2) /\
  run_state (addCustomWord env w1 ;; addCustomWord env w2) s =
  run_state (addCustomWord env w2) s.
Proof.
  split; [done|]. unfold run_state, st_bind at 1. rewrite !addCustomWord_unfold.
  destruct (ensureInitialized env s) as [[[]|e] s1] eqn:E; [|done].
  pose proof (ensureInitialized_Ok_flag _ _ _ E) as Hf.
  destruct (vs_open_cases s1) as [[Hc [d Hd]]|Hn].
  - unfold put. rewrite !(call_db_write _ _ d Hc Hd). simpl.
    rewrite addCustomWord_unfold, ensureInitialized_done by done.
    unfold put. erewrite call_db_write by reflexivity. simpl. by rewrite os_put_put, set_db_twice.
  - unfold put. by rewrite !call_db_fail.
Qed.

(** *** The service's invariant *)

(** The service's methods, as data. *)
Inductive vs_call :=
| CallGetWordSets
| CallGetWordSet (setId : string)
| CallGetWordsFromSet (setId : string)
| CallSearchWords (query : string) (filters : option SearchFilters)
| CallGetWordDetails (wordId : string)
| CallGetRandomWords (shuffle : list Word -> list Word) (count : Z)
    (filters : option SearchFilters)
| CallAddCustomWord (word : Word).

Definition run_vs_call (env : Env) (c : vs_call) (s : VSState) : VSState :=
  match c with
  | CallGetWordSets => run_state (getWordSets env) s
  | CallGetWordSet i => run_state (getWordSet env i) s
  | CallGetWordsFromSet i => run_state (getWordsFromSet env i) s
  | CallSearchWords q f => run_state (searchWords env q f) s
  | CallGetWordDetails i => run_state (getWordDetails env i) s
  | CallGetRandomWords sh n f => run_state (getRandomWords env sh n f) s
  | CallAddCustomWord w => run_state (addCustomWord env w) s
  end.

Lemma get_wf n k : st_preserves state_wf (get n k).
Proof. by apply read_wf. Qed.

Lemma getByIndex_wf n {IK} (eqb : IK -> IK -> bool) idx v :
  st_preserves state_wf (getByIndex n eqb idx v).
Proof. by apply read_wf. Qed.

#[local] Hint Resolve get_wf getByIndex_wf : preserves.

Lemma st_preserves_run {A} (M : VM A) :
  st_preserves vs_wf M -> forall s, vs_wf s -> vs_wf (run_state M s).
Proof. intros HM s Hs. apply HM, Hs. Qed.

(** Every method of the service, whatever the browser does, keeps
    the database manager's invariant (an open connection has a database,
    and every store is sorted by key with each record under its keyPath). *)
Theorem vocabularyService_preserves_wf env c s :
  vs_wf s -> vs_wf (run_vs_call env c s).
Proof.
  revert s. destruct c; apply st_preserves_run;
    [unfold getWordSets|unfold getWordSet|unfold getWordsFromSet|unfold searchWords
    |unfold getWordDetails|unfold getRandomWords|unfold addCustomWord];
    eauto 8 with preserves.
  apply st_bind_preserves; [auto with preserves|intros _].
  apply st_bind_preserves; [destruct (scoped_wordSet filters)|]; auto with preserves.
Qed.

(** *** The bundled word sets, through the service *)

(** On the first visit, when the seed file is unavailable, the service
    lists the four bundled word sets, and [getWordsFromSet] returns no word
    for any of them: the sample words are filed under word sets that do
    not exist. *)
Theorem first_run_word_sets_have_no_words env :
  env_open_ok env = true -> env_import_ok env = true -> fetch_fails (env_fetch env) = true ->
  match getWordSets env fresh_vs with
  | (Ok sets, s1) =>
      map ws_id sets = ["cet4"; "cet6"; "junior-high"; "senior-high"] /\
      Forall (fun ws => run_value (getWordsFromSet env (ws_id ws)) s1 = Ok []) sets
  | (Err _, _) => False
  end.
Proof.
  destruct env as [now [] [| | |data] []]; simpl; intros; try discriminate;
    vm_compute; repeat constructor.
Qed.

End VocabularyServiceProofs.

(** ** Witnesses *)

Module VocabularyServiceWitnesses.
Import IndexedDBProofs InitDBProofs VocabularyServiceProofs InitDBWitnesses.

Definition demo (id word : string) (difficulty : Z) : Word :=
  mkWord id word "" [mkDefinition None NOUN word None None] [] difficulty 0 ["demo"]
    None None (Some "demo-set") None None None 0 0.

Definition three_words : Database :=
  mkDatabase [("w1", demo "w1" "apple" 1); ("w2", demo "w2" "Banana" 3);
              ("w3", demo "w3" "cherry" 3)] [] [] [] [].

(** An initialized service over a database of three words. *)
Definition vs_three : VSState :=
  mkVSState (mkInitState (mkDBState (Some three_words) true) true None) true.

Definition only_difficulty_3 : SearchFilters := mkFilters (Some [3%Z]) None None None None.

(** The example of the specification: five words asked, three stored. *)
Lemma getRandomWords_min_count_witness :
  exists ws, getRandomWords env_offline id 5 (Some no_filters) vs_three = (Ok ws, vs_three) /\
    List.length ws = 3.
Proof.
  destruct (getRandomWords_min_count env_offline vs_three vs_three three_words eq_refl eq_refl
              eq_refl id 5 (Some no_filters)) as (ws & H1 & H2 & _);
    [intros l; reflexivity|lia|].
  exists ws. split; [exact H1|]. rewrite H2. reflexivity.
Defined.

Lemma getRandomWords_negative_count_witness :
  exists ws, getRandomWords env_offline id (-1) None vs_three = (Ok ws, vs_three) /\
    List.length ws = 2.
Proof.
  destruct (getRandomWords_negative_count env_offline vs_three vs_three three_words eq_refl
              eq_refl eq_refl id (-1) None) as (ws & H1 & H2); [intros l; reflexivity|lia|].
  exists ws. split; [exact H1|]. rewrite H2. reflexivity.
Defined.

Lemma addCustomWord_roundtrip_witness :
  exists s2, addCustomWord env_offline (demo "" "date" 2) vs_three
             = (Ok (newWord 1000 (demo "" "date" 2)), s2) /\
    forall env', getWordDetails env' "word-1000" s2 = (Ok (Some (newWord 1000 (demo "" "date" 2))), s2).
Proof.
  exact (addCustomWord_roundtrip env_offline vs_three vs_three three_words eq_refl eq_refl eq_refl
           (demo "" "date" 2)).
Defined.

Lemma searchWords_blank_query_witness :
  searchWords env_offline "  " None vs_three =
  (ensureInitialized env_offline ;; call_db (getAll WORDS)) vs_three.
Proof. apply searchWords_blank_query. vm_compute. reflexivity. Defined.

Lemma searchWords_difficulty_filter_witness :
  searchWords env_offline "AN" (Some only_difficulty_3) vs_three
    = (Ok [demo "w2" "Banana" 3], vs_three) /\
  Forall (fun w => w_difficulty w ∈ [3%Z]) [demo "w2" "Banana" 3].
Proof.
  assert (H : searchWords env_offline "AN" (Some only_difficulty_3) vs_three
              = (Ok [demo "w2" "Banana" 3], vs_three)) by (vm_compute; reflexivity).
  split; [exact H|]. exact (searchWords_difficulty_filter _ _ _ _ _ _ _ H eq_refl ltac:(done)).
Defined.

Lemma searchWords_leading_space_witness :
  searchWords env_offline " an" None vs_three = (Ok [], vs_three) /\
  (js_trim " an" = "" \/
   Forall (fun w => js_includes (w_word w) " " = true \/
                    Exists (fun d => js_includes (d_meaning d) " " = true) (w_definitions w)) []).
Proof.
  assert (H : searchWords env_offline " an" None vs_three = (Ok [], vs_three))
    by (vm_compute; reflexivity).
  split; [exact H|]. exact (searchWords_leading_space _ _ _ _ _ _ H).
Defined.

Lemma vs_three_wf : vs_wf vs_three.
Proof. split; [by eexists|]. intros d [= <-] []; split; repeat constructor. Qed.

Lemma vocabularyService_preserves_wf_witness :
  vs_wf vs_three /\ vs_wf (run_vs_call env_offline (CallAddCustomWord (demo "" "date" 2)) vs_three).
Proof.
  split; [exact vs_three_wf|]. apply vocabularyService_preserves_wf, vs_three_wf.
Defined.

Lemma first_run_word_sets_have_no_words_witness :
  match getWordSets env_offline fresh_vs with
  | (Ok sets, s1) =>
      map ws_id sets = ["cet4"; "cet6"; "junior-high"; "senior-high"] /\
      Forall (fun ws => run_value (getWordsFromSet env_offline (ws_id ws)) s1 = Ok []) sets
  | (Err _, _) => False
  end.
Proof. apply first_run_word_sets_have_no_words; reflexivity. Defined.

End VocabularyServiceWitnesses.
