(* ===== verification/PopularTags.v ===== *)
(** * [VocabularyService.getPopularTags] ([src/src/services/vocabularyService.ts])

    The method counts the tags of all words in an object literal, lists
    its entries, sorts them by [(a, b) => b - a] on the counts and keeps
    the first ten.  The object and the sort are those of [JsObject.v].
    When no tag is the name of an [Object.prototype] member, the counts are
    the numbers of occurrences and the result is the ten most frequent
    tags, most frequent first, ties in [Object.entries] order; a tag named
    like a prototype member counts as a string, and ["__proto__"] is never
    counted at all. *)

From stdpp Require Import base list sorting.
From Stdlib Require Import String ZArith Lia.
From S2P Require Import Prelude ObjectStore Types IndexedDB InitDB JsString JsObject VocabularyService.

Import IndexedDBManager.

Open Scope string_scope.

(** [tagCounts[tag] || 0]. *)
Definition js_or_zero (v : option jsval) : jsval :=
  match v with
  | Some x => if js_truthy_val x then x else JNum 0
  | None => JNum 0
  end.

(** [tagCounts[tag] = (tagCounts[tag] || 0) + 1]. *)
Definition count_tag (tagCounts : JsObj) (tag : string) : JsObj :=
  obj_set tagCounts tag (js_plus_one (js_or_zero (obj_get tagCounts tag))).

(** The two nested [forEach] loops, from [{}]. *)
Definition count_tags (allWords : list Word) : JsObj :=
  fold_left (fun tagCounts word => fold_left count_tag (w_tags word) tagCounts) allWords [].

(** [([, a], [, b]) => b - a]; a string count makes the difference [NaN],
    which the sort reads as [+0]. *)
Definition by_count_desc (x y : string * jsval) : Z :=
  match x.2, y.2 with
  | JNum a, JNum b => (b - a)%Z
  | _, _ => 0%Z
  end.

Definition popular_tags (allWords : list Word) : list string :=
  List.map fst (js_slice0 (sort_by by_count_desc (obj_entries (count_tags allWords))) 10).

Definition getPopularTags (env : Env) : VM (list string) :=
  ensureInitialized env ;;
  allWords <- call_db (getAll WORDS) ;;
  st_ret (popular_tags allWords).

(** ** Proofs *)

Module PopularTagsProofs.

(** Every tag of every word, in the order the loops visit them, and the
    number of occurrences of a tag. *)
Definition all_tags (ws : list Word) : list string := List.concat (List.map w_tags ws).

Definition tag_count (ws : list Word) (t : string) : nat := count_occ string_dec (all_tags ws) t.

(** The value a count of [n] leaves in the object: none for 0. *)
Definition opt_count (n : nat) : option jsval :=
  match n with O => None | S _ => Some (JNum (Z.of_nat n)) end.

Lemma count_tags_flat ws : count_tags ws = fold_left count_tag (all_tags ws) [].
Proof.
  unfold count_tags, all_tags. generalize ([] : JsObj).
  induction ws as [|w ws IH]; intros o; simpl; [done|]. by rewrite fold_left_app, IH.
Qed.

Lemma proto_not_member : is_proto_member "__proto__" = true.
Proof. reflexivity. Qed.

Lemma or_zero_opt_count c : js_or_zero (opt_count c) = JNum (Z.of_nat c).
Proof.
  by destruct c.
Qed.

(** One step of the loop on a tag that is not a prototype member. *)
Lemma count_tag_lookup o x t c :
  is_proto_member x = false -> assoc_lookup x o = opt_count c ->
  assoc_lookup t (count_tag o x) =
  if String.eqb t x then opt_count (S c) else assoc_lookup t o.
Proof.
  intros Hx Hc. unfold count_tag.
  assert (Hg : obj_get o x = opt_count c).
  { unfold obj_get. rewrite Hc. destruct c; [by apply is_proto_member_lookup|done]. }
  rewrite Hg, or_zero_opt_count. destruct (String.eqb_spec t x) as [->|Hne].
  - rewrite obj_set_lookup_eq by (intros ->; by rewrite proto_not_member in Hx).
    simpl. f_equal. f_equal. lia.
  - by apply obj_set_lookup_ne.
Qed.

Lemma fold_count_lookup ts :
  Forall (fun x => is_proto_member x = false) ts -> forall t, is_proto_member t = false ->
  assoc_lookup t (fold_left count_tag ts []) = opt_count (count_occ string_dec ts t).
Proof.
  induction ts as [|x ts IH] using rev_ind; intros Hts t Ht; [done|].
  rewrite Forall_app, Forall_singleton in Hts. destruct Hts as [Hts Hx].
  rewrite fold_left_app, count_occ_app. simpl.
  destruct (String.eqb_spec t x) as [->|Hne].
  - rewrite (count_tag_lookup _ _ _ (count_occ string_dec ts x)) by auto.
    rewrite String.eqb_refl. destruct (string_dec x x); [|done]. f_equal. lia.
  - rewrite (count_tag_lookup _ _ _ (count_occ string_dec ts x)) by auto.
    apply String.eqb_neq in Hne as Hne'. rewrite Hne', IH by done.
    destruct (string_dec x t); [congruence|]. by rewrite Nat.add_0_r.
Qed.

(** Whatever the tags, the object's keys are distinct, are tags, and do
    not include ["__proto__"]. *)
Lemma fold_count_keys ts o :
  NoDup o.*1 -> assoc_lookup "__proto__" o = None ->
  NoDup (fold_left count_tag ts o).*1 /\
  assoc_lookup "__proto__" (fold_left count_tag ts o) = None /\
  forall k, k ∈ (fold_left count_tag ts o).*1 -> k ∈ o.*1 \/ k ∈ ts.
Proof.
  revert o. induction ts as [|x ts IH]; intros o Hn Hp; simpl; [naive_solver|].
  destruct (IH (count_tag o x)) as (H1 & H2 & H3);
    [by apply obj_set_nodup|by apply obj_set_proto|].
  split; [done|]. split; [done|]. intros k Hk.
  destruct (H3 k Hk) as [Hk'|]; [|right; by right].
  destruct (obj_set_keys _ _ _ _ Hk') as [Ho|Hx]; [by left|subst; right; by left].
Qed.

Lemma count_tags_keys ws :
  NoDup (count_tags ws).*1 /\ assoc_lookup "__proto__" (count_tags ws) = None /\
  forall k, k ∈ (count_tags ws).*1 -> k ∈ all_tags ws.
Proof.
  rewrite count_tags_flat.
  destruct (fold_count_keys (all_tags ws) []) as (H1 & H2 & H3); [constructor|done|].
  split; [done|]. split; [done|]. intros k Hk. destruct (H3 k Hk) as [Hn%not_elem_of_nil|]; done.
Qed.

Lemma map_fmap {A B} (f : A -> B) l : List.map f l = f <$> l.
Proof. induction l; simpl; by f_equal. Qed.

(** The sort key of an entry: its count, negated, for a descending sort. *)
Definition neg_count (ws : list Word) (kv : string * jsval) : Z := (- Z.of_nat (tag_count ws kv.1))%Z.

Section NoPrototypeNames.
(** No tag is the name of an [Object.prototype] member. *)
Context (ws : list Word).
Hypothesis Hno : Forall (fun t => is_proto_member t = false) (all_tags ws).

Lemma tag_not_proto t : t ∈ all_tags ws -> is_proto_member t = false.
Proof. intros Ht. by apply (proj1 (Forall_forall _ _) Hno). Qed.

Lemma count_tags_lookup t :
  is_proto_member t = false -> assoc_lookup t (count_tags ws) = opt_count (tag_count ws t).
Proof. intros Ht. rewrite count_tags_flat. by apply fold_count_lookup. Qed.

Lemma count_tags_entry k v :
  (k, v) ∈ count_tags ws ->
  k ∈ all_tags ws /\ v = JNum (Z.of_nat (tag_count ws k)) /\ 0 < tag_count ws k.
Proof.
  intros Hkv. destruct (count_tags_keys ws) as (Hn & _ & Hk).
  assert (Hin : k ∈ all_tags ws) by (apply Hk, list_elem_of_fmap; by exists (k, v)).
  assert (Hc : 0 < tag_count ws k) by (apply count_occ_In, list_elem_of_In, Hin).
  pose proof (assoc_lookup_elem_of _ _ _ Hn Hkv) as E.
  rewrite count_tags_lookup in E by (by apply tag_not_proto).
  destruct (tag_count ws k); [lia|]. injection E as <-. done.
Qed.

Lemma count_tags_complete t : t ∈ all_tags ws -> t ∈ (count_tags ws).*1.
Proof.
  intros Ht. destruct (decide (t ∈ (count_tags ws).*1)) as [|Hn]; [done|].
  apply assoc_lookup_None in Hn. rewrite count_tags_lookup in Hn by (by apply tag_not_proto).
  assert (0 < tag_count ws t) by (apply count_occ_In, list_elem_of_In, Ht).
  by destruct (tag_count ws t); [lia|].
Qed.

(** On these entries the code's comparator is the comparator of the key
    [neg_count]. *)
Lemma sort_entries_by_key :
  sort_by by_count_desc (obj_entries (count_tags ws)) =
  sort_by (key_cmp (neg_count ws)) (obj_entries (count_tags ws)).
Proof.
  apply sort_by_ext. intros [k1 v1] [k2 v2] H1 H2. rewrite obj_entries_perm in H1, H2.
  destruct (count_tags_entry _ _ H1) as (_ & -> & _), (count_tags_entry _ _ H2) as (_ & -> & _).
  unfold by_count_desc, key_cmp, neg_count. simpl. lia.
Qed.

Lemma popular_tags_take :
  popular_tags ws = take 10 (sort_by (key_cmp (neg_count ws)) (obj_entries (count_tags ws))).*1.
Proof.
  unfold popular_tags. rewrite js_slice0_nonneg by lia. rewrite sort_entries_by_key, map_fmap.
  apply fmap_take.
Qed.

Lemma sorted_keys_perm :
  (sort_by (key_cmp (neg_count ws)) (obj_entries (count_tags ws))).*1 ≡ₚ (count_tags ws).*1.
Proof. by rewrite sort_by_perm, obj_entries_perm. Qed.

Lemma sorted_keys_sorted :
  StronglySorted (fun a b => tag_count ws b <= tag_count ws a)
    (sort_by (key_cmp (neg_count ws)) (obj_entries (count_tags ws))).*1.
Proof.
  apply (StronglySorted_fmap fst (fun a b => neg_count ws a <= neg_count ws b)%Z);
    [|apply sort_by_sorted]. intros x y. unfold neg_count. lia.
Qed.

Lemma sorted_keys_elem t :
  t ∈ (sort_by (key_cmp (neg_count ws)) (obj_entries (count_tags ws))).*1 <-> t ∈ all_tags ws.
Proof.
  rewrite sorted_keys_perm. split; [apply count_tags_keys|apply count_tags_complete].
Qed.

(** C17: When no tag is named like an [Object.prototype] member,
    [getPopularTags] computes the ten most frequent tags: distinct tags
    of the words, at most ten, in non-increasing order of their number of
    occurrences, and a tag left out only when ten tags are listed, each
    occurring at least as often as it. *)
Theorem popular_tags_top10 :
  NoDup (popular_tags ws) /\ List.length (popular_tags ws) <= 10 /\
  (forall t, t ∈ popular_tags ws -> t ∈ all_tags ws) /\
  StronglySorted (fun a b => tag_count ws b <= tag_count ws a) (popular_tags ws) /\
  (forall t, t ∈ all_tags ws -> t ∉ popular_tags ws ->
     List.length (popular_tags ws) = 10 /\
     forall t', t' ∈ popular_tags ws -> tag_count ws t <= tag_count ws t').
Proof.
  rewrite popular_tags_take.
  pose proof sorted_keys_elem as Hmem. pose proof sorted_keys_sorted as HS.
  assert (HK : NoDup (sort_by (key_cmp (neg_count ws)) (obj_entries (count_tags ws))).*1)
    by (rewrite sorted_keys_perm; apply count_tags_keys).
  revert Hmem HS HK. generalize (sort_by (key_cmp (neg_count ws)) (obj_entries (count_tags ws))).*1.
  intros K Hmem HS HK. rewrite <- (take_drop 10 K) in HK, HS.
  apply NoDup_app in HK as (HK & _ & _).
  split; [done|]. split; [rewrite length_take; lia|].
  split; [intros t Ht; apply Hmem, (subseteq_take 10 K), Ht|].
  split; [by apply StronglySorted_app_1_l in HS|].
  intros t Ht Hn. apply Hmem in Ht. rewrite <- (take_drop 10 K) in Ht.
  apply elem_of_app in Ht as [|Hd]; [done|]. split.
  - rewrite length_take. assert (0 < List.length (drop 10 K)) by (destruct (drop 10 K); [by apply not_elem_of_nil in Hd|simpl; lia]).
    rewrite length_drop in *. lia.
  - intros t' Ht'. exact (StronglySorted_app_1_elem_of _ _ _ _ _ HS Ht' Hd).
Qed.

End NoPrototypeNames.

(** C29: A tag ["__proto__"] is never reported, however often it occurs:
    [tagCounts['__proto__'] = ...] calls the inherited setter, which
    ignores a number, so the object never gets such an own property. *)
Theorem popular_tags_never_proto ws : "__proto__" ∉ popular_tags ws.
Proof.
  intros Hin. unfold popular_tags in Hin. rewrite map_fmap in Hin.
  apply list_elem_of_fmap in Hin as ([k v] & Hk & Hkv). simpl in Hk. subst k.
  unfold js_slice0 in Hkv. apply (subseteq_take _ _) in Hkv.
  rewrite sort_by_perm, obj_entries_perm in Hkv.
  destruct (count_tags_keys ws) as (Hn & Hp & _).
  rewrite (assoc_lookup_elem_of _ _ _ Hn Hkv) in Hp. discriminate.
Qed.

(** A tag named like an [Object.prototype] member is counted as a
    string: ["toString"] starts from the inherited function, so its count
    becomes ["function toString() { [native code] }1"], whose difference
    with any count is [NaN], read as "equal" by the sort.  A tag seen once
    is then listed before a tag seen twice. *)
Example popular_tags_prototype_name_misorders :
  popular_tags [mkWord "w" "w" "" [] [] 1 0 ["toString"; "a"; "a"] None None None None None None 0 0]
  = ["toString"; "a"].
Proof. vm_compute. reflexivity. Qed.

End PopularTagsProofs.

(** [getPopularTags] on an initialized service: the popular tags of the
    stored words, in key order, and no change of state. *)
Lemma getPopularTags_spec env s s1 d :
  ensureInitialized env s = (Ok tt, s1) ->
  conn (VocabularyServiceProofs.vs_db s1) = true ->
  idb (VocabularyServiceProofs.vs_db s1) = Some d ->
  getPopularTags env s = (Ok (popular_tags (os_values (db_words d))), s1).
Proof.
  intros Hens Hc Hd. unfold getPopularTags.
  rewrite (VocabularyServiceProofs.ready_then env s s1 Hens). unfold st_bind, getAll.
  by rewrite (VocabularyServiceProofs.call_db_read _ _ d).
Qed.

Module PopularTagsWitnesses.
Import PopularTagsProofs.

Definition tagged (id : string) (tags : list string) : Word :=
  mkWord id id "" [] [] 1 0 tags None None None None None None 0 0.

(** Counts: a 3, b 2, c 1. *)
Definition demo_words : list Word :=
  [tagged "w1" ["b"; "a"]; tagged "w2" ["a"; "c"]; tagged "w3" ["a"; "b"]].

Lemma popular_tags_top10_witness :
  Forall (fun t => is_proto_member t = false) (all_tags demo_words) /\
  popular_tags demo_words = ["a"; "b"; "c"] /\
  StronglySorted (fun a b => tag_count demo_words b <= tag_count demo_words a)
    (popular_tags demo_words).
Proof.
  assert (H : Forall (fun t => is_proto_member t = false) (all_tags demo_words))
    by (vm_compute; repeat constructor).
  destruct (popular_tags_top10 demo_words H) as (_ & _ & _ & HS & _).
  split; [exact H|]. split; [vm_compute; reflexivity|exact HS].
Defined.

End PopularTagsWitnesses.
