(* ===== verification/StudySlice.v ===== *)
(** * The study-session slice ([src/src/store/slices/studySlice.ts])

    A Redux slice: its state [StudyState], one reducer per action, and the
    slice reducer [study_reducer] on the action type [study_action].  The
    reducers are pure functions of the state (Immer's drafts are the
    record updates); [endSession] reads the clock, which its action
    carries here as [now].  [sessionProgress] is a JavaScript number
    computed as [(currentIndex / length) * 100]; the model computes it
    exactly in [Q], leaving out the rounding of the floating-point
    division and product. *)

From stdpp Require Import base list.
From Stdlib Require Import String ZArith QArith Lia.
From S2P Require Import Prelude Types.

Record StudyState := mkStudyState {
  currentSession : option StudySession;
  currentWord : option Word;
  sessionProgress : Q;
  wordsInSession : list Word;
  currentIndex : Z;
  isSessionActive : bool
}.

Definition initialState : StudyState := mkStudyState None None 0 [] 0 false.

(** [array[i]]: the element, or [undefined] out of range. *)
Definition js_index {A} (l : list A) (i : Z) : option A :=
  if (0 <=? i)%Z then l !! Z.to_nat i else None.

(** [(currentIndex / wordsInSession.length) * 100]. *)
Definition progress_of (index : Z) (words : list Word) : Q :=
  (inject_Z index / inject_Z (Z.of_nat (List.length words)) * 100)%Q.

Definition startSession (session : StudySession) (words : list Word) (st : StudyState)
    : StudyState :=
  mkStudyState (Some session) (js_index words 0) 0 words 0 true.

Definition nextWord (st : StudyState) : StudyState :=
  if (currentIndex st <? Z.of_nat (List.length (wordsInSession st)) - 1)%Z then
    let i := (currentIndex st + 1)%Z in
    mkStudyState (currentSession st) (js_index (wordsInSession st) i)
      (progress_of i (wordsInSession st)) (wordsInSession st) i (isSessionActive st)
  else st.

Definition previousWord (st : StudyState) : StudyState :=
  if (0 <? currentIndex st)%Z then
    let i := (currentIndex st - 1)%Z in
    mkStudyState (currentSession st) (js_index (wordsInSession st) i)
      (progress_of i (wordsInSession st)) (wordsInSession st) i (isSessionActive st)
  else st.

(** [state.currentSession.endTime = new Date()] when there is a session. *)
Definition stamp_end (now : Z) (s : StudySession) : StudySession :=
  mkStudySession (ss_id s) (ss_userId s) (ss_startTime s) (Some now) (ss_wordsStudied s)
    (ss_testResults s) (ss_totalTime s) (ss_sessionType s).

Definition endSession (now : Z) (st : StudyState) : StudyState :=
  mkStudyState (option_map (stamp_end now) (currentSession st)) (currentWord st) 100
    (wordsInSession st) (currentIndex st) false.

Definition updateSessionProgress (p : Q) (st : StudyState) : StudyState :=
  mkStudyState (currentSession st) (currentWord st) p (wordsInSession st) (currentIndex st)
    (isSessionActive st).

Definition resetSession (st : StudyState) : StudyState := initialState.

Inductive study_action :=
| StartSession (session : StudySession) (words : list Word)
| NextWord
| PreviousWord
| EndSession (now : Z)
| UpdateSessionProgress (p : Q)
| ResetSession.

Definition study_reducer (st : StudyState) (a : study_action) : StudyState :=
  match a with
  | StartSession s ws => startSession s ws st
  | NextWord => nextWord st
  | PreviousWord => previousWord st
  | EndSession now => endSession now st
  | UpdateSessionProgress p => updateSessionProgress p st
  | ResetSession => resetSession st
  end.

(** A sequence of dispatches. *)
Definition dispatch_all (st : StudyState) (acts : list study_action) : StudyState :=
  fold_left study_reducer acts st.

(** ** Proofs *)

Module StudySliceProofs.

(** The cursor is a position of the word list (or 0 for an empty list)
    and [currentWord] is the word under it. *)
Definition study_inv (st : StudyState) : Prop :=
  (0 <= currentIndex st)%Z /\
  ((currentIndex st < Z.of_nat (List.length (wordsInSession st)))%Z \/
   (wordsInSession st = [] /\ currentIndex st = 0%Z)) /\
  currentWord st = js_index (wordsInSession st) (currentIndex st).

(** The states the store can be in: the initial state and whatever a
    sequence of dispatches makes of it. *)
Inductive study_reachable : StudyState -> Prop :=
| reach_init : study_reachable initialState
| reach_step st a : study_reachable st -> study_reachable (study_reducer st a).

Lemma study_reducer_inv st a : study_inv st -> study_inv (study_reducer st a).
Proof.
  intros (H0 & H1 & H2). destruct a; simpl.
  - unfold startSession, study_inv; simpl.
    split; [lia|split; [|done]]. destruct words; [by right|left; simpl; lia].
  - unfold nextWord. destruct (Z.ltb_spec (currentIndex st) (Z.of_nat (List.length (wordsInSession st)) - 1));
      [|done]. unfold study_inv; simpl. repeat split; [lia|left; lia].
  - unfold previousWord. destruct (Z.ltb_spec 0 (currentIndex st)); [|done].
    unfold study_inv; simpl. repeat split; [lia|left; destruct H1 as [|[_ ->]]; lia].
  - done.
  - done.
  - unfold resetSession, study_inv; simpl. repeat split; [lia|by right].
Qed.

(** C6: Every state the study store reaches keeps its cursor on the word
    list and [currentWord] on the word under the cursor. *)
Theorem study_reachable_inv st : study_reachable st -> study_inv st.
Proof.
  induction 1 as [|st a _ IH]; [|by apply study_reducer_inv].
  unfold study_inv; simpl. split; [lia|split; [by right|done]].
Qed.

(** The scenario of the specification: after [startSession] with
    three words and two [nextWord], the cursor is 2 on the third word; a
    third [nextWord] changes nothing; [endSession] then makes the session
    inactive with progress 100, whatever the store held before. *)
Theorem study_scenario st s w1 w2 w3 now :
  let st2 := dispatch_all st [StartSession s [w1; w2; w3]; NextWord; NextWord] in
  currentIndex st2 = 2%Z /\ currentWord st2 = Some w3 /\
  study_reducer st2 NextWord = st2 /\
  isSessionActive (study_reducer st2 (EndSession now)) = false /\
  sessionProgress (study_reducer st2 (EndSession now)) = 100%Q.
Proof. repeat split. Qed.

Lemma progress_of_lt i ws :
  (0 <= i < Z.of_nat (List.length ws))%Z -> (progress_of i ws < 100)%Q.
Proof.
  intros Hi. unfold progress_of.
  assert (Hn : (0 < inject_Z (Z.of_nat (List.length ws)))%Q)
    by (change 0%Q with (inject_Z 0); rewrite <- Zlt_Qlt; lia).
  rewrite <- (Qmult_1_l 100) at 2. apply Qmult_lt_r; [reflexivity|].
  apply Qlt_shift_div_r; [exact Hn|]. rewrite Qmult_1_l, <- Zlt_Qlt. lia.
Qed.

(** The states of a session driven by navigation alone: started with
    words, then moved by [nextWord] and [previousWord]. *)
Inductive nav_reachable : StudyState -> Prop :=
| nav_start s ws st : ws <> [] -> nav_reachable (startSession s ws st)
| nav_next st : nav_reachable st -> nav_reachable (nextWord st)
| nav_prev st : nav_reachable st -> nav_reachable (previousWord st).

(** C31: Moving through a session never reports completion: in a session
    driven by [nextWord] and [previousWord] the cursor stays in the list,
    [sessionProgress] is [currentIndex / length * 100], and it stays below
    100 (only [endSession] sets 100). *)
Theorem navigation_progress_below_100 st :
  nav_reachable st ->
  (0 <= currentIndex st < Z.of_nat (List.length (wordsInSession st)))%Z /\
  (sessionProgress st == progress_of (currentIndex st) (wordsInSession st))%Q /\
  (sessionProgress st < 100)%Q.
Proof.
  induction 1 as [s ws st Hws|st _ IH|st _ IH].
  - unfold startSession; simpl. destruct ws as [|w ws]; [done|]. simpl.
    split; [lia|]. split; reflexivity.
  - unfold nextWord.
    destruct (Z.ltb_spec (currentIndex st) (Z.of_nat (List.length (wordsInSession st)) - 1)) as [Hl|];
      [|done]. simpl. destruct IH as (Hi & _).
    split; [lia|]. split; [reflexivity|apply progress_of_lt; lia].
  - unfold previousWord. destruct (Z.ltb_spec 0 (currentIndex st)); [|done].
    simpl. destruct IH as (Hi & _). split; [lia|]. split; [reflexivity|apply progress_of_lt; lia].
Qed.


(** C24: The navigation reducers do not look at [isSessionActive]: after
    [endSession], a [nextWord] still moves the cursor, and replaces the
    final progress 100 by a value below 100 while the session stays
    inactive. *)
Theorem nextWord_after_endSession st now :
  (0 <= currentIndex st < Z.of_nat (List.length (wordsInSession st)) - 1)%Z ->
  let st' := nextWord (endSession now st) in
  isSessionActive st' = false /\ currentIndex st' = (currentIndex st + 1)%Z /\
  (sessionProgress st' < 100)%Q.
Proof.
  intros Hi. unfold nextWord, endSession; simpl.
  destruct (Z.ltb_spec (currentIndex st) (Z.of_nat (List.length (wordsInSession st)) - 1));
    [|lia]. simpl. split; [done|]. split; [done|]. apply progress_of_lt. lia.
Qed.

(** [startSession] does not require words: with an empty list the
    session is active with no current word, and neither [nextWord] nor
    [previousWord] can move. *)
Theorem startSession_empty_words s st :
  let st' := startSession s [] st in
  isSessionActive st' = true /\ currentWord st' = None /\
  nextWord st' = st' /\ previousWord st' = st'.
Proof. repeat split. Qed.

End StudySliceProofs.

Module StudySliceWitnesses.
Import StudySliceProofs.

Definition word_of (id : string) : Word :=
  mkWord id id "" [] [] 1 0 [] None None None None None None 0 0.

Definition session0 : StudySession := mkStudySession "s" "u" 0 None [] [] 0 "study".

Definition three_started : StudyState :=
  startSession session0 [word_of "a"; word_of "b"; word_of "c"] initialState.

Lemma study_reachable_inv_witness :
  study_reachable (nextWord three_started) /\ study_inv (nextWord three_started).
Proof.
  assert (H : study_reachable (nextWord three_started))
    by (apply (reach_step three_started NextWord),
        (reach_step initialState (StartSession session0 [word_of "a"; word_of "b"; word_of "c"])),
        reach_init).
  split; [exact H|exact (study_reachable_inv _ H)].
Defined.

Lemma navigation_progress_below_100_witness :
  nav_reachable (nextWord three_started) /\ (sessionProgress (nextWord three_started) < 100)%Q.
Proof.
  assert (H : nav_reachable (nextWord three_started))
    by (apply nav_next, nav_start; discriminate).
  split; [exact H|exact (proj2 (proj2 (navigation_progress_below_100 _ H)))].
Defined.

Lemma nextWord_after_endSession_witness :
  isSessionActive (nextWord (endSession 5 three_started)) = false /\
  currentIndex (nextWord (endSession 5 three_started)) = 1%Z /\
  (sessionProgress (nextWord (endSession 5 three_started)) < 100)%Q.
Proof. apply (nextWord_after_endSession three_started 5). simpl. lia. Defined.

End StudySliceWitnesses.
