(* ===== verification/TestSlice.v ===== *)
(** * The test-session slice ([src/src/store/slices/testSlice.ts])

    The state [TestState] and one reducer per action, with the slice
    reducer [test_reducer].  [userAnswers] is an object literal indexed by
    question id, modelled as a plain object of [JsObject.v] holding
    strings, so that [state.userAnswers[id] = answer] follows the
    object's own rules (an existing key is updated in place, a new key is
    added last, and ["__proto__"] goes to the inherited setter). *)

From stdpp Require Import base list.
From Stdlib Require Import String ZArith Lia.
From S2P Require Import Prelude Types JsObject.

Open Scope string_scope.

Record TestState := mkTestState {
  currentTest : option TestPaper;
  currentQuestion : Z;
  results : list TestResult;
  isTestActive : bool;
  timeRemaining : option Z;
  userAnswers : JsObj
}.

Definition test_initialState : TestState := mkTestState None 0 [] false None [].

Definition startTest (t : TestPaper) (st : TestState) : TestState :=
  mkTestState (Some t) 0 [] true (t_timeLimit t) [].

Definition set_currentQuestion (q : Z) (st : TestState) : TestState :=
  mkTestState (currentTest st) q (results st) (isTestActive st) (timeRemaining st)
    (userAnswers st).

Definition nextQuestion (st : TestState) : TestState :=
  match currentTest st with
  | Some t =>
      if (currentQuestion st <? Z.of_nat (List.length (t_questions t)) - 1)%Z
      then set_currentQuestion (currentQuestion st + 1) st else st
  | None => st
  end.

Definition previousQuestion (st : TestState) : TestState :=
  if (0 <? currentQuestion st)%Z then set_currentQuestion (currentQuestion st - 1) st else st.

Definition submitAnswer (questionId answer : string) (st : TestState) : TestState :=
  mkTestState (currentTest st) (currentQuestion st) (results st) (isTestActive st)
    (timeRemaining st) (obj_set (userAnswers st) questionId (JStr answer)).

(** [state.results.push(result)]. *)
Definition addTestResult (r : TestResult) (st : TestState) : TestState :=
  mkTestState (currentTest st) (currentQuestion st) (results st ++ [r]) (isTestActive st)
    (timeRemaining st) (userAnswers st).

Definition endTest (st : TestState) : TestState :=
  mkTestState (currentTest st) (currentQuestion st) (results st) false (timeRemaining st)
    (userAnswers st).

Definition updateTimeRemaining (n : Z) (st : TestState) : TestState :=
  mkTestState (currentTest st) (currentQuestion st) (results st) (isTestActive st) (Some n)
    (userAnswers st).

Definition resetTest (st : TestState) : TestState := test_initialState.

Inductive test_action :=
| StartTest (t : TestPaper)
| NextQuestion
| PreviousQuestion
| SubmitAnswer (questionId answer : string)
| AddTestResult (r : TestResult)
| EndTest
| UpdateTimeRemaining (n : Z)
| ResetTest.

Definition test_reducer (st : TestState) (a : test_action) : TestState :=
  match a with
  | StartTest t => startTest t st
  | NextQuestion => nextQuestion st
  | PreviousQuestion => previousQuestion st
  | SubmitAnswer q ans => submitAnswer q ans st
  | AddTestResult r => addTestResult r st
  | EndTest => endTest st
  | UpdateTimeRemaining n => updateTimeRemaining n st
  | ResetTest => resetTest st
  end.

(** ** Proofs *)

Module TestSliceProofs.

(** The question cursor is 0 or a position in the current test's
    questions, and the answers object has distinct keys and no own
    ["__proto__"]. *)
Definition test_inv (st : TestState) : Prop :=
  (0 <= currentQuestion st)%Z /\
  (currentQuestion st = 0%Z \/
   exists t, currentTest st = Some t /\
             (currentQuestion st < Z.of_nat (List.length (t_questions t)))%Z) /\
  NoDup (userAnswers st).*1 /\ assoc_lookup "__proto__" (userAnswers st) = None.

Inductive test_reachable : TestState -> Prop :=
| treach_init : test_reachable test_initialState
| treach_step st a : test_reachable st -> test_reachable (test_reducer st a).

Lemma test_reducer_inv st a : test_inv st -> test_inv (test_reducer st a).
Proof.
  intros Hinv. pose proof Hinv as (H0 & H1 & H2 & H3). destruct a; simpl.
  - unfold test_inv; simpl. split; [lia|]. split; [by left|]. split; [constructor|done].
  - unfold nextQuestion. destruct (currentTest st) as [t|] eqn:Et; [|done].
    destruct (Z.ltb_spec (currentQuestion st) (Z.of_nat (List.length (t_questions t)) - 1));
      [|done].
    unfold test_inv; simpl. split; [lia|]. split; [right; exists t; split; [done|lia]|done].
  - unfold previousQuestion. destruct (Z.ltb_spec 0 (currentQuestion st)); [|done].
    unfold test_inv; simpl. split; [lia|]. split; [|done].
    destruct H1 as [|(t & Ht & Hq)]; [lia|]. right. exists t. split; [done|lia].
  - unfold test_inv; simpl. split; [done|]. split; [done|].
    split; [by apply obj_set_nodup|by apply obj_set_proto].
  - done.
  - done.
  - done.
  - unfold test_inv; simpl. split; [lia|]. split; [by left|]. split; [constructor|done].
Qed.

(** C7: Every state the test store reaches keeps the question cursor on
    a question of the current test (or at 0), and its answers object has
    distinct question ids and no own ["__proto__"]. *)
Theorem test_reachable_inv st : test_reachable st -> test_inv st.
Proof.
  induction 1 as [|st a _ IH]; [|by apply test_reducer_inv].
  unfold test_inv; simpl. split; [lia|]. split; [by left|]. split; [constructor|done].
Qed.

(** C38: [submitAnswer] is last-write-wins per question id: after two
    answers to the same question the second is recorded, and the
    answers to every other question are unchanged. *)
Theorem submitAnswer_last_write_wins st q a1 a2 :
  q <> "__proto__" ->
  let ua := userAnswers (submitAnswer q a2 (submitAnswer q a1 st)) in
  assoc_lookup q ua = Some (JStr a2) /\
  forall q', q' <> q -> assoc_lookup q' ua = assoc_lookup q' (userAnswers st).
Proof.
  intros Hq. simpl. split; [by apply obj_set_lookup_eq|].
  intros q' Hne. by rewrite !obj_set_lookup_ne.
Qed.

End TestSliceProofs.

Module TestSliceWitnesses.
Import TestSliceProofs.

Definition item (id : string) : TestItem := mkTestItem id "w" "?" None "a" MULTIPLE_CHOICE.

Definition two_questions : TestPaper := mkTest "t" MULTIPLE_CHOICE [item "q1"; item "q2"] (Some 60%Z) 0%Z.

Lemma test_reachable_inv_witness :
  test_reachable (nextQuestion (startTest two_questions test_initialState)) /\
  test_inv (nextQuestion (startTest two_questions test_initialState)).
Proof.
  assert (H : test_reachable (nextQuestion (startTest two_questions test_initialState))).
  { apply (treach_step _ NextQuestion), (treach_step test_initialState (StartTest two_questions)).
    apply treach_init. }
  split; [exact H|exact (test_reachable_inv _ H)].
Defined.

Lemma submitAnswer_last_write_wins_witness :
  assoc_lookup "q1" (userAnswers (submitAnswer "q1" "b" (submitAnswer "q1" "a"
    (startTest two_questions test_initialState)))) = Some (JStr "b").
Proof. apply submitAnswer_last_write_wins. discriminate. Defined.

End TestSliceWitnesses.
