(* ===== verification/UserSlice.v ===== *)
(** * The user-profile slice ([src/src/store/slices/userSlice.ts])

    The state [UserState] and one reducer per action, with the slice
    reducer [user_reducer].  A [Partial<StudyPreferences>] or
    [Partial<ProgressStats>] payload is a record of options, [Some] for a
    key the payload has; the spread [{ ...old, ...patch }] takes the
    patch's value for those keys and the old value for the others.  The
    initial preferences leave [studyReminder], [reminderTime] and [theme]
    out, which the model's option fields record as [None]. *)

From stdpp Require Import base list.
From Stdlib Require Import String ZArith QArith Lia.
From S2P Require Import Prelude Types.

Open Scope string_scope.

Record UserState := mkUserState {
  user_id : string;
  preferences : StudyPreferences;
  progress : ProgressStats;
  user_isInitialized : bool
}.

Definition user_initialState : UserState :=
  mkUserState "default-user"
    (mkPreferences (JsNum 20) "spaced" [BEGINNER; ELEMENTARY] true false None None None)
    (mkProgressStats 0 0 0 0 0 [0; 0; 0; 0; 0; 0; 0]%Z)
    false.

Record PreferencesPatch := mkPreferencesPatch {
  pp_dailyGoal : option number;
  pp_reviewMode : option string;
  pp_difficultyPreference : option (list Z);
  pp_enableAudio : option bool;
  pp_autoPlay : option bool;
  pp_studyReminder : option bool;
  pp_reminderTime : option string;
  pp_theme : option string
}.

Record ProgressPatch := mkProgressPatch {
  pg_totalWordsStudied : option Z;
  pg_masteredWords : option Z;
  pg_studyStreak : option Z;
  pg_totalStudyTime : option Z;
  pg_averageAccuracy : option Q;
  pg_weeklyProgress : option (list Z)
}.

(** The value of a key after [{ ...old, ...patch }]. *)
Definition spread {A} (patch : option A) (old : A) : A := if patch is Some v then v else old.

Definition merge_preferences (p : StudyPreferences) (pp : PreferencesPatch) : StudyPreferences :=
  mkPreferences (spread (pp_dailyGoal pp) (p_dailyGoal p))
    (spread (pp_reviewMode pp) (p_reviewMode p))
    (spread (pp_difficultyPreference pp) (p_difficultyPreference p))
    (spread (pp_enableAudio pp) (p_enableAudio p))
    (spread (pp_autoPlay pp) (p_autoPlay p))
    (spread (option_map Some (pp_studyReminder pp)) (p_studyReminder p))
    (spread (option_map Some (pp_reminderTime pp)) (p_reminderTime p))
    (spread (option_map Some (pp_theme pp)) (p_theme p)).

Definition merge_progress (s : ProgressStats) (pg : ProgressPatch) : ProgressStats :=
  mkProgressStats (spread (pg_totalWordsStudied pg) (ps_totalWordsStudied s))
    (spread (pg_masteredWords pg) (ps_masteredWords s))
    (spread (pg_studyStreak pg) (ps_studyStreak s))
    (spread (pg_totalStudyTime pg) (ps_totalStudyTime s))
    (spread (pg_averageAccuracy pg) (ps_averageAccuracy s))
    (spread (pg_weeklyProgress pg) (ps_weeklyProgress s)).

Definition set_progress (s : ProgressStats) (st : UserState) : UserState :=
  mkUserState (user_id st) (preferences st) s (user_isInitialized st).

Definition initializeUser (id : string) (st : UserState) : UserState :=
  mkUserState id (preferences st) (progress st) true.

Definition updatePreferences (pp : PreferencesPatch) (st : UserState) : UserState :=
  mkUserState (user_id st) (merge_preferences (preferences st) pp) (progress st)
    (user_isInitialized st).

Definition updateProgress (pg : ProgressPatch) (st : UserState) : UserState :=
  set_progress (merge_progress (progress st) pg) st.

Definition incrementWordsStudied (n : Z) (st : UserState) : UserState :=
  let s := progress st in
  set_progress (mkProgressStats (ps_totalWordsStudied s + n) (ps_masteredWords s)
    (ps_studyStreak s) (ps_totalStudyTime s) (ps_averageAccuracy s) (ps_weeklyProgress s)) st.

Definition incrementStudyTime (n : Z) (st : UserState) : UserState :=
  let s := progress st in
  set_progress (mkProgressStats (ps_totalWordsStudied s) (ps_masteredWords s)
    (ps_studyStreak s) (ps_totalStudyTime s + n) (ps_averageAccuracy s) (ps_weeklyProgress s)) st.

Definition updateStudyStreak (n : Z) (st : UserState) : UserState :=
  let s := progress st in
  set_progress (mkProgressStats (ps_totalWordsStudied s) (ps_masteredWords s) n
    (ps_totalStudyTime s) (ps_averageAccuracy s) (ps_weeklyProgress s)) st.

Definition updateWeeklyProgress (l : list Z) (st : UserState) : UserState :=
  let s := progress st in
  set_progress (mkProgressStats (ps_totalWordsStudied s) (ps_masteredWords s)
    (ps_studyStreak s) (ps_totalStudyTime s) (ps_averageAccuracy s) l) st.

Inductive user_action :=
| InitializeUser (id : string)
| UpdatePreferences (pp : PreferencesPatch)
| UpdateProgress (pg : ProgressPatch)
| IncrementWordsStudied (n : Z)
| IncrementStudyTime (n : Z)
| UpdateStudyStreak (n : Z)
| UpdateWeeklyProgress (l : list Z).

Definition user_reducer (st : UserState) (a : user_action) : UserState :=
  match a with
  | InitializeUser id => initializeUser id st
  | UpdatePreferences pp => updatePreferences pp st
  | UpdateProgress pg => updateProgress pg st
  | IncrementWordsStudied n => incrementWordsStudied n st
  | IncrementStudyTime n => incrementStudyTime n st
  | UpdateStudyStreak n => updateStudyStreak n st
  | UpdateWeeklyProgress l => updateWeeklyProgress l st
  end.

(** ** Proofs *)

Module UserSliceProofs.

(** The actions that write a week of the right length, or none. *)
Definition keeps_week (a : user_action) : Prop :=
  match a with
  | UpdateWeeklyProgress l => List.length l = 7%nat
  | UpdateProgress pg => if pg_weeklyProgress pg is Some l then List.length l = 7%nat else True
  | _ => True
  end.

(** C39: The weekly histogram has 7 slots initially, and an action keeps 7
    slots exactly when it writes a 7-element week or no week:
    [updateWeeklyProgress] and [updateProgress] store whatever array they
    are given. *)
Theorem weekly_progress_slots st a :
  List.length (ps_weeklyProgress (progress user_initialState)) = 7%nat /\
  (List.length (ps_weeklyProgress (progress st)) = 7%nat ->
   (List.length (ps_weeklyProgress (progress (user_reducer st a))) = 7%nat <-> keeps_week a)).
Proof.
  split; [reflexivity|]. intros H.
  destruct a as [| |[? ? ? ? ? [l|]]| | | |l]; simpl; by rewrite ?H.
Qed.

(** The last [theme] an [updatePreferences] in [acts] set, if any. *)
Definition last_theme (acts : list user_action) : option string :=
  fold_left (fun acc a => if a is UpdatePreferences pp then
                            (if pp_theme pp is Some t then Some t else acc) else acc) acts None.

(** C34: The initial preferences have no [theme] (nor [studyReminder] or
    [reminderTime]), although the type requires one: after any sequence
    of actions from the initial state, [theme] is the one last set by
    [updatePreferences], and undefined when none set it. *)
Theorem theme_defined_only_when_set acts :
  p_studyReminder (preferences user_initialState) = None /\
  p_reminderTime (preferences user_initialState) = None /\
  p_theme (preferences (fold_left user_reducer acts user_initialState)) = last_theme acts.
Proof.
  split; [done|]. split; [done|]. unfold last_theme.
  assert (G : forall st acc, p_theme (preferences st) = acc ->
    p_theme (preferences (fold_left user_reducer acts st)) =
    fold_left (fun acc a => if a is UpdatePreferences pp then
                              (if pp_theme pp is Some t then Some t else acc) else acc) acts acc).
  { induction acts as [|a acts IH]; intros st acc Hst; simpl; [done|]. apply IH.
    destruct a as [|pp| | | | |]; simpl; try done. destruct (pp_theme pp); simpl; done. }
  by apply G.
Qed.

End UserSliceProofs.

Module UserSliceWitnesses.
Import UserSliceProofs.

(** A three-day week is stored as it is. *)
Lemma weekly_progress_slots_witness :
  List.length (ps_weeklyProgress (progress
    (user_reducer user_initialState (UpdateWeeklyProgress [1; 2; 3]%Z)))) <> 7%nat.
Proof.
  destruct (weekly_progress_slots user_initialState (UpdateWeeklyProgress [1; 2; 3]%Z)) as [H0 H1].
  intros E. apply (H1 H0) in E. simpl in E. discriminate.
Defined.

End UserSliceWitnesses.
