(* ===== verification/VocabularySlice.v ===== *)
(** * The vocabulary slice and its thunks ([src/src/store/slices/vocabularySlice.ts])

    The state [VocabState], the three reducers and the [extraReducers] of
    the four async thunks, as one reducer [vocab_reducer] on the action
    type [vocab_action] ([pending], [fulfilled] and [rejected] of each
    thunk).  A thunk dispatches its [pending] action, awaits the
    vocabulary service, then dispatches [fulfilled] with the result or
    [rejected] with the error's [message].

    Thunks run concurrently with each other: [VocabSystem] holds the
    slice, the service's state and the thunks in flight, and [sys_step]
    starts a thunk or finishes any one in flight.  The service call of a
    thunk runs at its finishing step, as one step; the interleaving of
    two service calls inside the database is not modelled.  The
    [message] of an error is an argument [msg]: the program's own errors
    carry the texts of [indexedDB.ts], the browser's carry its own. *)

From stdpp Require Import base list relations.
From Stdlib Require Import String ZArith Wellfounded.
From S2P Require Import Prelude ObjectStore Types IndexedDB InitDB VocabularyService PopularTags.

Open Scope string_scope.

Record VocabState := mkVocabState {
  currentWordSet : list Word;
  wordSets : list WordSet;
  searchResults : list Word;
  selectedWord : option Word;
  loading : bool;
  error : option AppError;
  popularTags : list string
}.

Definition vocab_initialState : VocabState := mkVocabState [] [] [] None false None [].

Inductive thunk := LoadWordSets | LoadWordsFromSet | SearchWordsThunk | LoadPopularTags.

Inductive vocab_action :=
| SelectWord (w : Word)
| ClearError
| ClearSearchResults
| Pending (t : thunk)
| FulfilledWordSets (l : list WordSet)
| FulfilledWords (l : list Word)
| FulfilledSearch (l : list Word)
| FulfilledTags (l : list string)
| Rejected (t : thunk) (message : option string).

(** [action.error.message || fallback]: an absent or empty message gives
    the fallback. *)
Definition message_or (message : option string) (fallback : string) : string :=
  match message with
  | Some m => if String.eqb m "" then fallback else m
  | None => fallback
  end.

Definition with_loading_error (b : bool) (e : option AppError) (st : VocabState) : VocabState :=
  mkVocabState (currentWordSet st) (wordSets st) (searchResults st) (selectedWord st) b e
    (popularTags st).

Definition with_loading (b : bool) (st : VocabState) : VocabState :=
  with_loading_error b (error st) st.

Definition vocab_reducer (st : VocabState) (a : vocab_action) : VocabState :=
  match a with
  | SelectWord w =>
      mkVocabState (currentWordSet st) (wordSets st) (searchResults st) (Some w) (loading st)
        (error st) (popularTags st)
  | ClearError => with_loading_error (loading st) None st
  | ClearSearchResults =>
      mkVocabState (currentWordSet st) (wordSets st) [] (selectedWord st) (loading st)
        (error st) (popularTags st)
  | Pending LoadWordSets | Pending LoadWordsFromSet => with_loading_error true None st
  | Pending SearchWordsThunk => with_loading true st
  | Pending LoadPopularTags => st
  | FulfilledWordSets l =>
      mkVocabState (currentWordSet st) l (searchResults st) (selectedWord st) false
        (error st) (popularTags st)
  | FulfilledWords l =>
      mkVocabState l (wordSets st) (searchResults st) (selectedWord st) false
        (error st) (popularTags st)
  | FulfilledSearch l =>
      mkVocabState (currentWordSet st) (wordSets st) l (selectedWord st) false
        (error st) (popularTags st)
  | FulfilledTags l =>
      mkVocabState (currentWordSet st) (wordSets st) (searchResults st) (selectedWord st)
        (loading st) (error st) l
  | Rejected LoadWordSets m =>
      with_loading_error false (Some (mkAppError "LOAD_WORDSETS_ERROR" (message_or m "加载单词库失败"))) st
  | Rejected LoadWordsFromSet m =>
      with_loading_error false (Some (mkAppError "LOAD_WORDS_ERROR" (message_or m "加载单词失败"))) st
  | Rejected SearchWordsThunk m =>
      with_loading_error false (Some (mkAppError "SEARCH_ERROR" (message_or m "搜索失败"))) st
  | Rejected LoadPopularTags _ => st
  end.

(** ** Thunks *)

(** A dispatched thunk with its argument. *)
Inductive thunk_call :=
| loadWordSets
| loadWordsFromSet (setId : string)
| searchWords (query : string) (filters : option SearchFilters)
| loadPopularTags.

Definition thunk_of (c : thunk_call) : thunk :=
  match c with
  | loadWordSets => LoadWordSets
  | loadWordsFromSet _ => LoadWordsFromSet
  | searchWords _ _ => SearchWordsThunk
  | loadPopularTags => LoadPopularTags
  end.

Definition settle {A} (t : thunk) (msg : exn -> option string) (ok : A -> vocab_action)
    (r : result exn A) : vocab_action :=
  match r with
  | Ok v => ok v
  | Err e => Rejected t (msg e)
  end.

(** The body of a thunk: the service call, and the action it dispatches. *)
Definition thunk_body (env : Env) (msg : exn -> option string) (c : thunk_call)
    : VM vocab_action := fun vs =>
  match c with
  | loadWordSets =>
      let '(r, vs') := getWordSets env vs in (Ok (settle LoadWordSets msg FulfilledWordSets r), vs')
  | loadWordsFromSet setId =>
      let '(r, vs') := getWordsFromSet env setId vs in
      (Ok (settle LoadWordsFromSet msg FulfilledWords r), vs')
  | searchWords q f =>
      let '(r, vs') := VocabularyService.searchWords env q f vs in
      (Ok (settle SearchWordsThunk msg FulfilledSearch r), vs')
  | loadPopularTags =>
      let '(r, vs') := getPopularTags env vs in
      (Ok (settle LoadPopularTags msg FulfilledTags r), vs')
  end.

Record VocabSystem := mkVocabSystem {
  sys_vocab : VocabState;
  sys_service : VSState;
  inflight : list thunk_call
}.

(** Start a thunk: [pending] is dispatched at once. *)
Definition sys_start (c : thunk_call) (s : VocabSystem) : VocabSystem :=
  mkVocabSystem (vocab_reducer (sys_vocab s) (Pending (thunk_of c))) (sys_service s)
    (inflight s ++ [c]).

(** Finish the thunk in flight at position [i]. *)
Definition sys_finish (env : Env) (msg : exn -> option string) (i : nat) (s : VocabSystem)
    : option VocabSystem :=
  match inflight s !! i with
  | Some c =>
      match thunk_body env msg c (sys_service s) with
      | (Ok a, vs') => Some (mkVocabSystem (vocab_reducer (sys_vocab s) a) vs' (delete i (inflight s)))
      | (Err _, _) => None
      end
  | None => None
  end.

Inductive sys_step (msg : exn -> option string) : VocabSystem -> VocabSystem -> Prop :=
| step_start c s : sys_step msg s (sys_start c s)
| step_finish env i s s' : sys_finish env msg i s = Some s' -> sys_step msg s s'.

Definition sys_init : VocabSystem := mkVocabSystem vocab_initialState fresh_vs [].

(** ** Proofs *)

Module VocabularySliceProofs.
Local Open Scope list_scope.

Lemma thunk_body_Ok env msg c vs : exists a vs', thunk_body env msg c vs = (Ok a, vs').
Proof.
  destruct c; simpl;
    [destruct (getWordSets env vs)|destruct (getWordsFromSet env setId vs)
    |destruct (VocabularyService.searchWords env query filters vs)|destruct (getPopularTags env vs)];
    eauto.
Qed.

Lemma lookup_last {A} (l : list A) x k : (l ++ x :: k) !! List.length l = Some x.
Proof. by rewrite lookup_app_r, Nat.sub_diag by lia. Qed.

Lemma delete_last {A} (l : list A) x k : delete (List.length l) (l ++ x :: k) = l ++ k.
Proof. induction l as [|y l IH]; simpl; [done|]. by rewrite IH. Qed.

(** Finishing a thunk [c] that has the thunks of [inflight s] before it
    and [k] after it. *)
Lemma sys_finish_started env msg s c k :
  sys_finish env msg (List.length (inflight s)) (mkVocabSystem (sys_vocab s) (sys_service s)
    (inflight s ++ c :: k)) =
  let '(r, vs') := thunk_body env msg c (sys_service s) in
  match r with
  | Ok a => Some (mkVocabSystem (vocab_reducer (sys_vocab s) a) vs' (inflight s ++ k))
  | Err _ => None
  end.
Proof.
  unfold sys_finish. simpl. rewrite lookup_last, delete_last.
  by destruct (thunk_body env msg c (sys_service s)) as [[]].
Qed.

(** C9: [loadWordSets] settles the slice: started and finished while other
    thunks are in flight, it clears [loading] and leaves the others in
    flight; on success [wordSets] is the service's answer and [error] is
    cleared, on failure [error] is [LOAD_WORDSETS_ERROR] with the error's
    message or the fallback text and [wordSets] is kept. *)
Theorem loadWordSets_settles env msg s :
  exists s',
    sys_finish env msg (List.length (inflight s)) (sys_start loadWordSets s) = Some s' /\
    inflight s' = inflight s /\ loading (sys_vocab s') = false /\
    sys_service s' = (getWordSets env (sys_service s)).2 /\
    match (getWordSets env (sys_service s)).1 with
    | Ok l => wordSets (sys_vocab s') = l /\ error (sys_vocab s') = None
    | Err e => wordSets (sys_vocab s') = wordSets (sys_vocab s) /\
               error (sys_vocab s') =
               Some (mkAppError "LOAD_WORDSETS_ERROR" (message_or (msg e) "加载单词库失败"))
    end.
Proof.
  unfold sys_start. cbn [thunk_of].
  pose proof (sys_finish_started env msg (mkVocabSystem (vocab_reducer (sys_vocab s)
    (Pending LoadWordSets)) (sys_service s) (inflight s)) loadWordSets []) as E.
  cbn [sys_vocab sys_service inflight app] in E. rewrite E. simpl.
  destruct (getWordSets env (sys_service s)) as [[l|e] vs']; simpl; eexists;
    (split; [reflexivity|]); simpl; rewrite ?app_nil_r; repeat split.
Qed.

(** C26: The slice has one [loading] flag for all thunks: when
    [loadWordSets] and any other thunk are in flight and [loadWordSets]
    finishes first, [loading] is [false] although the other is still in
    flight. *)
Theorem loading_cleared_while_in_flight env msg s c :
  exists s',
    sys_finish env msg (List.length (inflight s)) (sys_start c (sys_start loadWordSets s))
      = Some s' /\
    loading (sys_vocab s') = false /\ c ∈ inflight s'.
Proof.
  unfold sys_start. cbn [thunk_of sys_vocab sys_service inflight]. rewrite <- app_assoc.
  cbn [app].
  pose proof (sys_finish_started env msg (mkVocabSystem (vocab_reducer (vocab_reducer
    (sys_vocab s) (Pending LoadWordSets)) (Pending (thunk_of c))) (sys_service s) (inflight s))
    loadWordSets [c]) as E.
  cbn [sys_vocab sys_service inflight app] in E. rewrite E. simpl.
  destruct (getWordSets env (sys_service s)) as [[l|e] vs']; simpl; eexists;
    (split; [reflexivity|]); simpl; (split; [done|]); apply elem_of_app; right; by left.
Qed.

(** The error flag is handled unevenly: [loadWordSets.pending] and
    [loadWordsFromSet.pending] clear [error], but a successful search
    keeps the error of an earlier failure, and a failed [loadPopularTags]
    changes nothing at all. *)
Theorem error_flag_handling st l m :
  error (vocab_reducer st (Pending LoadWordSets)) = None /\
  error (vocab_reducer st (Pending LoadWordsFromSet)) = None /\
  error (vocab_reducer (vocab_reducer st (Pending SearchWordsThunk)) (FulfilledSearch l))
    = error st /\
  vocab_reducer (vocab_reducer st (Pending LoadPopularTags)) (Rejected LoadPopularTags m) = st.
Proof. repeat split. Qed.

Lemma sys_finish_length env msg i s s' :
  sys_finish env msg i s = Some s' -> List.length (inflight s') < List.length (inflight s).
Proof.
  unfold sys_finish. destruct (inflight s !! i) as [c|] eqn:Ei; [|done].
  destruct (thunk_body env msg c (sys_service s)) as [[a|] vs']; [|done].
  intros [= <-]. simpl. rewrite length_delete by done. apply lookup_lt_Some in Ei. lia.
Qed.

Lemma sys_finish_first env msg s c k :
  inflight s = c :: k -> exists s', sys_finish env msg 0 s = Some s' /\ inflight s' = k.
Proof.
  intros Ei. unfold sys_finish. rewrite Ei. simpl.
  destruct (thunk_body_Ok env msg c (sys_service s)) as (a & vs' & ->). by eexists.
Qed.

(** Every run of finishing steps stops: finishing a thunk removes it
    from the list in flight, so no infinite sequence of [sys_finish]
    steps exists, whatever the environment of each step. *)
Theorem finish_steps_terminate msg :
  well_founded (fun s' s => exists env i, sys_finish env msg i s = Some s').
Proof.
  apply (wf_incl _ _ (ltof _ (fun s => List.length (inflight s)))); [|apply well_founded_ltof].
  intros s' s (env & i & H). exact (sys_finish_length env msg i s s' H).
Qed.

(** Every thunk in flight settles: from any state of the system,
    finishing steps in any environment lead to a state with no thunk in
    flight, because a service call always resolves or rejects and each
    outcome dispatches an action. *)
Theorem all_thunks_settle (env : Env) msg s :
  exists s', rtc (fun a b => exists i, sys_finish env msg i a = Some b) s s' /\ inflight s' = [].
Proof.
  remember (inflight s) as l eqn:El. revert s El.
  induction l as [|c k IH]; intros s El; [by exists s|].
  destruct (sys_finish_first env msg s c k) as (s1 & H1 & E1); [done|].
  destruct (IH s1) as (s' & Hs' & E'); [done|].
  exists s'. split; [|done]. eapply rtc_l; [|exact Hs']. by exists 0%nat.
Qed.

End VocabularySliceProofs.
