(* ===== verification/Pages.v ===== *)
(** * The page handlers that drive the slices ([src/src/pages/Home/HomePage.tsx],
    [src/src/pages/Study/StudyPage.tsx])

    The pages' rendering is presentation; what they decide is which
    actions and thunks to dispatch.  Each handler is a function from the
    state it reads (through [useAppSelector]) to the dispatches it makes:
    the default-word-set effect and [handleStartStudy] of [HomePage].  The
    handlers of [StudyPage] ([handleNextWord], [handlePreviousWord],
    [handleEndSession], [toggleDefinition]) also set the page's local
    [showDefinition] and navigate: each returns a [page_effect] with the
    three, which [App.v] runs on the user interface. *)

From stdpp Require Import base list pretty.
From Stdlib Require Import String ZArith QArith Lia.
From S2P Require Import Prelude Types IndexedDB InitDB VocabularyService StudySlice VocabularySlice.

Open Scope string_scope.

(** ** HomePage *)

(** [wordSets.find(set => set.isDefault) || wordSets[0]]. *)
Definition defaultWordSet (sets : list WordSet) : option WordSet :=
  match List.find ws_isDefault sets with
  | Some ws => Some ws
  | None => head sets
  end.

(** The effect on [[wordSets, currentWordSet.length]]: load the words of
    the default set when there are sets and no words yet. *)
Definition defaultSetEffect (st : VocabState) : option thunk_call :=
  if (0 <? List.length (wordSets st))%nat && Nat.eqb (List.length (currentWordSet st)) 0 then
    option_map (fun ws => loadWordsFromSet (ws_id ws)) (defaultWordSet (wordSets st))
  else None.

(** The session [handleStartStudy] creates at time [now]. *)
Definition new_session (now : Z) : StudySession :=
  mkStudySession (String.append "session-" (pretty now)) "default-user" now None [] [] 0 "study".

Definition handleStartStudy (now : Z) (st : VocabState) : option study_action :=
  if (0 <? List.length (currentWordSet st))%nat
  then Some (StartSession (new_session now) (currentWordSet st)) else None.

(** ** StudyPage *)

(** What a handler of the page does: its dispatches in order, the value
    it passes to [setShowDefinition] if it calls it, and the path it
    passes to [navigate] if it calls it. *)
Record page_effect := mkPageEffect {
  pe_dispatch : list study_action;
  pe_showDefinition : option bool;
  pe_navigate : option string
}.

(** [dispatch(endSession()); navigate('/')]. *)
Definition handleEndSession (now : Z) (st : StudyState) : page_effect :=
  mkPageEffect [EndSession now] None (Some "/").

(** [dispatch(nextWord()); setShowDefinition(false)] before the last
    word, [handleEndSession()] on it. *)
Definition handleNextWord (now : Z) (st : StudyState) : page_effect :=
  if (currentIndex st <? Z.of_nat (List.length (wordsInSession st)) - 1)%Z
  then mkPageEffect [NextWord] (Some false) None
  else handleEndSession now st.

(** [dispatch(previousWord()); setShowDefinition(false)] after the first
    word, nothing on it. *)
Definition handlePreviousWord (st : StudyState) : page_effect :=
  if (0 <? currentIndex st)%Z then mkPageEffect [PreviousWord] (Some false) None
  else mkPageEffect [] None None.

(** [setShowDefinition(!showDefinition)], the click on the card. *)
Definition toggleDefinition (showDefinition : bool) : page_effect :=
  mkPageEffect [] (Some (negb showDefinition)) None.

(** A click on a button, on the study slice: the handler's dispatches,
    one after the other. *)
Definition click (handler : StudyState -> page_effect) (st : StudyState) : StudyState :=
  dispatch_all st (pe_dispatch (handler st)).

(** ** Proofs *)

Module PagesProofs.

Lemma click_next_moves now st :
  (currentIndex st < Z.of_nat (List.length (wordsInSession st)) - 1)%Z ->
  click (handleNextWord now) st = nextWord st.
Proof. intros H. unfold click, handleNextWord. by rewrite (proj2 (Z.ltb_lt _ _) H). Qed.

Lemma click_next_ends now st :
  ~ (currentIndex st < Z.of_nat (List.length (wordsInSession st)) - 1)%Z ->
  click (handleNextWord now) st = endSession now st.
Proof.
  intros H. unfold click, handleNextWord. by rewrite (proj2 (Z.ltb_ge _ _)) by lia.
Qed.

(** [k] clicks on "next" after the start of a session of more than [k]
    words: the session is active on word [k]. *)
Lemma clicks_before_end now s ws st k :
  (k < List.length ws)%nat ->
  let st' := Nat.iter k (click (handleNextWord now)) (startSession s ws st) in
  isSessionActive st' = true /\ currentIndex st' = Z.of_nat k /\ wordsInSession st' = ws.
Proof.
  induction k as [|k IH]; intros Hk; [done|]. simpl.
  destruct IH as (Ha & Hi & Hw); [lia|].
  rewrite click_next_moves by (rewrite Hi, Hw; lia).
  unfold nextWord. rewrite Hi, Hw, (proj2 (Z.ltb_lt _ _)) by lia. simpl.
  split; [done|]. split; [lia|done].
Qed.

(** C10: Clicking "next" through a session ends it: for a session started
    with [n >= 1] words, the first [n - 1] clicks move to the next word
    and keep the session active, and the [n]-th click ends it, with
    progress 100 on the last word. *)
Theorem study_clicks_complete now s ws st :
  ws <> [] ->
  (forall k, (k < List.length ws)%nat ->
     isSessionActive (Nat.iter k (click (handleNextWord now)) (startSession s ws st)) = true) /\
  let st' := Nat.iter (List.length ws) (click (handleNextWord now)) (startSession s ws st) in
  isSessionActive st' = false /\ sessionProgress st' = 100%Q /\
  currentIndex st' = Z.of_nat (List.length ws - 1).
Proof.
  intros Hws. split; [intros k Hk; by apply clicks_before_end|].
  destruct ws as [|w ws']; [done|]. remember (w :: ws') as ws eqn:Ews.
  assert (E : Nat.iter (List.length ws) (click (handleNextWord now)) (startSession s ws st) =
              click (handleNextWord now)
                (Nat.iter (List.length ws - 1) (click (handleNextWord now)) (startSession s ws st)))
    by (subst ws; simpl; by rewrite Nat.sub_0_r).
  cbv zeta. rewrite E.
  destruct (clicks_before_end now s ws st (List.length ws - 1)) as (_ & Hi & Hw);
    [subst; simpl; lia|].
  rewrite click_next_ends by (rewrite Hi, Hw; lia). simpl. by rewrite Hi.
Qed.


(** On the first visit with the seed file unavailable, the home page
    cannot start a study session: [loadWordSets] lists the bundled sets,
    the default-set effect loads the words of ['junior-high'] (the set
    marked default), which are none, and [handleStartStudy] then
    dispatches nothing. *)
Theorem home_first_visit_cannot_study env msg :
  env_open_ok env = true -> env_import_ok env = true -> fetch_fails (env_fetch env) = true ->
  match sys_finish env msg 0 (sys_start loadWordSets sys_init) with
  | Some s1 =>
      defaultSetEffect (sys_vocab s1) = Some (loadWordsFromSet "junior-high") /\
      match sys_finish env msg 0 (sys_start (loadWordsFromSet "junior-high") s1) with
      | Some s2 => currentWordSet (sys_vocab s2) = [] /\
                   handleStartStudy (env_now env) (sys_vocab s2) = None
      | None => False
      end
  | None => False
  end.
Proof.
  destruct env as [now [] [| | |data] []]; simpl; intros; try discriminate;
    vm_compute; repeat split.
Qed.

End PagesProofs.

Module PagesWitnesses.
Import PagesProofs.

Definition word_of (id : string) : Word :=
  mkWord id id "" [] [] 1 0 [] None None None None None None 0 0.

Lemma study_clicks_complete_witness :
  isSessionActive (Nat.iter 2 (click (handleNextWord 7))
    (startSession (new_session 0) [word_of "a"; word_of "b"] StudySlice.initialState)) = false.
Proof.
  destruct (study_clicks_complete 7 (new_session 0) [word_of "a"; word_of "b"]
              StudySlice.initialState) as [_ [H _]]; [discriminate|exact H].
Defined.

Lemma home_first_visit_cannot_study_witness :
  match sys_finish InitDBWitnesses.env_offline (fun _ => None) 0 (sys_start loadWordSets sys_init) with
  | Some s1 =>
      defaultSetEffect (sys_vocab s1) = Some (loadWordsFromSet "junior-high") /\
      match sys_finish InitDBWitnesses.env_offline (fun _ => None) 0
              (sys_start (loadWordsFromSet "junior-high") s1) with
      | Some s2 => currentWordSet (sys_vocab s2) = [] /\
                   handleStartStudy 1000 (sys_vocab s2) = None
      | None => False
      end
  | None => False
  end.
Proof. apply (home_first_visit_cannot_study InitDBWitnesses.env_offline); reflexivity. Defined.

End PagesWitnesses.
