(* ===== verification/Validation.v ===== *)
(** * The validation and sanitizing helpers ([src/src/utils/validationUtils.ts])

    Each helper is a boolean or string function.  Their arguments are the
    program's partial records ([Partial<Word>], ...), whose fields are
    options, and JavaScript strings as UTF-8 byte strings.  The regular
    expressions are written out as functions on the characters of the
    string: [\s] is the white space of [JsString.v], and the time and
    e-mail patterns are decided by their structure.  [isValidNumber]
    converts an arbitrary value with [Number(value)] and is not modelled;
    [isValidDifficulty] and [isValidPartOfSpeech] are modelled on a number
    and on a string respectively.  Only the fields the helpers read or
    write are kept in the partial records: the spread of [cleanWordData]
    passes the others through unchanged. *)

From stdpp Require Import base list.
From Stdlib Require Import String Ascii ZArith QArith Lia.
From S2P Require Import Prelude Types JsString VocabularyService.

Open Scope string_scope.

(** ** Partial records *)

Record PartialDefinition := mkPartialDefinition {
  pd_id : option string;
  pd_partOfSpeech : option string;
  pd_meaning : option string;
  pd_englishDefinition : option string;
  pd_level : option Z
}.

Record PartialExample := mkPartialExample {
  pe_sentence : option string;
  pe_translation : option string;
  pe_audioUrl : option string
}.

Record PartialWord := mkPartialWord {
  pw_id : option string;
  pw_word : option string;
  pw_pronunciation : option string;
  pw_definitions : option (list PartialDefinition);
  pw_examples : option (list PartialExample);
  pw_tags : option (list string)
}.

Record PartialWordSet := mkPartialWordSet {
  pws_id : option string;
  pws_name : option string;
  pws_description : option string;
  pws_difficulty : option Z
}.

Record PartialPreferences := mkPartialPreferences {
  ppr_dailyGoal : option number;
  ppr_reviewMode : option string
}.

(** A field is truthy when present and not the empty string. *)
Definition opt_truthy (o : option string) : bool :=
  if o is Some s then js_truthy s else false.

(** ** Validators *)

Definition validateDefinition (definition : PartialDefinition) : bool :=
  opt_truthy (pd_partOfSpeech definition) && opt_truthy (pd_meaning definition).

Definition validateWord (word : PartialWord) : bool :=
  if negb (opt_truthy (pw_id word)) || negb (opt_truthy (pw_word word)) ||
     negb (opt_truthy (pw_pronunciation word)) then false
  else
    match pw_definitions word with
    | None | Some [] => false
    | Some defs => forallb validateDefinition defs
    end.

Definition validateExample (example : PartialExample) : bool :=
  opt_truthy (pe_sentence example) && opt_truthy (pe_translation example).

(** [wordSet.difficulty && Object.values(DifficultyLevel).includes(...)]:
    a difficulty of 0 is falsy. *)
Definition validateWordSet (wordSet : PartialWordSet) : bool :=
  opt_truthy (pws_id wordSet) && opt_truthy (pws_name wordSet) &&
  opt_truthy (pws_description wordSet) &&
  match pws_difficulty wordSet with
  | Some d => negb (Z.eqb d 0) && js_array_includes Z.eqb DifficultyLevel_values d
  | None => false
  end.

(** [!preferences.dailyGoal]: an absent goal, [0] and [NaN] are falsy. *)
Definition validateStudyPreferences (preferences : PartialPreferences) : bool :=
  match ppr_dailyGoal preferences with
  | None | Some JsNaN => false
  | Some (JsInf _) => false   (* [-Infinity < 1], [Infinity > 100] *)
  | Some (JsNum g) =>
      if Qeq_bool g 0 || negb (Qle_bool 1 g) || negb (Qle_bool g 100) then false
      else
        match ppr_reviewMode preferences with
        | Some m => js_truthy m && js_array_includes String.eqb ["spaced"; "random"] m
        | None => false
        end
  end.

(** [isValidNumber(value, min?, max?)] on a value that is already a
    number, where [Number(value)] is the value itself: [NaN] fails;
    [num < min] is [!(min <= num)] on finite numbers; [-Infinity] is below
    every bound and [Infinity] above every bound. *)
Definition isValidNumber (num : number) (min max : option Q) : bool :=
  match num with
  | JsNaN => false
  | JsInf true => if min is Some _ then false else true
  | JsInf false => if max is Some _ then false else true
  | JsNum q =>
      (if min is Some m then Qle_bool m q else true) &&
      (if max is Some m then Qle_bool q m else true)
  end.

Definition isValidDifficulty (difficulty : Z) : bool :=
  js_array_includes Z.eqb DifficultyLevel_values difficulty.

Definition isValidPartOfSpeech (pos : string) : bool :=
  js_array_includes String.eqb PartOfSpeech_values pos.

(** The length of a string in UTF-16 code units: a character of four
    UTF-8 bytes is a surrogate pair. *)
Definition utf16_length (s : string) : nat :=
  List.fold_right (fun c n => (if Nat.eqb (String.length c) 4 then 2 else 1) + n)%nat 0%nat
    (utf8_chars s).

Definition validateSearchQuery (query : string) : bool :=
  if negb (js_truthy query) || Nat.eqb (utf16_length (js_trim query)) 0 then false
  else negb (Nat.ltb 50 (utf16_length (js_trim query))).

(** ** Patterns *)

Definition ascii_between (lo hi : nat) (c : ascii) : bool :=
  (lo <=? nat_of_ascii c)%nat && (nat_of_ascii c <=? hi)%nat.

Definition is_digit : ascii -> bool := ascii_between 48 57.

(** [([0-1]?[0-9]|2[0-3])]. *)
Definition valid_hour (cs : list ascii) : bool :=
  match cs with
  | [d] => is_digit d
  | [a; b] => (ascii_between 48 49 a && is_digit b) || (Ascii.eqb a "2"%char && ascii_between 48 51 b)
  | _ => false
  end.

(** [[0-5][0-9]]. *)
Definition valid_minute (a b : ascii) : bool := ascii_between 48 53 a && is_digit b.

(** [/^([0-1]?[0-9]|2[0-3]):[0-5][0-9]$/.test(time)]. *)
Definition isValidTimeFormat (time : string) : bool :=
  match list_ascii_of_string time with
  | [h; c; m1; m2] => valid_hour [h] && Ascii.eqb c ":"%char && valid_minute m1 m2
  | [h1; h2; c; m1; m2] => valid_hour [h1; h2] && Ascii.eqb c ":"%char && valid_minute m1 m2
  | _ => false
  end.

(** [[^\s@]]. *)
Definition email_char (c : string) : bool := negb (is_js_whitespace c) && negb (String.eqb c "@").

(** The characters before the first ['@'], and those after it if there
    is one. *)
Fixpoint split_at_sign (cs : list string) : list string * option (list string) :=
  match cs with
  | [] => ([], None)
  | c :: cs' =>
      if String.eqb c "@" then ([], Some cs')
      else let '(l, r) := split_at_sign cs' in (c :: l, r)
  end.

(** A ['.'] neither first nor last. *)
Definition dot_inside (domain : list string) : bool :=
  match domain with
  | [] => false
  | _ :: rest => existsb (String.eqb ".") (removelast rest)
  end.

(** [/^[^\s@]+@[^\s@]+\.[^\s@]+$/.test(email)]: one ['@'] with a
    non-empty local part before it, and a domain after it that has a
    ['.'] neither first nor last. *)
Definition isValidEmail (email : string) : bool :=
  match split_at_sign (utf8_chars email) with
  | (local, Some domain) =>
      negb (bool_decide (local = [])) && forallb email_char local &&
      forallb email_char domain && dot_inside domain
  | (_, None) => false
  end.

(** ** Sanitizers *)

(** [.replace(/\s+/g, ' ')]: every run of white space becomes one space;
    [in_ws] says that the previous character was white space. *)
Fixpoint collapse_ws (in_ws : bool) (cs : list string) : list string :=
  match cs with
  | [] => []
  | c :: cs' =>
      if is_js_whitespace c then (if in_ws then collapse_ws true cs' else " " :: collapse_ws true cs')
      else c :: collapse_ws false cs'
  end.

(** [str.trim().replace(/\s+/g, ' ')]. *)
Definition sanitize_chars (cs : list string) : list string := collapse_ws false (js_trim_chars cs).

Definition sanitizeString (str : string) : string := String.concat "" (sanitize_chars (utf8_chars str)).

(** [[a-zA-Z\s-']]: a class escape next to ['-'] makes the ['-'] literal. *)
Definition word_char (c : string) : bool :=
  match c with
  | String a "" => ascii_between 97 122 a || ascii_between 65 90 a || Ascii.eqb a "-"%char ||
                   Ascii.eqb a "'"%char || is_js_whitespace c
  | _ => is_js_whitespace c
  end.

(** [word.toLowerCase().trim().replace(/[^a-zA-Z\s-']/g, '')]. *)
Definition sanitizeWord (word : string) : string :=
  String.concat "" (List.filter word_char (js_trim_chars (utf8_chars (js_toLowerCase word)))).

(** [x ? f(x) : x] on an optional string field. *)
Definition clean_field (f : string -> string) (o : option string) : option string :=
  if opt_truthy o then option_map f o else o.

Definition cleanDefinition (def : PartialDefinition) : PartialDefinition :=
  mkPartialDefinition (pd_id def) (pd_partOfSpeech def) (clean_field sanitizeString (pd_meaning def))
    (clean_field sanitizeString (pd_englishDefinition def)) (pd_level def).

Definition cleanExample (ex : PartialExample) : PartialExample :=
  mkPartialExample (clean_field sanitizeString (pe_sentence ex))
    (clean_field sanitizeString (pe_translation ex)) (pe_audioUrl ex).

Definition cleanWordData (word : PartialWord) : PartialWord :=
  mkPartialWord (pw_id word) (clean_field sanitizeWord (pw_word word)) (pw_pronunciation word)
    (option_map (List.map cleanDefinition) (pw_definitions word))
    (option_map (List.map cleanExample) (pw_examples word))
    (option_map (List.map (fun tag => js_toLowerCase (sanitizeString tag))) (pw_tags word)).

(** ** Proofs *)

Module ValidationProofs.
Local Open Scope list_scope.

(** [validateWord] accepts exactly the words with a non-empty [id],
    [word] and [pronunciation] and a non-empty list of definitions that
    are all valid (a part of speech and a meaning). *)
Theorem validateWord_iff w :
  validateWord w = true <->
  opt_truthy (pw_id w) = true /\ opt_truthy (pw_word w) = true /\
  opt_truthy (pw_pronunciation w) = true /\
  exists defs, pw_definitions w = Some defs /\ defs <> [] /\
               Forall (fun d => validateDefinition d = true) defs.
Proof.
  unfold validateWord.
  destruct (opt_truthy (pw_id w)), (opt_truthy (pw_word w)), (opt_truthy (pw_pronunciation w));
    simpl; try (split; [discriminate|intros (? & ? & ? & _); discriminate]).
  destruct (pw_definitions w) as [[|d ds]|].
  - split; [discriminate|]. intros (_ & _ & _ & defs & [= <-] & ? & _). done.
  - split.
    + intros H. repeat split. exists (d :: ds). split; [done|]. split; [done|].
      apply List.Forall_forall, forallb_forall, H.
    + intros (_ & _ & _ & defs & [= <-] & _ & H). apply forallb_forall, List.Forall_forall, H.
  - split; [discriminate|]. intros (_ & _ & _ & defs & ? & _). discriminate.
Qed.

(** C23: One invalid definition makes the whole word invalid, whatever the
    other definitions: [validateWord] requires every definition to be
    valid, not one. *)
Theorem validateWord_rejects_invalid_definition w defs d :
  pw_definitions w = Some defs -> In d defs -> validateDefinition d = false ->
  validateWord w = false.
Proof.
  intros Hw Hd Hv. destruct (validateWord w) eqn:E; [|done].
  apply validateWord_iff in E as (_ & _ & _ & defs' & Hdefs & _ & Hall).
  rewrite Hw in Hdefs. injection Hdefs as <-.
  apply List.Forall_forall with (x := d) in Hall; [congruence|exact Hd].
Qed.


(** *** sanitizeString *)

Lemma space_is_ws : is_js_whitespace " " = true.
Proof. reflexivity. Qed.

Lemma collapse_ws_idem b cs : collapse_ws b (collapse_ws b cs) = collapse_ws b cs.
Proof.
  revert b. induction cs as [|c cs IH]; intros b; [done|]. simpl.
  destruct (is_js_whitespace c) eqn:Ec; [destruct b|]; simpl.
  - apply IH.
  - rewrite ?space_is_ws. f_equal. apply IH.
  - rewrite Ec. f_equal. apply IH.
Qed.

Lemma collapse_ws_snoc b cs x :
  is_js_whitespace x = false -> collapse_ws b (cs ++ [x]) = collapse_ws b cs ++ [x].
Proof.
  intros Hx. revert b. induction cs as [|c cs IH]; intros b; simpl; [by rewrite Hx|].
  destruct (is_js_whitespace c); [destruct b|]; simpl; by rewrite IH.
Qed.

Lemma collapse_ws_head cs :
  (forall x, head cs = Some x -> is_js_whitespace x = false) ->
  forall x, head (collapse_ws false cs) = Some x -> is_js_whitespace x = false.
Proof.
  destruct cs as [|c cs]; [done|]. intros H. simpl. rewrite (H c eq_refl). simpl.
  intros x [= <-]. by apply H.
Qed.

Lemma collapse_ws_last b cs :
  (forall x, last cs = Some x -> is_js_whitespace x = false) ->
  forall x, last (collapse_ws b cs) = Some x -> is_js_whitespace x = false.
Proof.
  destruct cs as [|y cs _] using rev_ind; [done|]. intros H.
  rewrite last_snoc in H. specialize (H y eq_refl).
  rewrite collapse_ws_snoc, last_snoc by done. by intros x [= <-].
Qed.

Lemma sanitize_chars_idem cs : sanitize_chars (sanitize_chars cs) = sanitize_chars cs.
Proof.
  unfold sanitize_chars. destruct (js_trim_chars_ends cs) as [Hh Hl].
  rewrite (js_trim_chars_id (collapse_ws false (js_trim_chars cs))).
  - apply collapse_ws_idem.
  - by apply collapse_ws_head.
  - by apply collapse_ws_last.
Qed.

Lemma Forall_js_trim_chars (P : string -> Prop) cs : Forall P cs -> Forall P (js_trim_chars cs).
Proof.
  intros H. unfold js_trim_chars. apply Forall_rev.
  destruct (drop_ws_suffix (rev (drop_ws cs))) as [p Hp].
  assert (H' : Forall P (rev (drop_ws cs))).
  { apply Forall_rev. destruct (drop_ws_suffix cs) as [q Hq]. rewrite Hq in H.
    by apply Forall_app in H as [_ ?]. }
  rewrite Hp in H'. by apply Forall_app in H' as [_ ?].
Qed.

Lemma Forall_collapse_ws (P : string -> Prop) b cs :
  P " " -> Forall P cs -> Forall P (collapse_ws b cs).
Proof.
  intros Hs H. revert b. induction H as [|c cs Hc _ IH]; intros b; simpl; [constructor|].
  destruct (is_js_whitespace c); [destruct b|]; auto.
Qed.

(** [sanitizeString] is idempotent on well-formed text: sanitizing a
    sanitized string changes nothing. *)
Theorem sanitizeString_idempotent s :
  Forall wf_char (utf8_chars s) -> sanitizeString (sanitizeString s) = sanitizeString s.
Proof.
  intros Hs. unfold sanitizeString. rewrite utf8_roundtrip.
  - by rewrite sanitize_chars_idem.
  - apply Forall_collapse_ws; [reflexivity|]. by apply Forall_js_trim_chars.
Qed.


(** *** sanitizeWord *)

(** The characters [sanitizeWord] may keep. *)
Definition kept_char (c : string) : Prop :=
  (exists a, c = String a "" /\
     ((97 <= nat_of_ascii a <= 122)%nat \/ a = "-"%char \/ a = "'"%char)) \/
  is_js_whitespace c = true.

Lemma word_char_single a :
  word_char (String a "") = true ->
  (97 <= nat_of_ascii a <= 122)%nat \/ (65 <= nat_of_ascii a <= 90)%nat \/ a = "-"%char \/
  a = "'"%char \/ is_js_whitespace (String a "") = true.
Proof.
  unfold word_char, ascii_between. intros H.
  apply orb_true_iff in H as [H|H]; [|by do 4 right].
  apply orb_true_iff in H as [H|H]; [|do 3 right; left; by apply Ascii.eqb_eq].
  apply orb_true_iff in H as [H|H]; [|do 2 right; left; by apply Ascii.eqb_eq].
  apply orb_true_iff in H as [H|H]; apply andb_true_iff in H as [H1 H2];
    apply Nat.leb_le in H1, H2; [left|right; left]; lia.
Qed.

Lemma word_char_lower c : word_char (js_toLowerCase c) = true -> kept_char (js_toLowerCase c).
Proof.
  destruct c as [|a [|b r]]; intros H; [by right| |right; exact H].
  cbn [js_toLowerCase] in *. pose proof (ascii_lower_not_upper a) as Hu.
  apply word_char_single in H as [H|[H|[H|[H|H]]]]; [| |..|by right]; try lia;
    left; eexists; (split; [done|]); auto.
Qed.

Lemma Forall_List_filter {A} (P : A -> Prop) f l : Forall P l -> Forall P (List.filter f l).
Proof. induction 1; simpl; [constructor|]. destruct (f x); auto. Qed.

(** C32: Every character of a sanitized word is a lower-case ASCII letter,
    white space, ['-'] or ['\'']: upper-case letters are lowered, and
    everything else (digits, punctuation, accented and non-Latin letters)
    is removed. *)
Theorem sanitizeWord_charset w :
  Forall wf_char (utf8_chars w) -> Forall kept_char (utf8_chars (sanitizeWord w)).
Proof.
  intros Hw. unfold sanitizeWord. rewrite utf8_chars_lower.
  assert (Hl : Forall wf_char (List.map js_toLowerCase (utf8_chars w)))
    by (apply Forall_map; eapply Forall_impl; [exact Hw|apply wf_char_lower]).
  rewrite utf8_roundtrip by (apply Forall_List_filter, Forall_js_trim_chars, Hl).
  assert (Hk : Forall (fun c => exists c0, c = js_toLowerCase c0)
                 (js_trim_chars (List.map js_toLowerCase (utf8_chars w))))
    by (apply Forall_js_trim_chars, Forall_map, Forall_forall; eauto).
  apply List.Forall_forall. intros c Hc. apply List.filter_In in Hc as [Hc Hwc].
  apply (proj1 (List.Forall_forall _ _) Hk) in Hc as [c0 ->]. by apply word_char_lower.
Qed.


(** *** isValidTimeFormat *)

(** The ASCII digit of [n < 10]. *)
Definition digit (n : nat) : ascii := ascii_of_nat (48 + n).

(** [HH:MM] with two-digit hours, and [H:MM] with one. *)
Definition hhmm (h m : nat) : string :=
  string_of_list_ascii [digit (h / 10); digit (h mod 10); ":"%char; digit (m / 10); digit (m mod 10)].

Definition hmm (h m : nat) : string :=
  string_of_list_ascii [digit h; ":"%char; digit (m / 10); digit (m mod 10)].

Lemma ascii_between_spec lo hi c :
  ascii_between lo hi c = true <-> (lo <= nat_of_ascii c <= hi)%nat.
Proof. unfold ascii_between. rewrite andb_true_iff, !Nat.leb_le. done. Qed.

Lemma nat_of_digit k : (k < 208)%nat -> nat_of_ascii (digit k) = (48 + k)%nat.
Proof. intros Hk. unfold digit. apply nat_ascii_embedding. lia. Qed.

Lemma ascii_between_digit lo hi k :
  (lo <= 48 + k <= hi)%nat -> (hi < 256)%nat -> ascii_between lo hi (digit k) = true.
Proof. intros H1 H2. apply ascii_between_spec. rewrite nat_of_digit by lia. lia. Qed.

Lemma ascii_between_digit_inv lo hi c :
  ascii_between lo hi c = true -> (48 <= lo)%nat -> exists n, c = digit n /\ (lo <= 48 + n <= hi)%nat.
Proof.
  intros Hc%ascii_between_spec Hlo. exists (nat_of_ascii c - 48)%nat. split; [|lia].
  unfold digit. replace (48 + (nat_of_ascii c - 48))%nat with (nat_of_ascii c) by lia.
  by rewrite ascii_nat_embedding.
Qed.

Lemma digits_div_mod b c : (c < 10)%nat -> ((10 * b + c) / 10 = b /\ (10 * b + c) mod 10 = c)%nat.
Proof.
  intros Hc. split; symmetry; [apply (Nat.div_unique _ _ _ c)|apply (Nat.mod_unique _ _ b)]; lia.
Qed.

Lemma valid_hour_digit h : (h <= 9)%nat -> valid_hour [digit h] = true.
Proof. intros Hh. do 10 (destruct h as [|h]; [reflexivity|]). lia. Qed.

Lemma valid_hour_digits h : (h <= 23)%nat -> valid_hour [digit (h / 10); digit (h mod 10)] = true.
Proof. intros Hh. do 24 (destruct h as [|h]; [reflexivity|]). lia. Qed.

Lemma valid_minute_digits m : (m <= 59)%nat -> valid_minute (digit (m / 10)) (digit (m mod 10)) = true.
Proof. intros Hm. do 60 (destruct m as [|m]; [reflexivity|]). lia. Qed.

(** The hours [valid_hour] accepts in two digits. *)
Lemma valid_hour_two_inv h1 x :
  valid_hour [h1; x] = true ->
  exists a b, h1 = digit a /\ x = digit b /\ (b < 10 /\ 10 * a + b <= 23)%nat.
Proof.
  cbn [valid_hour is_digit]. intros [[Ha Hb]%andb_true_iff|[Ha Hb]%andb_true_iff]%orb_true_iff.
  - destruct (ascii_between_digit_inv _ _ _ Ha ltac:(lia)) as (a & -> & ?).
    destruct (ascii_between_digit_inv _ _ _ Hb ltac:(lia)) as (b & -> & ?).
    exists a, b. split; [done|]. split; [done|]. lia.
  - apply Ascii.eqb_eq in Ha as ->. destruct (ascii_between_digit_inv _ _ _ Hb ltac:(lia)) as (b & -> & ?).
    exists 2%nat, b. split; [reflexivity|]. split; [done|]. lia.
Qed.

(** C8: [isValidTimeFormat] accepts exactly the times [H:MM] (an hour
    0-9) and [HH:MM] (an hour 00-23), minutes 00-59. *)
Theorem isValidTimeFormat_iff t :
  isValidTimeFormat t = true <->
  exists h m, (h <= 23 /\ m <= 59)%nat /\ (t = hhmm h m \/ (h <= 9 /\ t = hmm h m))%nat.
Proof.
  unfold isValidTimeFormat. split.
  - pose proof (string_of_list_ascii_of_string t) as Ht. revert Ht.
    destruct (list_ascii_of_string t) as [|h1 [|x [|y [|z [|w [|? ?]]]]]]; intros Ht;
      try discriminate; subst t;
      intros [[Hh Hc]%andb_true_iff [Hm1 Hm2]%andb_true_iff]%andb_true_iff;
      cbn [is_digit] in Hm2;
      destruct (ascii_between_digit_inv _ _ _ Hm1 ltac:(lia)) as (c & -> & ?);
      destruct (ascii_between_digit_inv _ _ _ Hm2 ltac:(lia)) as (d & -> & ?);
      apply Ascii.eqb_eq in Hc as ->; destruct (digits_div_mod c d ltac:(lia)) as [Ec Ed].
    + cbn [valid_hour is_digit] in Hh. destruct (ascii_between_digit_inv _ _ _ Hh ltac:(lia)) as (a & -> & ?).
      exists a, (10 * c + d)%nat. split; [lia|]. right. split; [lia|]. unfold hmm. by rewrite Ec, Ed.
    + destruct (valid_hour_two_inv _ _ Hh) as (a & b & -> & -> & Hb & Hab).
      destruct (digits_div_mod a b) as [Ea Eb]; [lia|].
      exists (10 * a + b)%nat, (10 * c + d)%nat. split; [lia|]. left. unfold hhmm.
      by rewrite Ea, Eb, Ec, Ed.
  - intros (h & m & [Hh Hm] & [->|[Hh9 ->]]); unfold hhmm, hmm;
      rewrite list_ascii_of_string_of_list_ascii; lazy beta iota;
      rewrite ?valid_hour_digits, ?valid_hour_digit, valid_minute_digits by lia; reflexivity.
Qed.

End ValidationProofs.

Module ValidationWitnesses.
Import ValidationProofs.

Definition def_ok : PartialDefinition := mkPartialDefinition (Some "d1") (Some "n.") (Some "apple") None None.
Definition def_bad : PartialDefinition := mkPartialDefinition (Some "d2") (Some "v.") None None None.

Definition apple : PartialWord :=
  mkPartialWord (Some "w1") (Some "apple") (Some "/ap/") (Some [def_ok; def_bad]) None None.

(** A word with one valid and one invalid definition is rejected. *)
Lemma validateWord_rejects_invalid_definition_witness : validateWord apple = false.
Proof. apply (validateWord_rejects_invalid_definition apple [def_ok; def_bad] def_bad); simpl; auto. Defined.

Lemma sanitizeWord_charset_witness : Forall kept_char (utf8_chars (sanitizeWord " Don't-Stop 2! ")).
Proof. apply sanitizeWord_charset. vm_compute. repeat constructor. Defined.

Lemma isValidTimeFormat_iff_witness : isValidTimeFormat "9:05" = true /\ isValidTimeFormat "23:59" = true.
Proof.
  split; apply isValidTimeFormat_iff; [exists 9%nat, 5%nat|exists 23%nat, 59%nat];
    (split; [lia|]); [right; split; [lia|]|left]; reflexivity.
Defined.

End ValidationWitnesses.
