(* ===== verification/Store.v ===== *)
(** * The Redux store ([src/src/store/index.ts]) and the home page's
    database buttons ([src/src/pages/Home/HomePage.tsx])

    [configureStore] combines the four slice reducers under the keys
    [vocabulary], [study], [test] and [user]: every dispatched action goes
    to every slice reducer, and a slice returns its state unchanged on an
    action type it has no case for.  The action type is the tagged union
    [root_action] of the slices' actions, and [rootReducer] runs the four
    reducers side by side.  The store also holds the vocabulary thunks in
    flight and the state of the shared service, as [VocabSystem] of
    [VocabularySlice.v] does; [store_step] is one event of the running
    application: a plain dispatch, a thunk started, a thunk settled, or
    the home page's "reset database" button.  The serializability
    middleware only inspects actions and is not modelled. *)

From stdpp Require Import base list relations.
From Stdlib Require Import String ZArith QArith Lia.
From S2P Require Import Prelude Types IndexedDB InitDB VocabularyService PopularTags StudySlice TestSlice UserSlice VocabularySlice.

Record RootState := mkRootState {
  vocabulary : VocabState;
  study : StudyState;
  test : TestState;
  user : UserState
}.

Inductive root_action :=
| VocabularyAction (a : vocab_action)
| StudyAction (a : study_action)
| TestAction (a : test_action)
| UserAction (a : user_action).

(** The slice reducers as [combineReducers] calls them. *)
Definition vocabulary_slice (st : VocabState) (a : root_action) : VocabState :=
  if a is VocabularyAction a' then vocab_reducer st a' else st.
Definition study_slice (st : StudyState) (a : root_action) : StudyState :=
  if a is StudyAction a' then study_reducer st a' else st.
Definition test_slice (st : TestState) (a : root_action) : TestState :=
  if a is TestAction a' then test_reducer st a' else st.
Definition user_slice (st : UserState) (a : root_action) : UserState :=
  if a is UserAction a' then user_reducer st a' else st.

Definition rootReducer (st : RootState) (a : root_action) : RootState :=
  mkRootState (vocabulary_slice (vocabulary st) a) (study_slice (study st) a)
    (test_slice (test st) a) (user_slice (user st) a).

Definition root_initialState : RootState :=
  mkRootState vocab_initialState StudySlice.initialState test_initialState user_initialState.

(** ** The running store *)

Record ReduxStore := mkStore {
  store_vocab : VocabSystem;
  store_study : StudyState;
  store_test : TestState;
  store_user : UserState
}.

Definition getState (s : ReduxStore) : RootState :=
  mkRootState (sys_vocab (store_vocab s)) (store_study s) (store_test s) (store_user s).

Definition store_init : ReduxStore :=
  mkStore sys_init StudySlice.initialState test_initialState user_initialState.

(** [store.dispatch(action)]: the root reducer on the slices, the thunks
    in flight and the service untouched. *)
Definition dispatch (a : root_action) (s : ReduxStore) : ReduxStore :=
  let st := rootReducer (getState s) a in
  mkStore (mkVocabSystem (vocabulary st) (sys_service (store_vocab s)) (inflight (store_vocab s)))
    (study st) (test st) (user st).

Definition with_vocab (v : VocabSystem) (s : ReduxStore) : ReduxStore :=
  mkStore v (store_study s) (store_test s) (store_user s).

(** [store.dispatch(thunk(arg))] and the settling of a thunk in flight. *)
Definition dispatch_thunk (c : thunk_call) (s : ReduxStore) : ReduxStore :=
  with_vocab (sys_start c (store_vocab s)) s.

Definition settle_thunk (env : Env) (msg : exn -> option string) (i : nat) (s : ReduxStore)
    : option ReduxStore :=
  option_map (fun v => with_vocab v s) (sys_finish env msg i (store_vocab s)).

Definition with_service (vs : VSState) (s : ReduxStore) : ReduxStore :=
  with_vocab (mkVocabSystem (sys_vocab (store_vocab s)) vs (inflight (store_vocab s))) s.

(** [HomePage.checkDatabaseStatus]: the status the page stores with
    [setDbStatus], none when the read rejects (the page then only logs). *)
Definition home_checkDatabaseStatus (s : ReduxStore) : option DatabaseStatus * ReduxStore :=
  let '(r, vs') := lift_init getDatabaseStatus (sys_service (store_vocab s)) in
  (if r is Ok st then Some st else None, with_service vs' s).

(** [HomePage.resetDatabase]: [await dbInitializer.resetDatabase()], then
    [dispatch(loadWordSets())] and [await checkDatabaseStatus()], with the
    status the page then stores; on a rejection of the reset the page only
    shows an alert. *)
Definition home_resetDatabase (env : Env) (s : ReduxStore) : option DatabaseStatus * ReduxStore :=
  let '(r, vs') := lift_init (InitDB.resetDatabase env) (sys_service (store_vocab s)) in
  match r with
  | Ok _ => home_checkDatabaseStatus (dispatch_thunk loadWordSets (with_service vs' s))
  | Err _ => (None, with_service vs' s)
  end.


Inductive store_step : ReduxStore -> ReduxStore -> Prop :=
| step_dispatch a s : store_step s (dispatch a s)
| step_thunk c s : store_step s (dispatch_thunk c s)
| step_settle env msg i s s' : settle_thunk env msg i s = Some s' -> store_step s s'
| step_reset env s : store_step s (home_resetDatabase env s).2.

(** ** Proofs *)

Module StoreProofs.
Import StudySliceProofs TestSliceProofs IndexedDBProofs InitDBProofs VocabularyServiceProofs.

(** The invariant of the whole application state: the study and test
    slices' invariants and the database manager's, on the shared state. *)
Definition store_inv (s : ReduxStore) : Prop :=
  study_inv (store_study s) /\ test_inv (store_test s) /\ vs_wf (sys_service (store_vocab s)).

Lemma getPopularTags_wf env : st_preserves vs_wf (getPopularTags env).
Proof.
  unfold getPopularTags. apply st_bind_preserves; [apply ensureInitialized_wf|intros _].
  apply st_bind_preserves; [apply call_db_wf, getAll_wf|intros ?; apply st_ret_preserves].
Qed.

Lemma run_state_wf env c vs : vs_wf vs -> vs_wf (run_vs_call env c vs).
Proof. apply vocabularyService_preserves_wf. Qed.

Lemma thunk_body_wf env msg c : st_preserves vs_wf (thunk_body env msg c).
Proof.
  intros vs Hvs. destruct c as [|setId|q f|]; simpl.
  - pose proof (run_state_wf env CallGetWordSets vs Hvs) as H. unfold run_vs_call, run_state in H.
    by destruct (getWordSets env vs).
  - pose proof (run_state_wf env (CallGetWordsFromSet setId) vs Hvs) as H.
    unfold run_vs_call, run_state in H. by destruct (getWordsFromSet env setId vs).
  - pose proof (run_state_wf env (CallSearchWords q f) vs Hvs) as H.
    unfold run_vs_call, run_state in H. by destruct (VocabularyService.searchWords env q f vs).
  - pose proof (getPopularTags_wf env vs Hvs) as H. by destruct (getPopularTags env vs).
Qed.

Lemma lift_init_wf {A} (c : IM A) : st_preserves initializer_wf c -> st_preserves vs_wf (lift_init c).
Proof. apply (lift_init_preserves initializer_wf). Qed.

Lemma store_init_inv : store_inv store_init.
Proof.
  split; [|split]; [unfold study_inv; simpl|unfold test_inv; simpl|split; discriminate].
  - split; [lia|split; [by right|done]].
  - split; [lia|]. split; [by left|]. split; [constructor|done].
Qed.

Lemma dispatch_inv a s : store_inv s -> store_inv (dispatch a s).
Proof.
  intros (Hs & Ht & Hv). destruct a; (split; [|split]); simpl; auto using study_reducer_inv, test_reducer_inv.
Qed.

Lemma dispatch_thunk_inv c s : store_inv s -> store_inv (dispatch_thunk c s).
Proof. done. Qed.

Lemma settle_thunk_inv env msg i s s' : settle_thunk env msg i s = Some s' -> store_inv s -> store_inv s'.
Proof.
  unfold settle_thunk, sys_finish. destruct (inflight (store_vocab s) !! i) as [c|]; [|done].
  pose proof (thunk_body_wf env msg c (sys_service (store_vocab s))) as Hwf.
  destruct (thunk_body env msg c (sys_service (store_vocab s))) as [[a|e] vs']; [|done].
  intros [= <-] (? & ? & ?). split; [|split]; auto.
Qed.

Lemma checkDatabaseStatus_inv s : store_inv s -> store_inv (home_checkDatabaseStatus s).2.
Proof.
  unfold home_checkDatabaseStatus. intros (? & ? & Hv).
  pose proof (lift_init_wf _ getDatabaseStatus_wf _ Hv) as Hwf.
  destruct (lift_init getDatabaseStatus (sys_service (store_vocab s))). by split; [|split].
Qed.

Lemma reset_inv env s : store_inv s -> store_inv (home_resetDatabase env s).2.
Proof.
  unfold home_resetDatabase. intros (? & ? & Hv).
  pose proof (lift_init_wf _ (resetDatabase_wf env) _ Hv) as Hwf.
  destruct (lift_init (InitDB.resetDatabase env) (sys_service (store_vocab s))) as [[u|e] vs'];
    [apply checkDatabaseStatus_inv|]; by split; [|split].
Qed.

Lemma store_step_inv s s' : store_step s s' -> store_inv s -> store_inv s'.
Proof.
  destruct 1; eauto using dispatch_inv, dispatch_thunk_inv, settle_thunk_inv, reset_inv.
Qed.

(** Every state of the running application, reached from the store's
    initial state by any interleaving of dispatched actions, thunks
    started and settled in any environment, and database resets from the
    home page, keeps the study slice's cursor on its word list, the test
    slice's cursor on its test with a well-formed answers object, and the
    database manager's invariant on the shared service state. *)
Theorem store_reachable_inv s : rtc store_step store_init s -> store_inv s.
Proof.
  intros H. apply (rtc_ind_r (R:=store_step) (fun s => store_inv s) store_init); [apply store_init_inv| |exact H].
  intros y z _ Hyz Hy. exact (store_step_inv y z Hyz Hy).
Qed.

End StoreProofs.

Module StoreWitnesses.
Import StoreProofs.

(** Start [loadWordSets], move the study cursor, then press "reset". *)
Definition three_events : ReduxStore :=
  (home_resetDatabase InitDBWitnesses.env_offline
    (dispatch (StudyAction NextWord) (dispatch_thunk loadWordSets store_init))).2.

Lemma store_reachable_inv_witness : rtc store_step store_init three_events /\ store_inv three_events.
Proof.
  assert (H : rtc store_step store_init three_events).
  { apply (rtc_l _ _ (dispatch_thunk loadWordSets store_init)); [apply step_thunk|].
    apply (rtc_l _ _ (dispatch (StudyAction NextWord) (dispatch_thunk loadWordSets store_init)));
      [apply step_dispatch|].
    apply rtc_once, step_reset. }
  split; [exact H|exact (store_reachable_inv _ H)].
Defined.

End StoreWitnesses.
