(* ===== verification/App.v ===== *)
(** * The application shell and the pages as a user interface
    ([src/src/App.tsx], [src/src/components/common/Navigation.tsx],
    [src/src/pages/*/*.tsx])

    The running application is the store of [Store.v], the route shown
    by the router, and the local state of the mounted page ([dbStatus] of
    [HomePage], [showDefinition] of [StudyPage]).  What the page on screen
    renders is a function of these ([HomePage_view], [StudyPage_view] with
    its [word_card], [SettingsPage_view], [TestPage_view],
    [ProgressPage_view]), and the home page's buttons are those of its
    view; what a user can do is an event
    [ui_event]: a click on a link of the navigation bar or on a button the
    current page renders (enabled), a change of a settings control, or a
    thunk settling in the background.  A control hands its [onChange]
    only what it can hold: one of the select's options, either state of a
    checkbox, and any text for the number field (a superset of the valid
    numbers and the empty text a number input delivers).  Mounting a page
    runs its effects: [HomePage] dispatches [loadWordSets()] and reads the
    database status, [StudyPage] sends the user home when no session is
    active.  A handler of [StudyPage] ([page_effect] of [Pages.v]) runs on
    the mounted page ([run_study_handler]): its dispatches, its
    [setShowDefinition], its [navigate]; the page stays mounted unless it
    navigates, and its effect on [isSessionActive] then sends an ended
    session home.  The effect of [App] runs once, after the effects of
    the page it mounts (React runs a child's effects first).

    The default-word-set effect of [HomePage] runs after a render in
    which [wordSets] or [currentWordSet.length] changed; the model lets it
    run at any step on the home page, which over-approximates the runs
    the program makes, so the invariants below hold a fortiori.
    The daily-goal field's text goes through [js_parseInt] of
    [JsNumber.v], so an empty field stores [NaN] as the code does. *)

From stdpp Require Import base list relations pretty.
From Stdlib Require Import String ZArith QArith Lia.
From S2P Require Import Prelude Types JsNumber IndexedDB InitDB VocabularyService StudySlice TestSlice UserSlice VocabularySlice Pages Validation Store.

Open Scope string_scope.

(** ** [App] *)

(** [dispatch(initializeUser({ id: 'user-' + Date.now() }))]. *)
Definition app_effect (now : Z) : root_action :=
  UserAction (InitializeUser (String.append "user-" (pretty now))).

(** ** [SettingsPage] *)

(** The four controls and what each passes to
    [handlePreferenceChange(key, value)]: the text of the daily-goal
    field, the selected option, the state of a checkbox. *)
Inductive preference_change :=
| DailyGoalInput (text : string)
| ReviewModeSelect (m : string)
| EnableAudioCheck (b : bool)
| AutoPlayCheck (b : bool).

(** [dispatch(updatePreferences({ [key]: value }))]: a patch with one key. *)
Definition handlePreferenceChange (c : preference_change) : user_action :=
  UpdatePreferences
    match c with
    | DailyGoalInput text => mkPreferencesPatch (Some (js_parseInt text)) None None None None None None None
    | ReviewModeSelect m => mkPreferencesPatch None (Some m) None None None None None None
    | EnableAudioCheck b => mkPreferencesPatch None None None (Some b) None None None None
    | AutoPlayCheck b => mkPreferencesPatch None None None None (Some b) None None None
    end.

(** The values a control can hand to its [onChange]: any text of the
    field, one of the select's options, either state of a checkbox. *)
Definition reviewMode_options : list string := ["spaced"; "random"].

Definition control_delivers (c : preference_change) : bool :=
  if c is ReviewModeSelect m then existsb (String.eqb m) reviewMode_options else true.

(** What the page renders: the [value] the number field receives (the
    text the field then holds is the browser's and React's, and is not
    modelled), the option the select shows, the two checkboxes. *)
Record settings_view := mkSettingsView {
  sv_dailyGoal : number;
  sv_reviewMode : string;
  sv_enableAudio : bool;
  sv_autoPlay : bool
}.

(** A controlled select shows its value, or its first option when the
    value is none of them. *)
Definition select_shown (options : list string) (v : string) : string :=
  if existsb (String.eqb v) options then v else default "" (head options).

Definition SettingsPage_view (p : StudyPreferences) : settings_view :=
  mkSettingsView (p_dailyGoal p) (select_shown reviewMode_options (p_reviewMode p))
    (p_enableAudio p) (p_autoPlay p).

(** The preferences as the [Partial<StudyPreferences>] the validator takes. *)
Definition preferences_partial (p : StudyPreferences) : PartialPreferences :=
  mkPartialPreferences (Some (p_dailyGoal p)) (Some (p_reviewMode p)).

(** The goals [validateStudyPreferences] rejects: [NaN], the
    infinities, and finite values outside [1, 100]. *)
Definition goal_out_of_range (n : number) : Prop :=
  match n with
  | JsNaN | JsInf _ => True
  | JsNum q => (q < 1 \/ 100 < q)%Q
  end.

(** ** What the pages render *)

(** [StudyPage]: the loading placeholder, or the card with the position,
    the progress bar, the word, and whether "next" reads "done". *)
Inductive study_view :=
| StudyLoading
| StudyCard (position total : Z) (progress : Q) (word : Word) (last : bool).

Definition StudyPage_view (st : StudyState) : study_view :=
  match isSessionActive st, currentWord st with
  | true, Some w =>
      let n := Z.of_nat (List.length (wordsInSession st)) in
      StudyCard (currentIndex st + 1) n (sessionProgress st) w (Z.eqb (currentIndex st) (n - 1))
  | _, _ => StudyLoading
  end.

(** The word card of [StudyPage]: the word and its pronunciation, then,
    when [showDefinition] is set, each definition's part of speech and
    meaning and, when the word has examples, each example's sentence and
    translation; otherwise the hint to click the card. *)
Inductive card_face :=
| CardHint (word pronunciation : string)
| CardRevealed (word pronunciation : string) (meanings : list (string * string))
    (examples : option (list (string * string))).

Definition word_card (w : Word) (showDefinition : bool) : card_face :=
  if showDefinition then
    CardRevealed (w_word w) (w_pronunciation w)
      (map (fun d => (d_partOfSpeech d, d_meaning d)) (w_definitions w))
      (if (0 <? List.length (w_examples w))%nat
       then Some (map (fun ex => (ex_sentence ex, ex_translation ex)) (w_examples w)) else None)
  else CardHint (w_word w) (w_pronunciation w).

(** [TestPage]: the choice of a test type (three buttons without a
    handler), a running test, or the loading placeholder. *)
Inductive test_view := TestStart | TestQuestion (position total : Z) | TestLoading.

Definition TestPage_view (st : TestState) : test_view :=
  if negb (isTestActive st) then TestStart
  else match currentTest st with
       | Some t => TestQuestion (currentQuestion st + 1) (Z.of_nat (List.length (t_questions t)))
       | None => TestLoading
       end.

(** [ProgressPage]: hours of study, accuracy, streak, mastered words, and
    one bar per entry of [weeklyProgress] with its height in pixels and
    its weekday label ([undefined] past the seventh). *)
Definition weekday_labels : list string := ["周一"; "周二"; "周三"; "周四"; "周五"; "周六"; "周日"].

Record progress_view := mkProgressView {
  pv_hours : Z;
  pv_accuracy : Q;
  pv_streak : Z;
  pv_mastered : Z;
  pv_bars : list (Z * option string)
}.

Definition ProgressPage_view (ps : ProgressStats) : progress_view :=
  mkProgressView (ps_totalStudyTime ps / 60)%Z (ps_averageAccuracy ps) (ps_studyStreak ps)
    (ps_masteredWords ps)
    (imap (fun i count => (Z.max (count * 10) 5, weekday_labels !! i))%Z (ps_weeklyProgress ps)).

(** [HomePage] shows only a loading placeholder while the first
    [loadWordSets] runs. *)
Definition home_loading_view (v : VocabState) : bool :=
  loading v && Nat.eqb (List.length (wordSets v)) 0.

(** The label of a word set's difficulty on its card. *)
Definition difficulty_label (d : Z) : string :=
  if Z.eqb d 1 then "初中" else if Z.eqb d 2 then "高中" else if Z.eqb d 3 then "四级"
  else if Z.eqb d 4 then "六级" else "专家".

Record word_set_card := mkWordSetCard {
  card_id : string;
  card_name : string;
  card_description : string;
  card_wordCount : Z;
  card_difficulty : string
}.

Definition word_set_card_of (ws : WordSet) : word_set_card :=
  mkWordSetCard (ws_id ws) (ws_name ws) (ws_description ws) (ws_wordCount ws)
    (difficulty_label (ws_difficulty ws)).

(** [HomePage] once loaded: words studied, words mastered and days of
    study from [progress]; a card per word set (none when there is no
    set); the number of words loaded, when there are any; the database
    status with the reset button, when [dbStatus] is set; whether "start
    studying" is enabled.  [None] is the loading placeholder. *)
Record home_view := mkHomeView {
  hv_stats : Z * Z * Z;
  hv_cards : list word_set_card;
  hv_loaded : option nat;
  hv_dbStatus : option (nat * nat);
  hv_startEnabled : bool
}.

Definition HomePage_view (ps : ProgressStats) (v : VocabState) (dbStatus : option DatabaseStatus)
    : option home_view :=
  if home_loading_view v then None
  else Some (mkHomeView (ps_totalWordsStudied ps, ps_masteredWords ps, ps_studyStreak ps)
               (map word_set_card_of (wordSets v))
               (if (0 <? List.length (currentWordSet v))%nat then Some (List.length (currentWordSet v)) else None)
               (option_map (fun st => (wordsCount st, wordSetsCount st)) dbStatus)
               (negb (Nat.eqb (List.length (currentWordSet v)) 0))).

(** ** The running application *)

(** The routes of [App] and the links of [Navigation]. *)
Inductive route := RHome | RStudy | RTest | RProgress | RSettings.

#[export] Instance route_eq_dec : EqDecision route.
Proof. solve_decision. Defined.

(** [ui_dbStatus] and [ui_showDefinition] are the local state of
    [HomePage] and [StudyPage]: [null] and [false], the values [useState]
    starts from, while the page is not mounted. *)
Record UI := mkUI {
  ui_store : ReduxStore;
  ui_route : route;
  ui_dbStatus : option DatabaseStatus;
  ui_showDefinition : bool
}.

(** Mounting [HomePage]: [dbStatus] starts [null], then the mount effect
    dispatches [loadWordSets()] and stores the status it reads. *)
Definition home_mount (s : ReduxStore) : UI :=
  let '(status, s') := home_checkDatabaseStatus (dispatch_thunk loadWordSets s) in
  mkUI s' RHome status false.

(** Showing a route ([navigate(path)] or a link): [StudyPage]'s effect
    sends the user home at once when no session is active.  A link to
    the route on screen leaves the page mounted with its state. *)
Definition show (r : route) (s : ReduxStore) : UI :=
  match r with
  | RHome => home_mount s
  | RStudy => if isSessionActive (store_study s) then mkUI s RStudy None false else home_mount s
  | _ => mkUI s r None false
  end.

(** A sequence of dispatches of one handler. *)
Definition dispatch_list (acts : list root_action) (s : ReduxStore) : ReduxStore :=
  fold_left (fun s a => dispatch a s) acts s.

(** The paths of [App]'s [Routes]. *)
Definition path_route (p : string) : option route :=
  if String.eqb p "/" then Some RHome
  else if String.eqb p "/study" then Some RStudy
  else if String.eqb p "/test" then Some RTest
  else if String.eqb p "/progress" then Some RProgress
  else if String.eqb p "/settings" then Some RSettings
  else None.

(** Running a handler of the mounted [StudyPage]: its dispatches, its
    [setShowDefinition], its [navigate], which mounts the page of another
    route (the handlers only navigate to ['/']).  A page that stays
    mounted re-renders with its state, and its effect then sends the user
    home when the session is no longer active. *)
Definition run_study_handler (pe : page_effect) (u : UI) : UI :=
  let s := dispatch_list (map StudyAction (pe_dispatch pe)) (ui_store u) in
  let stay :=
    if isSessionActive (store_study s)
    then mkUI s RStudy (ui_dbStatus u) (default (ui_showDefinition u) (pe_showDefinition pe))
    else show RHome s in
  match pe_navigate pe with
  | Some p =>
      match path_route p with
      | Some r => if decide (r = RStudy) then stay else show r s
      | None => stay
      end
  | None => stay
  end.

Inductive ui_event :=
| NavLink (r : route)
| HomeSelectSet (setId : string)
| HomeDefaultEffect
| HomeStartStudy (now : Z)
| HomeReset (env : Env)
| StudyNext (now : Z)
| StudyPrevious
| StudyEnd (now : Z)
| StudyToggle
| SettingsChange (c : preference_change)
| ThunkSettles (env : Env) (msg : exn -> option string) (i : nat).

(** The study card is on screen. *)
Definition study_card_shown (u : UI) : bool :=
  match ui_route u, StudyPage_view (store_study (ui_store u)) with
  | RStudy, StudyCard _ _ _ _ _ => true
  | _, _ => false
  end.

(** What the card shows. *)
Definition study_card_face (u : UI) : option card_face :=
  match ui_route u, StudyPage_view (store_study (ui_store u)) with
  | RStudy, StudyCard _ _ _ w _ => Some (word_card w (ui_showDefinition u))
  | _, _ => None
  end.

(** The home page, when it is on screen. *)
Definition home_page (u : UI) : option home_view :=
  if ui_route u is RHome
  then HomePage_view (progress (store_user (ui_store u))) (sys_vocab (store_vocab (ui_store u))) (ui_dbStatus u)
  else None.

(** One event: [None] when the control it needs is not on screen (or is
    disabled), or when no thunk is in flight at that position. *)
Definition ui_step (e : ui_event) (u : UI) : option UI :=
  let s := ui_store u in
  let v := sys_vocab (store_vocab s) in
  match e with
  | NavLink r => if decide (r = ui_route u) then Some u else Some (show r s)
  | HomeSelectSet setId =>
      match home_page u with
      | Some hv =>
          if existsb (fun c => String.eqb (card_id c) setId) (hv_cards hv)
          then Some (mkUI (dispatch_thunk (loadWordsFromSet setId) s) RHome (ui_dbStatus u) false) else None
      | None => None
      end
  | HomeDefaultEffect =>
      if ui_route u is RHome then
        Some (match defaultSetEffect v with
              | Some c => mkUI (dispatch_thunk c s) RHome (ui_dbStatus u) false
              | None => u
              end)
      else None
  | HomeStartStudy now =>
      match home_page u with
      | Some hv =>
          if hv_startEnabled hv then
            match handleStartStudy now v with
            | Some a => Some (show RStudy (dispatch (StudyAction a) s))
            | None => Some u
            end
          else None
      | None => None
      end
  | HomeReset env =>
      match home_page u with
      | Some (mkHomeView _ _ _ (Some _) _) =>
          let '(status, s') := home_resetDatabase env s in
          Some (mkUI s' RHome (if status is Some _ then status else ui_dbStatus u) false)
      | _ => None
      end
  | StudyNext now =>
      if study_card_shown u then Some (run_study_handler (handleNextWord now (store_study s)) u) else None
  | StudyPrevious =>
      if study_card_shown u && negb (Z.eqb (currentIndex (store_study s)) 0)
      then Some (run_study_handler (handlePreviousWord (store_study s)) u)
      else None
  | StudyEnd now =>
      if study_card_shown u then Some (run_study_handler (handleEndSession now (store_study s)) u) else None
  | StudyToggle =>
      if study_card_shown u then Some (run_study_handler (toggleDefinition (ui_showDefinition u)) u) else None
  | SettingsChange c =>
      if ui_route u is RSettings then
        if control_delivers c then Some (mkUI (dispatch (UserAction (handlePreferenceChange c)) s) RSettings None false)
        else None
      else None
  | ThunkSettles env msg i =>
      option_map (fun s' => mkUI s' (ui_route u) (ui_dbStatus u) (ui_showDefinition u)) (settle_thunk env msg i s)
  end.

(** The first render: [HomePage] mounts on ["/"], then [App]'s effect runs. *)
Definition ui_start (now : Z) : UI :=
  let u := home_mount store_init in
  mkUI (dispatch (app_effect now) (ui_store u)) RHome (ui_dbStatus u) false.

Inductive ui_reachable : UI -> Prop :=
| ui_reach_start now : ui_reachable (ui_start now)
| ui_reach_step e u u' : ui_reachable u -> ui_step e u = Some u' -> ui_reachable u'.

(** ** Proofs *)

Module AppProofs.
Import StudySliceProofs.

(** Two stores with the same study, test and user slices. *)
Definition same_slices (s s' : ReduxStore) : Prop :=
  store_study s' = store_study s /\ store_test s' = store_test s /\ store_user s' = store_user s.

Lemma same_slices_refl s : same_slices s s.
Proof. done. Qed.

Lemma same_slices_trans s1 s2 s3 : same_slices s1 s2 -> same_slices s2 s3 -> same_slices s1 s3.
Proof. intros (? & ? & ?) (? & ? & ?). split; [|split]; congruence. Qed.

Lemma dispatch_thunk_slices c s : same_slices s (dispatch_thunk c s).
Proof. done. Qed.

Lemma checkDatabaseStatus_slices s : same_slices s (home_checkDatabaseStatus s).2.
Proof. unfold home_checkDatabaseStatus. by destruct (lift_init getDatabaseStatus _). Qed.

Lemma resetDatabase_slices env s : same_slices s (home_resetDatabase env s).2.
Proof.
  unfold home_resetDatabase. destruct (lift_init (InitDB.resetDatabase env) _) as [[|] vs']; [|done].
  eapply same_slices_trans; [|apply checkDatabaseStatus_slices]. done.
Qed.

Lemma settle_thunk_slices env msg i s s' : settle_thunk env msg i s = Some s' -> same_slices s s'.
Proof. unfold settle_thunk. destruct (sys_finish env msg i _); simpl; [intros [= <-]|]; done. Qed.

Lemma home_mount_slices s : same_slices s (ui_store (home_mount s)).
Proof.
  unfold home_mount. pose proof (checkDatabaseStatus_slices (dispatch_thunk loadWordSets s)) as H.
  destruct (home_checkDatabaseStatus _). exact H.
Qed.

Lemma show_slices r s : same_slices s (ui_store (show r s)).
Proof.
  destruct r; simpl; [apply home_mount_slices| |done..].
  destruct (isSessionActive (store_study s)); [done|apply home_mount_slices].
Qed.

(** The study slice as the pages can leave it: its invariant, and an
    active session has words. *)
Definition study_ui_inv (st : StudyState) : Prop :=
  study_inv st /\ (isSessionActive st = true -> wordsInSession st <> []).

Lemma study_ui_inv_step st a :
  study_ui_inv st -> (forall ss ws, a = StartSession ss ws -> ws <> []) ->
  study_ui_inv (study_reducer st a).
Proof.
  intros [Hi Ha] Hs. split; [by apply study_reducer_inv|].
  destruct a as [ss ws| | |now|p|]; simpl.
  - intros _. by apply (Hs ss ws).
  - unfold nextWord. by case_match.
  - unfold previousWord. by case_match.
  - discriminate.
  - exact Ha.
  - discriminate.
Qed.

(** The invariant of the running application: no test has started, the
    progress statistics are the initial ones, and the study slice keeps
    [study_ui_inv]. *)
Definition app_inv (s : ReduxStore) : Prop :=
  store_test s = test_initialState /\ progress (store_user s) = progress user_initialState /\
  study_ui_inv (store_study s).

Lemma app_inv_same s s' : same_slices s s' -> app_inv s -> app_inv s'.
Proof. intros (E1 & E2 & E3) (H1 & H2 & H3). unfold app_inv. by rewrite E1, E2, E3. Qed.

Lemma app_inv_show r s : app_inv s -> app_inv (ui_store (show r s)).
Proof. apply app_inv_same, show_slices. Qed.

Lemma app_inv_study_list acts s :
  app_inv s -> (forall ss ws, StartSession ss ws ∉ acts) ->
  app_inv (dispatch_list (map StudyAction acts) s).
Proof.
  revert s. induction acts as [|a acts IH]; intros s Hs Hn; [done|]. simpl. apply IH.
  - destruct Hs as (H1 & H2 & H3). split; [done|]. split; [done|].
    apply (study_ui_inv_step (store_study s)); [exact H3|]. intros ss ws ->. destruct (Hn ss ws). by left.
  - intros ss ws Hin. apply (Hn ss ws). by right.
Qed.

Lemma study_handlers_no_start now st b ss ws :
  (StartSession ss ws ∉ pe_dispatch (handleNextWord now st)) /\
  (StartSession ss ws ∉ pe_dispatch (handlePreviousWord st)) /\
  (StartSession ss ws ∉ pe_dispatch (handleEndSession now st)) /\
  (StartSession ss ws ∉ pe_dispatch (toggleDefinition b)).
Proof.
  unfold handleNextWord, handlePreviousWord, handleEndSession, toggleDefinition.
  split; [|split; [|split]]; repeat case_match; simpl;
    first [apply not_elem_of_nil|intros ?%list_elem_of_singleton; discriminate].
Qed.

Lemma run_study_handler_slices pe u :
  same_slices (dispatch_list (map StudyAction (pe_dispatch pe)) (ui_store u)) (ui_store (run_study_handler pe u)).
Proof. unfold run_study_handler. repeat case_match; first [apply same_slices_refl|apply show_slices]. Qed.

Lemma app_inv_run_study_handler pe u :
  app_inv (ui_store u) -> (forall ss ws, StartSession ss ws ∉ pe_dispatch pe) ->
  app_inv (ui_store (run_study_handler pe u)).
Proof. intros H Hn. eapply app_inv_same; [apply run_study_handler_slices|by apply app_inv_study_list]. Qed.

Lemma app_inv_start now s :
  app_inv s -> (0 < List.length (currentWordSet (sys_vocab (store_vocab s))))%nat ->
  forall a, handleStartStudy now (sys_vocab (store_vocab s)) = Some a ->
  app_inv (dispatch (StudyAction a) s).
Proof.
  intros (H1 & H2 & H3) Hn a. unfold handleStartStudy. rewrite (proj2 (Nat.ltb_lt _ _) Hn).
  intros [= <-]. split; [done|]. split; [done|]. apply (study_ui_inv_step (store_study s)); [exact H3|].
  intros ss ws [= _ <-] E. rewrite E in Hn. simpl in Hn. lia.
Qed.

Lemma app_inv_user s pp : app_inv s -> app_inv (dispatch (UserAction (UpdatePreferences pp)) s).
Proof. done. Qed.

(** "Start studying" is enabled only with words loaded. *)
Lemma home_page_start u hv :
  home_page u = Some hv -> hv_startEnabled hv = true ->
  (0 < List.length (currentWordSet (sys_vocab (store_vocab (ui_store u)))))%nat.
Proof.
  unfold home_page, HomePage_view. destruct (ui_route u); try discriminate.
  destruct (home_loading_view _); [discriminate|]. intros [= <-]. simpl.
  intros H%negb_true_iff%Nat.eqb_neq. lia.
Qed.

Lemma ui_step_inv e u u' : ui_step e u = Some u' -> app_inv (ui_store u) -> app_inv (ui_store u').
Proof.
  intros Hstep Hinv.
  destruct e as [r|setId| |now|env|now| |now| |c|env msg i]; unfold ui_step in Hstep; cbv beta iota zeta in Hstep.
  - destruct (decide _); injection Hstep as <-; [exact Hinv|by apply app_inv_show].
  - destruct (home_page u); [|discriminate]. destruct (existsb _ _); [|discriminate]. by injection Hstep as <-.
  - destruct (ui_route u); try discriminate. by destruct (defaultSetEffect _); injection Hstep as <-.
  - destruct (home_page u) as [hv|] eqn:Hh; [|discriminate]. destruct (hv_startEnabled hv) eqn:Hg; [|discriminate].
    destruct (handleStartStudy now _) eqn:Ha; injection Hstep as <-; [|exact Hinv].
    apply (app_inv_show RStudy (dispatch (StudyAction s) (ui_store u))).
    apply (app_inv_start now _ Hinv); [exact (home_page_start u hv Hh Hg)|exact Ha].
  - destruct (home_page u) as [[? ? ? [?|] ?]|]; try discriminate.
    pose proof (resetDatabase_slices env (ui_store u)) as Hs.
    destruct (home_resetDatabase env (ui_store u)) as [status s']. injection Hstep as <-.
    exact (app_inv_same _ _ Hs Hinv).
  - destruct (study_card_shown u); [|discriminate]. apply Some_inj in Hstep; subst u'.
    apply app_inv_run_study_handler; [done|]. intros ss ws. apply (study_handlers_no_start now _ false ss ws).
  - destruct (_ && _); [|discriminate]. apply Some_inj in Hstep; subst u'.
    apply app_inv_run_study_handler; [done|]. intros ss ws. apply (study_handlers_no_start 0 _ false ss ws).
  - destruct (study_card_shown u); [|discriminate]. apply Some_inj in Hstep; subst u'.
    apply app_inv_run_study_handler; [done|]. intros ss ws. apply (study_handlers_no_start now _ false ss ws).
  - destruct (study_card_shown u); [|discriminate]. apply Some_inj in Hstep; subst u'.
    apply app_inv_run_study_handler; [done|]. intros ss ws. apply (study_handlers_no_start 0 (store_study (ui_store u)) _ ss ws).
  - destruct (ui_route u); try discriminate. destruct (control_delivers c); [|discriminate].
    injection Hstep as <-. by apply app_inv_user.
  - destruct (settle_thunk env msg i _) eqn:E; [|discriminate]. injection Hstep as <-.
    exact (app_inv_same _ _ (settle_thunk_slices _ _ _ _ _ E) Hinv).
Qed.

Lemma ui_start_inv now : app_inv (ui_store (ui_start now)).
Proof.
  unfold ui_start. pose proof (home_mount_slices store_init) as (E1 & E2 & E3).
  destruct (home_mount store_init) as [s r st]; simpl in *. unfold app_inv; simpl.
  rewrite E1, E2, E3. split; [done|]. split; [done|]. split; [|discriminate].
  split; [simpl; lia|split; [by right|done]].
Qed.

Lemma ui_reachable_inv u : ui_reachable u -> app_inv (ui_store u).
Proof.
  induction 1 as [now|e u u' _ IH Hstep]; [apply ui_start_inv|exact (ui_step_inv e u u' Hstep IH)].
Qed.

(** Out-of-range daily goals fail the validator. *)
Lemma validate_goal_out_of_range p :
  goal_out_of_range (p_dailyGoal p) -> validateStudyPreferences (preferences_partial p) = false.
Proof.
  unfold validateStudyPreferences, preferences_partial. cbn [ppr_dailyGoal].
  destruct (p_dailyGoal p) as [q| |]; [|done|done]. intros [Hq|Hq].
  - replace (Qle_bool 1 q) with false; [by rewrite orb_true_r|].
    symmetry. apply not_true_iff_false. rewrite Qle_bool_iff. by apply Qlt_not_le.
  - replace (Qle_bool q 100) with false; [by rewrite orb_true_r|].
    symmetry. apply not_true_iff_false. rewrite Qle_bool_iff. by apply Qlt_not_le.
Qed.

(** C11: The user interface never starts a test and never records
    progress: no page dispatches [startTest] or a progress action, so in
    every state reachable through the pages the test page shows the
    choice of a test type (whose buttons have no handler) and the
    progress page shows 0 hours, 0 accuracy, no streak, no mastered word,
    and seven labelled bars of the minimum height. *)
Theorem ui_never_tests_or_records_progress u :
  ui_reachable u ->
  TestPage_view (store_test (ui_store u)) = TestStart /\
  ProgressPage_view (progress (store_user (ui_store u))) =
    mkProgressView 0 0 0 0 (map (fun l => (5%Z, Some l)) weekday_labels).
Proof. intros H. destruct (ui_reachable_inv u H) as (Ht & Hp & _). rewrite Ht, Hp. by split. Qed.

(** C12: Whenever a study session is active in a state reachable through
    the pages, the study page shows its card, at a position between 1 and
    the number of words: the home page only starts a session with the
    loaded words, which are not empty, and the navigation keeps the cursor
    on the list. *)
Theorem ui_active_session_shows_card u :
  ui_reachable u -> isSessionActive (store_study (ui_store u)) = true ->
  let st := store_study (ui_store u) in
  exists w last,
    StudyPage_view st = StudyCard (currentIndex st + 1) (Z.of_nat (List.length (wordsInSession st)))
                          (sessionProgress st) w last /\
    (1 <= currentIndex st + 1 <= Z.of_nat (List.length (wordsInSession st)))%Z.
Proof.
  intros H Ha. destruct (ui_reachable_inv u H) as (_ & _ & (H0 & H1 & H2) & Hw). specialize (Hw Ha).
  cbv zeta. destruct H1 as [H1|[E _]]; [|done].
  destruct (lookup_lt_is_Some_2 (wordsInSession (store_study (ui_store u)))
              (Z.to_nat (currentIndex (store_study (ui_store u))))) as [w Hl]; [lia|].
  unfold StudyPage_view. rewrite Ha, H2. unfold js_index. rewrite (proj2 (Z.leb_le _ _) H0), Hl.
  do 2 eexists. split; [reflexivity|lia].
Qed.

(** ** The word card's [showDefinition] *)

Lemma home_mount_hides s : ui_showDefinition (home_mount s) = false.
Proof. unfold home_mount. by destruct (home_checkDatabaseStatus _). Qed.

Lemma show_hides r s : ui_showDefinition (show r s) = false.
Proof.
  destruct r; simpl; try done; [apply home_mount_hides|].
  destruct (isSessionActive _); [done|apply home_mount_hides].
Qed.

Ltac hides := first [apply show_hides|apply home_mount_hides|
  destruct (isSessionActive _); [reflexivity|apply home_mount_hides]].

Lemma study_card_shown_route u : study_card_shown u = true -> ui_route u = RStudy.
Proof. unfold study_card_shown. by destruct (ui_route u). Qed.

Lemma study_card_shown_eq u u' :
  ui_route u' = ui_route u -> store_study (ui_store u') = store_study (ui_store u) ->
  study_card_shown u' = study_card_shown u.
Proof. intros E1 E2. unfold study_card_shown. by rewrite E1, E2. Qed.

Lemma dispatch_list_study acts s :
  store_study (dispatch_list (map StudyAction acts) s) = dispatch_all (store_study s) acts.
Proof. revert s. induction acts as [|a acts IH]; intros s; [done|]. exact (IH _). Qed.

(** A handler of the study page that calls [setShowDefinition(false)] or
    navigates to ['/'] leaves the definition hidden. *)
Lemma run_study_handler_hides pe u :
  pe_showDefinition pe = Some false \/ pe_navigate pe = Some "/" ->
  ui_showDefinition (run_study_handler pe u) = false.
Proof.
  unfold run_study_handler. intros [E|E]; rewrite E; [|change (path_route "/") with (Some RHome)];
    repeat case_match; first [reflexivity|apply show_hides|congruence].
Qed.

(** Otherwise the page stays mounted with the slice the dispatches leave
    and the value the handler sets, or the session has ended and the home
    page is mounted. *)
Lemma run_study_handler_showDefinition pe u :
  ui_showDefinition (run_study_handler pe u) = false \/
  (ui_route (run_study_handler pe u) = RStudy /\
   store_study (ui_store (run_study_handler pe u)) = dispatch_all (store_study (ui_store u)) (pe_dispatch pe) /\
   ui_showDefinition (run_study_handler pe u) = default (ui_showDefinition u) (pe_showDefinition pe)).
Proof.
  unfold run_study_handler. repeat case_match;
    first [left; apply show_hides|right; split; [done|split; [apply dispatch_list_study|done]]].
Qed.

(** Every event either hides the definition (a page mounted anew, a move
    of the study cursor, an event of another page), or keeps the route and
    the study slice and then either keeps [showDefinition] or is the click
    on a card on screen. *)
Lemma ui_step_showDefinition e u u' :
  ui_step e u = Some u' ->
  ui_showDefinition u' = false \/
  (ui_route u' = ui_route u /\ store_study (ui_store u') = store_study (ui_store u) /\
   (ui_showDefinition u' = ui_showDefinition u \/ study_card_shown u = true)).
Proof.
  intros Hstep.
  destruct e as [r|setId| |now|env|now| |now| |c|env msg i]; unfold ui_step in Hstep; cbv beta iota zeta in Hstep.
  - destruct (decide _); injection Hstep as <-; [by right; auto|left; hides].
  - destruct (home_page u); [|discriminate]. destruct (existsb _ _); [|discriminate].
    injection Hstep as <-. by left.
  - destruct (ui_route u) eqn:Er; try discriminate.
    destruct (defaultSetEffect _); injection Hstep as <-; [by left|by right; auto].
  - destruct (home_page u); [|discriminate]. destruct (hv_startEnabled _); [|discriminate].
    destruct (handleStartStudy _ _); injection Hstep as <-; [left; hides|by right; auto].
  - destruct (home_page u) as [[? ? ? [?|] ?]|]; try discriminate.
    destruct (home_resetDatabase _ _). injection Hstep as <-. by left.
  - destruct (study_card_shown u); [|discriminate]. apply Some_inj in Hstep; subst u'. left.
    apply run_study_handler_hides. unfold handleNextWord. case_match; [by left|by right].
  - destruct (_ && _) eqn:Hg; [|discriminate]. apply Some_inj in Hstep; subst u'.
    apply andb_prop in Hg as [Hg _]. unfold handlePreviousWord.
    case_match; [left; apply run_study_handler_hides; by left|].
    destruct (run_study_handler_showDefinition (mkPageEffect [] None None) u) as [E|(E1 & E2 & E3)];
      [by left|right].
    split; [rewrite E1; symmetry; by apply study_card_shown_route|split; [exact E2|by left]].
  - destruct (study_card_shown u); [|discriminate]. apply Some_inj in Hstep; subst u'. left.
    apply run_study_handler_hides. by right.
  - destruct (study_card_shown u) eqn:Hg; [|discriminate]. apply Some_inj in Hstep; subst u'.
    destruct (run_study_handler_showDefinition (toggleDefinition (ui_showDefinition u)) u)
      as [E|(E1 & E2 & E3)]; [by left|right].
    split; [rewrite E1; symmetry; by apply study_card_shown_route|split; [exact E2|by right]].
  - destruct (ui_route u); try discriminate. destruct (control_delivers c); [|discriminate].
    injection Hstep as <-. by left.
  - destruct (settle_thunk env msg i _) eqn:E; [|discriminate]. injection Hstep as <-. right.
    destruct (settle_thunk_slices _ _ _ _ _ E) as [Es _]. simpl. auto.
Qed.

(** The definition is only revealed on the card on screen. *)
Definition definition_inv (u : UI) : Prop :=
  ui_showDefinition u = true -> study_card_shown u = true.

Lemma ui_reachable_definition_inv u : ui_reachable u -> definition_inv u.
Proof.
  induction 1 as [now|e u u' _ IH Hstep]; [intros H; discriminate H|]. intros Hd.
  destruct (ui_step_showDefinition e u u' Hstep) as [E|(E1 & E2 & [E3|E3])]; [congruence| |];
    rewrite (study_card_shown_eq u u' E1 E2); [apply IH; congruence|exact E3].
Qed.

(** The card shows the meanings of the word it shows. *)
Lemma StudyPage_view_card st p n q w l :
  StudyPage_view st = StudyCard p n q w l -> currentWord st = Some w.
Proof. unfold StudyPage_view. repeat case_match; congruence. Qed.

(** C13: Whenever the study cursor moves to another word, by whatever
    event of the interface, the card of the new word is shown with its
    definition hidden: [handleNextWord] and [handlePreviousWord] call
    [setShowDefinition(false)] with the dispatch that moves the cursor,
    and a page mounted anew starts from [false]. *)
Theorem ui_new_word_hides_definition e u u' :
  ui_step e u = Some u' ->
  currentWord (store_study (ui_store u')) <> currentWord (store_study (ui_store u)) ->
  ui_showDefinition u' = false.
Proof.
  intros H Hw. destruct (ui_step_showDefinition e u u' H) as [E|(_ & E & _)]; [exact E|congruence].
Qed.

(** C14: In every state reachable through the pages, a revealed definition
    is only ever on the study page's card, and the card then shows the
    part of speech and meaning of every definition (and the examples, if
    any) of the session's current word. *)
Theorem ui_revealed_card_shows_current_word u :
  ui_reachable u -> ui_showDefinition u = true ->
  exists w, currentWord (store_study (ui_store u)) = Some w /\
    study_card_face u =
      Some (CardRevealed (w_word w) (w_pronunciation w)
              (map (fun d => (d_partOfSpeech d, d_meaning d)) (w_definitions w))
              (if w_examples w is [] then None
               else Some (map (fun ex => (ex_sentence ex, ex_translation ex)) (w_examples w)))).
Proof.
  intros H Hd. pose proof (ui_reachable_definition_inv u H Hd) as Hs.
  unfold study_card_shown in Hs. unfold study_card_face.
  destruct (ui_route u); try discriminate.
  destruct (StudyPage_view _) as [|p n q w l] eqn:E; [discriminate|].
  exists w. rewrite Hd. split; [exact (StudyPage_view_card _ _ _ _ _ _ E)|].
  unfold word_card. by destruct (w_examples w).
Qed.

(** C30: The settings page stores whatever the daily-goal field parses
    to: from the settings page, a text that [parseInt] reads as [NaN] (an
    emptied field) or as a goal below 1 or above 100 (the bounds the
    input only suggests) becomes the preference, and
    [validateStudyPreferences], which accepts the initial preferences,
    rejects the result; no page calls the validator. *)
Theorem settings_accepts_invalid_goal u text :
  ui_route u = RSettings -> goal_out_of_range (js_parseInt text) ->
  validateStudyPreferences (preferences_partial (preferences user_initialState)) = true /\
  exists u', ui_step (SettingsChange (DailyGoalInput text)) u = Some u' /\
    p_dailyGoal (preferences (store_user (ui_store u'))) = js_parseInt text /\
    validateStudyPreferences (preferences_partial (preferences (store_user (ui_store u')))) = false.
Proof.
  intros Hr Hn. split; [reflexivity|]. unfold ui_step. rewrite Hr. eexists. split; [reflexivity|].
  split; [reflexivity|]. by apply validate_goal_out_of_range.
Qed.

End AppProofs.

Module AppWitnesses.
Import AppProofs.

(** A seed file with one default word set and one word in it. *)
Definition my_set : WordSet := mkWordSet "my-set" "mine" "my words" BEGINNER 1 [] true 0 0.
Definition my_word : Word :=
  mkWord "w1" "apple" "/ap/" [] [] BEGINNER 1 [] None None (Some "my-set") None None None 0 0.
Definition env_json : Env :=
  mkEnv 3000 true (FetchJson (mkSeedPayload (Some [Some my_set]) (Some [Some my_word]))) true.

Definition no_msg : exn -> option string := fun _ => None.

(** The same seed file with a second word in the set. *)
Definition my_word2 : Word :=
  mkWord "w2" "pear" "/pe@/" [mkDefinition None "noun" "梨" None None] [] BEGINNER 1 [] None None (Some "my-set")
    None None None 0 0.
Definition env_json2 : Env :=
  mkEnv 3000 true (FetchJson (mkSeedPayload (Some [Some my_set]) (Some [Some my_word; Some my_word2]))) true.

(** The state after an event, or the same state when it cannot happen. *)
Definition after (e : ui_event) (u : UI) : UI := if ui_step e u is Some u' then u' else u.

Lemma after_reachable e u : ui_reachable u -> is_Some (ui_step e u) -> ui_reachable (after e u).
Proof. intros H [u' E]. unfold after. rewrite E. exact (ui_reach_step e u u' H E). Qed.

(** Open the app, let [loadWordSets] settle, let the default-set effect
    load the set's words, and start studying. *)
Definition studying : UI :=
  after (HomeStartStudy 4000) (after (ThunkSettles env_json no_msg 0) (after HomeDefaultEffect
    (after (ThunkSettles env_json no_msg 0) (ui_start 0)))).

Lemma studying_reachable : ui_reachable studying.
Proof.
  unfold studying.
  repeat (apply after_reachable; [|vm_compute; eexists; reflexivity]). apply ui_reach_start.
Defined.

(** The same run with two words, then a click on the card. *)
Definition revealed : UI :=
  after StudyToggle (after (HomeStartStudy 4000) (after (ThunkSettles env_json2 no_msg 0)
    (after HomeDefaultEffect (after (ThunkSettles env_json2 no_msg 0) (ui_start 0))))).

Lemma revealed_reachable : ui_reachable revealed.
Proof.
  unfold revealed.
  repeat (apply after_reachable; [|vm_compute; eexists; reflexivity]). apply ui_reach_start.
Defined.

Lemma ui_new_word_hides_definition_witness :
  ui_showDefinition revealed = true /\ ui_step (StudyNext 5000) revealed = Some (after (StudyNext 5000) revealed) /\
  ui_showDefinition (after (StudyNext 5000) revealed) = false.
Proof.
  split; [vm_compute; reflexivity|]. split; [vm_compute; reflexivity|].
  apply (ui_new_word_hides_definition (StudyNext 5000) revealed); [vm_compute; reflexivity|vm_compute; discriminate].
Defined.

Lemma ui_revealed_card_shows_current_word_witness :
  exists w, w_word w = "apple" /\
    study_card_face revealed = Some (CardRevealed "apple" (w_pronunciation w) [] None).
Proof.
  destruct (ui_revealed_card_shows_current_word revealed revealed_reachable) as (w & Ew & Ef);
    [vm_compute; reflexivity|].
  exists w. vm_compute in Ew. injection Ew as Ew. subst w. split; [reflexivity|exact Ef].
Defined.

Lemma ui_never_tests_or_records_progress_witness :
  TestPage_view (store_test (ui_store studying)) = TestStart.
Proof. apply (ui_never_tests_or_records_progress studying studying_reachable). Defined.

Lemma ui_active_session_shows_card_witness :
  isSessionActive (store_study (ui_store studying)) = true /\
  exists w last, StudyPage_view (store_study (ui_store studying)) = StudyCard 1 1 0 w last.
Proof.
  assert (Ha : isSessionActive (store_study (ui_store studying)) = true) by (vm_compute; reflexivity).
  split; [exact Ha|].
  destruct (ui_active_session_shows_card studying studying_reachable Ha) as (w & last & E & _).
  exists w, last. rewrite E. vm_compute. reflexivity.
Defined.

Lemma settings_accepts_invalid_goal_witness :
  exists u', ui_step (SettingsChange (DailyGoalInput "")) (after (NavLink RSettings) studying) = Some u' /\
    validateStudyPreferences (preferences_partial (preferences (store_user (ui_store u')))) = false.
Proof.
  destruct (settings_accepts_invalid_goal (after (NavLink RSettings) studying) "") as (_ & u' & E & _ & V);
    [vm_compute; reflexivity|exact I|].
  exists u'. split; [exact E|exact V].
Defined.

End AppWitnesses.
